(** * Crystal personal assistant: a shallow embedding of the core services

    The development follows the Python sources of the repository:

    - [config/settings.py]                 -> [Settings], [AssistantConfig]
    - [crystal/utils/logging.py]           -> [log], [system_event]
    - [crystal/services/ai_service.py]     -> [Module AIService]
    - [crystal/services/task_scheduler.py] -> [Module TaskScheduler]
    - [crystal/services/file_service.py]   -> [Module FileService]
    - [crystal/core/crystal_assistant.py]  -> [Module CrystalAssistant]
    - [crystal/core/orchestrator.py]       -> [Module CrystalOrchestrator]

    Python objects are records whose fields are passed and returned
    explicitly.  Everything outside the repository (the OpenAI and Ollama
    clients, the file system, the clock, pathlib's [resolve], the
    scheduling library) is an oracle of the record [World]; every oracle
    sees the list of events that happened before the call, so the outside
    world may be stateful.  A computation returns the events it emitted
    together with its result, which is a value, a raised exception
    (carrying [str(e)]) or divergence of a [while] loop that ran out of
    fuel.  A call of the logger is an event, except [system_event], which
    always raises.  A method that can raise after it has assigned fields
    of its object ([start] and [shutdown] of the task scheduler) returns
    the object together with the exception.  [process_message] of a
    persona can raise, on a malformed conversation history, after it has
    reloaded the instruction text: its raised result carries no persona,
    and what is stated of the persona after such a call allows for a
    replaced instruction text.  Every other method that raises does so at
    a statement it reaches before any assignment.

    A string is a sequence of code points below 256 (Latin-1), one per
    character of [String.string]; [lower] and [strip] follow Python's
    [str.lower] and [str.strip] on this range.  Text with other code
    points is outside the model. *)

From Stdlib Require Import String Ascii List ZArith Bool Lia DecimalString.
From stdpp Require Import base gmap strings.
Import ListNotations.

Local Open Scope string_scope.
Local Open Scope list_scope.

(* ===================================================================== *)
(** ** Python values, strings and dictionaries *)
(* ===================================================================== *)

Module Py.

(** JSON-like values: what a [Dict[str, Any]] context may hold. *)
#[warnings="-register-all"] Inductive value : Type :=
| VNone
| VBool (b : bool)
| VInt (z : Z)
| VStr (s : string)
| VList (l : list value)
| VDict (d : list (string * value)).

(** An insertion-ordered dictionary with string keys. *)
Definition dict (V : Type) : Type := list (string * V).

Fixpoint dict_get {V : Type} (k : string) (d : dict V) : option V :=
  match d with
  | [] => None
  | (k', v) :: d' => if String.eqb k k' then Some v else dict_get k d'
  end.

(** [d[k] = v]: the value is replaced in place, a new key goes last. *)
Fixpoint dict_set {V : Type} (k : string) (v : V) (d : dict V) : dict V :=
  match d with
  | [] => [(k, v)]
  | (k', v') :: d' =>
      if String.eqb k k' then (k, v) :: d' else (k', v') :: dict_set k v d'
  end.

Definition dict_keys {V : Type} (d : dict V) : list string := map fst d.

(** [d.get(k, default)] *)
Definition dict_get_default {V : Type} (k : string) (default : V) (d : dict V) : V :=
  match dict_get k d with Some v => v | None => default end.

(** Truth value testing. *)
Definition truthy (v : value) : bool :=
  match v with
  | VNone => false
  | VBool b => b
  | VInt z => negb (Z.eqb z 0)
  | VStr s => negb (String.eqb s "")
  | VList l => match l with [] => false | _ => true end
  | VDict d => match d with [] => false | _ => true end
  end.

Definition str_truthy (s : string) : bool := negb (String.eqb s "").

(** The newline character, which a string literal cannot spell. *)
Definition NL : string := String (ascii_of_nat 10) EmptyString.

(** The lower-case form of one code point: the letters [A] to [Z], and
    the capital letters of Latin-1 (192 to 222, the multiplication sign 215
    apart), are 32 below their lower-case forms. *)
Definition lower_char (c : ascii) : ascii :=
  let n := nat_of_ascii c in
  if (Nat.leb 65 n && Nat.leb n 90)
     || (Nat.leb 192 n && Nat.leb n 222 && negb (Nat.eqb n 215))
  then ascii_of_nat (n + 32) else c.

(** [s.lower()] *)
Fixpoint lower (s : string) : string :=
  match s with
  | EmptyString => EmptyString
  | String c s' => String (lower_char c) (lower s')
  end.

(** [c.isspace()]: the white space that [strip] removes: the ASCII
    controls 9 to 13 and 28 to 31, the space, NEXT LINE (133) and the
    no-break space (160). *)
Definition is_space (c : ascii) : bool :=
  let n := nat_of_ascii c in
  (Nat.leb 9 n && Nat.leb n 13) || (Nat.leb 28 n && Nat.leb n 32)
  || Nat.eqb n 133 || Nat.eqb n 160.

Fixpoint lstrip (s : string) : string :=
  match s with
  | EmptyString => EmptyString
  | String c s' => if is_space c then lstrip s' else s
  end.

Fixpoint rev_string_acc (s acc : string) : string :=
  match s with
  | EmptyString => acc
  | String c s' => rev_string_acc s' (String c acc)
  end.

Definition rev_string (s : string) : string := rev_string_acc s EmptyString.

Definition rstrip (s : string) : string := rev_string (lstrip (rev_string s)).

(** [s.strip()] *)
Definition strip (s : string) : string := rstrip (lstrip s).

(** [s.startswith(p)] *)
Definition startswith (p s : string) : bool := String.prefix p s.

(** [sub in s] *)
Fixpoint contains (sub s : string) : bool :=
  if String.prefix sub s then true
  else match s with
       | EmptyString => false
       | String _ s' => contains sub s'
       end.

(** [s.split(c)] for a one-character separator. *)
Fixpoint split_on (c : ascii) (s : string) : list string :=
  match s with
  | EmptyString => [EmptyString]
  | String a s' =>
      let r := split_on c s' in
      if Ascii.eqb a c then EmptyString :: r
      else match r with
           | x :: xs => String a x :: xs
           | [] => [String a EmptyString]
           end
  end.

(** [s.split(c, 1)] when [c] occurs in [s]: the text before and after the
    first occurrence. *)
Fixpoint split_once (c : ascii) (s : string) : option (string * string) :=
  match s with
  | EmptyString => None
  | String a s' =>
      if Ascii.eqb a c then Some (EmptyString, s')
      else match split_once c s' with
           | Some (before, after) => Some (String a before, after)
           | None => None
           end
  end.

(** [s.replace(a, b)] for single characters. *)
Fixpoint replace_char (a b : ascii) (s : string) : string :=
  match s with
  | EmptyString => EmptyString
  | String c s' => String (if Ascii.eqb c a then b else c) (replace_char a b s')
  end.

(** [sep.join(parts)] *)
Definition join (sep : string) (parts : list string) : string :=
  String.concat sep parts.

Definition str_of_nat (n : nat) : string := NilZero.string_of_uint (Nat.to_uint n).
Definition str_of_Z (z : Z) : string := NilZero.string_of_int (Z.to_int z).

(** [x in l] for a list of strings. *)
Definition mem (x : string) (l : list string) : bool :=
  existsb (String.eqb x) l.

(** The last [n] elements: [l[-n:]]. *)
Definition last_n {A : Type} (n : nat) (l : list A) : list A :=
  skipn (List.length l - n) l.

Fixpoint chars (s : string) : list string :=
  match s with
  | EmptyString => []
  | String c s' => String c EmptyString :: chars s'
  end.

(** [d.update(other)]: the entries of [other] are set one after the other. *)
Definition dict_update {V : Type} (d other : dict V) : dict V :=
  fold_left (fun acc entry => dict_set (fst entry) (snd entry) acc) other d.

End Py.

Import Py.

(* ===================================================================== *)
(** ** The outside world and the computation monad *)
(* ===================================================================== *)

(** A pathlib path is the list of its parts; an absolute POSIX path starts
    with its root, the part ["/"] or, for exactly two leading slashes,
    ["//"]. *)
Definition path : Type := list string.

(** One chat message of the remote request: [{"role": r, "content": c}]. *)
Definition chat_message : Type := (value * string)%type.

(** The argument of a trigger constructor of the scheduling library. *)
Inductive trigger_spec : Type :=
| CronSpec (cron_expression : string)
| IntervalSpec (interval_kwargs : dict value)
| DateSpec (run_date : string).

Inductive Event : Type :=
| EvLog (component event : string)
| EvClock
| EvOllamaNew (host : string)
| EvOllamaList
| EvOllamaGenerate (model prompt : string) (num_predict : Z)
| EvOpenAINew (api_key : string)
| EvOpenAICreate (model : string) (messages : list chat_message) (max_tokens : Z)
| EvResolve (p : path)
| EvFsRead (op : string) (p : path)
| EvMkdir (p : path)
| EvMove (src dst : path)
| EvUnlink (p : path)
| EvCopytree (src dst : path).

(** What a call of a collaborator gives back: a value or an exception,
    with [str(e)].  A collaborator always answers. *)
Inductive outcome (A : Type) : Type :=
| Returns (a : A)
| Raises (e : string).

Arguments Returns {A} a.
Arguments Raises {A} e.

(** The result of a computation of this repository: a value, an exception
    or a [while] loop that did not finish. *)
Inductive result (A : Type) : Type :=
| Ok (a : A)
| Raise (e : string)
| Diverge.

Arguments Ok {A} a.
Arguments Raise {A} e.
Arguments Diverge {A}.

Definition of_outcome {A : Type} (o : outcome A) : result A :=
  match o with
  | Returns a => Ok a
  | Raises e => Raise e
  end.

Definition result_value {A : Type} (r : result A) : option A :=
  match r with
  | Ok a => Some a
  | _ => None
  end.

(** The collaborators that are not code of this repository.  Each oracle
    receives the events so far. *)
Record World : Type := {
  (* str(e) of the TypeError of CrystalLogger.system_event *)
  system_event_error : string;
  (* datetime.utcnow().isoformat() and datetime.now().strftime(...) *)
  utcnow : list Event -> string;
  (* ollama.AsyncClient(host=...) *)
  ollama_new : list Event -> string -> outcome unit;
  (* [model['name'] for model in (await client.list()).get('models', [])] *)
  ollama_list : list Event -> outcome (list string);
  (* (await client.generate(model, prompt, options))['response'] *)
  ollama_generate : list Event -> string -> string -> Z -> outcome string;
  (* [c.message.content for c in
        (await client.chat.completions.create(...)).choices] *)
  openai_create :
    list Event -> string -> list chat_message -> Z -> outcome (list (option string));
  (* str(v) for a list or a dictionary *)
  py_repr : value -> string;
  (* pathlib and the file system; [fs_error events op p] is the exception
     of [p.resolve()], and of [p.exists()], [p.is_dir()] or [p.is_file()]
     when the test does not answer True (a NUL byte in the path, a loop of
     symbolic links, a directory that may not be searched), if the call
     raises *)
  fs_error : list Event -> string -> path -> option string;
  fs_resolve : list Event -> path -> path;
  fs_exists : list Event -> path -> bool;
  fs_is_dir : list Event -> path -> bool;
  fs_is_file : list Event -> path -> bool;
  fs_iterdir : list Event -> path -> outcome (list path);
  fs_rglob : list Event -> path -> outcome (list path);
  fs_size : list Event -> path -> outcome Z;
  fs_mtime : list Event -> path -> outcome string;
  fs_sha256 : list Event -> path -> outcome string;
  fs_read_text : list Event -> path -> outcome string;
  fs_mkdir : list Event -> path -> outcome unit;
  fs_move : list Event -> path -> path -> outcome unit;
  fs_unlink : list Event -> path -> outcome unit;
  fs_copytree : list Event -> path -> path -> outcome unit;
  (* mimetypes.guess_type(str(p))[0] *)
  guess_type : string -> option string;
  (* the scheduling library: a bad time zone, a scheduler that cannot
     start, a bad trigger or a bad job (a callable that does not accept the
     arguments) raise *)
  timezone_error : string -> option string;
  scheduler_start_error : option string;
  trigger_error : trigger_spec -> option string;
  job_error : string -> list value -> dict value -> option string
}.

(** A computation reads the world and the past events, and returns the
    events it emitted with its result. *)
Definition M (A : Type) : Type := World -> list Event -> list Event * result A.

Definition ret {A : Type} (a : A) : M A := fun _ _ => ([], Ok a).

Definition raise {A : Type} (e : string) : M A := fun _ _ => ([], Raise e).

Definition diverge {A : Type} : M A := fun _ _ => ([], Diverge).

Definition bind {A B : Type} (m : M A) (k : A -> M B) : M B :=
  fun w h =>
    match m w h with
    | (t, Ok a) => let (t', r) := k a w (h ++ t) in (t ++ t', r)
    | (t, Raise e) => (t, Raise e)
    | (t, Diverge) => (t, Diverge)
    end.

(** [try: m  except Exception as e: handler e] *)
Definition try_except {A : Type} (m : M A) (handler : string -> M A) : M A :=
  fun w h =>
    match m w h with
    | (t, Raise e) => let (t', r) := handler e w (h ++ t) in (t ++ t', r)
    | r => r
    end.

(** Emit one event and answer with the oracle's reply. *)
Definition call {A : Type} (ev : Event) (oracle : World -> list Event -> outcome A) : M A :=
  fun w h => ([ev], of_outcome (oracle w h)).

Definition ask {A : Type} (ev : Event) (oracle : World -> list Event -> A) : M A :=
  fun w h => ([ev], Ok (oracle w h)).

Definition pure_of {A : Type} (f : World -> A) : M A := fun w _ => ([], Ok (f w)).

Declare Scope py_scope.
Delimit Scope py_scope with py.
Notation "x <- m ;; k" := (bind m (fun x => k))
  (at level 100, m at next level, right associativity) : py_scope.
Notation "m ;; k" := (bind m (fun _ => k))
  (at level 100, right associativity) : py_scope.
Local Open Scope py_scope.

(** An effect the model lets always succeed. *)
Definition emit (ev : Event) : M unit := fun _ _ => ([ev], Ok tt).

(** A call of [CrystalLogger] ([assistant_action], [error], [warning],
    [info]); the record keeps the component and the name of the logged
    event. *)
Definition log (component event : string) : M unit := emit (EvLog component event).

(** [CrystalLogger.system_event(event)] calls
    [self.logger.info("system_event", event=event, ...)]: the name of the
    event reaches the logging library twice, by position and by keyword, so
    the call raises a [TypeError] and logs nothing. *)
Definition system_event (component event : string) : M unit :=
  fun w _ => ([], Raise (system_event_error w)).

Definition now : M string := ask EvClock utcnow.

(** A statement of a method that returns its object together with what
    the call did: the exception is caught and kept. *)
Definition attempt {A : Type} (m : M A) : M (outcome A) :=
  try_except (a <- m ;; ret (Returns a)) (fun e => ret (Raises e)).

(** The caller's side of such a method: the exception is raised, if
    there is one. *)
Definition raised {A : Type} (o : outcome A) : M A :=
  match o with
  | Returns a => ret a
  | Raises e => raise e
  end.

(** A test of the file system ([exists], [is_dir], [is_file]).  The
    oracle tells whether the call answers [True]; when it does not, the
    call answers [False], unless [fs_error] has it raise. *)
Definition fs_query (op : string) (p : path)
    (oracle : World -> list Event -> path -> bool) : M bool :=
  fun w h =>
    ([EvFsRead op p],
     if oracle w h p then Ok true
     else match fs_error w h op p with
          | Some e => Raise e
          | None => Ok false
          end).

(** [p.resolve()] *)
Definition resolve (p : path) : M path :=
  fun w h =>
    ([EvResolve p],
     match fs_error w h "resolve" p with
     | Some e => Raise e
     | None => Ok (fs_resolve w h p)
     end).

(** A read of the file system whose oracle answers or raises. *)

Definition fs_try {A : Type} (op : string) (p : path)
    (oracle : World -> list Event -> path -> outcome A) : M A :=
  call (EvFsRead op p) (fun w h => oracle w h p).

(** [for x in l: body x acc], threading the loop state. *)
Fixpoint for_each {A S : Type} (l : list A) (body : A -> S -> M S) (s : S) : M S :=
  match l with
  | [] => ret s
  | x :: l' => s' <- body x s ;; for_each l' body s'
  end.

(** [str(v)] and the formatting of a value inside an f-string. *)
Definition py_str (v : value) : M string :=
  match v with
  | VNone => ret "None"
  | VBool true => ret "True"
  | VBool false => ret "False"
  | VInt z => ret (str_of_Z z)
  | VStr s => ret s
  | _ => pure_of (fun w => py_repr w v)
  end.

(** [for x in v]: lists give their elements, strings their characters,
    dictionaries their keys; nothing else is iterable. *)
Definition py_iter (v : value) : M (list value) :=
  match v with
  | VList l => ret l
  | VStr s => ret (map VStr (chars s))
  | VDict d => ret (map VStr (dict_keys d))
  | _ => raise "object is not iterable"
  end.

(** [v[-3:]]: only sequences can be sliced. *)
Definition py_last3 (v : value) : M value :=
  match v with
  | VList l => ret (VList (last_n 3 l))
  | VStr s => ret (VStr (String.concat "" (last_n 3 (chars s))))
  | VDict _ => raise "unhashable type: 'slice'"
  | _ => raise "object is not subscriptable"
  end.

(** [v.get(k, default)]: only dictionaries have [get]. *)
Definition py_get (v : value) (k : string) (default : value) : M value :=
  match v with
  | VDict d => ret (dict_get_default k default d)
  | _ => raise "object has no attribute 'get'"
  end.

(** [context and context.get('conversation_history')] as a condition. *)
Definition conversation_history (context : option (dict value)) : option value :=
  match context with
  | None => None
  | Some [] => None
  | Some d =>
      match dict_get "conversation_history" d with
      | Some v => if truthy v then Some v else None
      | None => None
      end
  end.

Definition is_some {A : Type} (o : option A) : bool :=
  match o with Some _ => true | None => false end.

Definition nonempty {A : Type} (l : list A) : bool :=
  match l with [] => false | _ => true end.

(* ===================================================================== *)
(** ** config/settings.py *)
(* ===================================================================== *)

Record Settings : Type := {
  openai_api_key : option string;
  openai_model : string;
  openai_max_tokens : Z;
  ollama_host : string;
  default_local_model : string;
  use_local_first : bool;
  fallback_to_api : bool;
  allow_file_operations : bool;
  allowed_directories : list string;
  scheduler_timezone : string;
  auto_organize_downloads : bool;
  duplicate_check_enabled : bool;
  backup_before_organize : bool
}.

(** The defaults of the class [Settings], for a home directory [home]. *)
Definition default_settings (home : string) : Settings := {|
  openai_api_key := None;
  openai_model := "gpt-3.5-turbo";
  openai_max_tokens := 1000;
  ollama_host := "http://localhost:11434";
  default_local_model := "llama3.1:8b";
  use_local_first := true;
  fallback_to_api := true;
  allow_file_operations := true;
  allowed_directories :=
    [home +:+ "/Documents"; home +:+ "/Downloads"; home +:+ "/Desktop"];
  scheduler_timezone := "UTC";
  auto_organize_downloads := false;
  duplicate_check_enabled := true;
  backup_before_organize := true
|}.

(** The configuration dictionary of one assistant, by the keys the code
    reads with [config.get]. *)
Record AssistantConfig : Type := {
  instructions_file : option string;
  preferred_model : option string;
  capabilities_config : option (dict value)
}.

(** [AssistantConfig.RUBY] *)
Definition RUBY : AssistantConfig := {|
  instructions_file := Some "crystal/assistants/instructions/ruby_instructions.md";
  preferred_model := Some "gpt-4o-mini";
  capabilities_config := Some
    [("schedule_management", VStr "Manage calendars, appointments, and reminders");
     ("file_organization", VStr "Organize, search, and manage files and folders");
     ("task_automation", VStr "Create and execute automated workflows");
     ("system_monitoring", VStr "Monitor system resources and performance");
     ("general_assistance", VStr "Provide helpful information and support")]
|}.

(* ===================================================================== *)
(** ** crystal/services/ai_service.py *)
(* ===================================================================== *)

Module AIService.

(** The fields of an [AIService] object.  A client is present or absent;
    its behaviour is the world's. *)
Record t : Type := {
  openai_client : option string;
  ollama_client : option string;
  available_local_models : list string;
  is_initialized : bool
}.

(** [AIService()] *)
Definition new : t := {|
  openai_client := None;
  ollama_client := None;
  available_local_models := [];
  is_initialized := false
|}.

Definition set_openai_client (c : option string) (self : t) : t :=
  {| openai_client := c; ollama_client := ollama_client self;
     available_local_models := available_local_models self;
     is_initialized := is_initialized self |}.

Definition set_ollama_client (c : option string) (self : t) : t :=
  {| openai_client := openai_client self; ollama_client := c;
     available_local_models := available_local_models self;
     is_initialized := is_initialized self |}.

Definition set_available_local_models (l : list string) (self : t) : t :=
  {| openai_client := openai_client self; ollama_client := ollama_client self;
     available_local_models := l;
     is_initialized := is_initialized self |}.

Definition set_is_initialized (b : bool) (self : t) : t :=
  {| openai_client := openai_client self; ollama_client := ollama_client self;
     available_local_models := available_local_models self;
     is_initialized := b |}.

Definition degraded_message : string :=
  "I'm sorry, but I'm unable to process your request right now. Please check the AI service configuration.".

Definition no_content_message : string :=
  "I apologize, but I couldn't generate a response.".

Definition error_message (e : string) : string :=
  "I encountered an error while processing your request: " +:+ e.

Definition system_message : chat_message :=
  (VStr "system", "You are a helpful personal assistant named Ruby.").

Section WithSettings.

Variable settings : Settings.

(** The first statement after the test is a call of [system_event]. *)
Definition initialize (self : t) : M t :=
  if is_initialized self then ret self
  else
    system_event "ai_service" "ai_service_initialization" ;;
    self <- match openai_api_key settings with
            | Some key =>
                if str_truthy key then
                  emit (EvOpenAINew key) ;;
                  log "ai_service" "openai_client_initialized" ;;
                  ret (set_openai_client (Some key) self)
                else
                  log "ai_service" "openai_api_key_not_configured" ;; ret self
            | None =>
                log "ai_service" "openai_api_key_not_configured" ;; ret self
            end ;;
    self <- try_except
              (let host := ollama_host settings in
               call (EvOllamaNew host) (fun w h => ollama_new w h host) ;;
               models <- call EvOllamaList ollama_list ;;
               log "ai_service" "ollama_client_initialized" ;;
               ret (set_available_local_models models
                      (set_ollama_client (Some host) self)))
              (fun e =>
                 log "ai_service" "ollama_initialization_failed" ;;
                 ret (set_ollama_client None self)) ;;
    let self := set_is_initialized true self in
    system_event "ai_service" "ai_service_ready" ;;
    ret self.

(** [max_tokens or settings.openai_max_tokens] *)
Definition token_limit (max_tokens : option Z) : Z :=
  match max_tokens with
  | Some n => if Z.eqb n 0 then openai_max_tokens settings else n
  | None => openai_max_tokens settings
  end.

Definition _build_prompt (message : string) (context : option (dict value)) : M string :=
  prompt <- match conversation_history context with
            | Some history =>
                recent <- py_last3 history ;;
                msgs <- py_iter recent ;;
                prompt <- for_each msgs
                            (fun msg prompt =>
                               role <- py_get msg "role" (VStr "user") ;;
                               content <- py_get msg "content" (VStr "") ;;
                               role <- py_str role ;;
                               content <- py_str content ;;
                               ret (prompt +:+ role +:+ ": " +:+ content +:+ NL))
                            ("Previous conversation:" +:+ NL) ;;
                ret (prompt +:+ NL)
            | None => ret ""
            end ;;
  ret (prompt +:+ "User: " +:+ message +:+ NL +:+ "Assistant:").

Definition _generate_local_response (self : t) (message model : string)
    (context : option (dict value)) (max_tokens : option Z) : M (option string) :=
  match ollama_client self with
  | None => ret None
  | Some _ =>
      try_except
        (prompt <- _build_prompt message context ;;
         let n := token_limit max_tokens in
         response <- call (EvOllamaGenerate model prompt n)
                       (fun w h => ollama_generate w h model prompt n) ;;
         log "ai_service" "local_response_generated" ;;
         ret (Some response))
        (fun e => log "ai_service" "local_model_generation_failed" ;; ret None)
  end.

(** The message sequence of [_generate_openai_response]: the system
    message, the well-formed entries of the conversation history, and the
    new user message. *)
Definition build_messages (message : string) (context : option (dict value)) :
    M (list chat_message) :=
  messages <- match conversation_history context with
              | Some history =>
                  msgs <- py_iter history ;;
                  for_each msgs
                    (fun msg messages =>
                       match msg with
                       | VDict d =>
                           match dict_get "role" d, dict_get "content" d with
                           | Some role, Some content =>
                               content <- py_str content ;;
                               ret (messages ++ [(role, content)])
                           | _, _ => ret messages
                           end
                       | _ => ret messages
                       end)
                    [system_message]
              | None => ret [system_message]
              end ;;
  ret (messages ++ [(VStr "user", message)]).

Definition _generate_openai_response (self : t) (message model : string)
    (context : option (dict value)) (max_tokens : option Z) : M string :=
  match openai_client self with
  | None => raise "OpenAI client not initialized"
  | Some _ =>
      messages <- build_messages message context ;;
      let n := token_limit max_tokens in
      choices <- call (EvOpenAICreate model messages n)
                   (fun w h => openai_create w h model messages n) ;;
      log "ai_service" "openai_response_generated" ;;
      match choices with
      | [] => raise "list index out of range"
      | content :: _ =>
          ret (match content with
               | Some text => text
               | None => no_content_message
               end)
      end
  end.

Definition _select_optimal_model (self : t) (message : string)
    (context : option (dict value)) : string :=
  let message_length := String.length message in
  let complex :=
    Nat.ltb 500 message_length
    || existsb (fun word => contains word (lower message))
         ["analyze"; "complex"; "detailed"] in
  if complex && is_some (openai_client self) then openai_model settings
  else if nonempty (available_local_models self) then default_local_model settings
  else openai_model settings.

Definition _is_local_model (self : t) (model : string) : bool :=
  contains ":" model || mem model (available_local_models self).

Definition _is_openai_model (model : string) : bool :=
  startswith "gpt-" model || mem model ["gpt-3.5-turbo"; "gpt-4"].

(** The body of the [try] block of [generate_response]. *)
Definition dispatch (self : t) (message model : string)
    (context : option (dict value)) (max_tokens : option Z) : M string :=
  if use_local_first settings && _is_local_model self model then
    returned <- (if mem model (available_local_models self) then
                   response <- _generate_local_response self message model context max_tokens ;;
                   match response with
                   | Some text => ret (if str_truthy text then Some text else None)
                   | None => ret None
                   end
                 else ret None) ;;
    match returned with
    | Some text => ret text
    | None =>
        if fallback_to_api settings && is_some (openai_client self) then
          log "ai_service" "falling_back_to_openai_api" ;;
          _generate_openai_response self message (openai_model settings) context max_tokens
        else ret degraded_message
    end
  else if is_some (openai_client self) && _is_openai_model model then
    _generate_openai_response self message model context max_tokens
  else if is_some (ollama_client self) && nonempty (available_local_models self) then
    let local_model := hd "" (available_local_models self) in
    response <- _generate_local_response self message local_model context max_tokens ;;
    match response with
    | Some text => ret (if str_truthy text then text else degraded_message)
    | None => ret degraded_message
    end
  else ret degraded_message.

(** The model the request is dispatched with: the hint, or the automatic
    choice when the hint is [None] or empty. *)
Definition resolve_model (self : t) (message : string) (model : option string)
    (context : option (dict value)) : string :=
  match model with
  | Some m => if str_truthy m then m else _select_optimal_model self message context
  | None => _select_optimal_model self message context
  end.

(** [if not self.is_initialized: await self.initialize()] *)
Definition ensure_initialized (self : t) : M t :=
  if negb (is_initialized self) then initialize self else ret self.

Definition generate_response (self : t) (message : string) (model : option string)
    (context : option (dict value)) (max_tokens : option Z) : M (t * string) :=
  self <- ensure_initialized self ;;
  let model := resolve_model self message model context in
  log "ai_service" "generate_response_started" ;;
  text <- try_except
            (dispatch self message model context max_tokens)
            (fun e =>
               log "ai_service" "ai_response_generation_failed" ;;
               ret (error_message e)) ;;
  ret (self, text).

End WithSettings.

Section Introspection.

Variable settings : Settings.

Definition get_available_models (self : t) : M (dict value) :=
  ret [("local_models", VList (map VStr (available_local_models self)));
       ("openai_available", VBool (is_some (openai_client self)));
       ("default_local", VStr (default_local_model settings));
       ("default_openai", VStr (openai_model settings))].

End Introspection.

Definition shutdown (self : t) : M unit :=
  system_event "ai_service" "ai_service_shutdown".

End AIService.

(* ===================================================================== *)
(** ** crystal/services/task_scheduler.py *)
(* ===================================================================== *)

Module TaskScheduler.

(** A job of the scheduling library: the callable (by name), its trigger
    and its arguments. *)
Record job : Type := {
  job_func : string;
  job_trigger : trigger_spec;
  job_args : list value;
  job_kwargs : dict value
}.

(** The [AsyncIOScheduler] of the scheduling library.  While it is
    stopped, the jobs that are added wait in [pending_jobs], in the order of
    the calls, and one id may wait more than once; [start] moves them to
    the job store, which holds one job for an id; [shutdown] empties the
    job store. *)
Record AsyncIOScheduler : Type := {
  running : bool;
  pending_jobs : list (string * job);
  job_store : gmap string job
}.

(** [scheduler.get_jobs()] *)
Definition get_jobs (s : AsyncIOScheduler) : list (string * job) :=
  if running s then map_to_list (job_store s) else pending_jobs s.

(** The fields of a [TaskScheduler] object. *)
Record t : Type := {
  scheduler : AsyncIOScheduler;
  is_running : bool;
  active_tasks : gmap string (dict value)
}.

(** The jobs the scheduler holds, by id: a job of the job store, or the
    first job that waits with this id. *)
Definition scheduler_jobs (self : t) : gmap string job :=
  list_to_map (get_jobs (scheduler self)).

Definition set_scheduler (s : AsyncIOScheduler) (self : t) : t :=
  {| scheduler := s; is_running := is_running self;
     active_tasks := active_tasks self |}.

Definition set_is_running (b : bool) (self : t) : t :=
  {| scheduler := scheduler self; is_running := b;
     active_tasks := active_tasks self |}.

Definition set_active_tasks (tasks : gmap string (dict value)) (self : t) : t :=
  {| scheduler := scheduler self; is_running := is_running self;
     active_tasks := tasks |}.

(** [CronTrigger.from_crontab], [IntervalTrigger] and [DateTrigger] *)
Definition make_trigger (spec : trigger_spec) : M trigger_spec :=
  err <- pure_of (fun w => trigger_error w spec) ;;
  match err with
  | Some e => raise e
  | None => ret spec
  end.

(** [scheduler.add_job(..., id=task_id, replace_existing=True)]: a running
    scheduler stores the job, in the place of the job of this id if there
    is one; a stopped one lets it wait behind the others. *)
Definition add_job (self : t) (task_id : string) (j : job) : M t :=
  err <- pure_of (fun w => job_error w (job_func j) (job_args j) (job_kwargs j)) ;;
  match err with
  | Some e => raise e
  | None =>
      let s := scheduler self in
      ret (set_scheduler
             (if running s then
                {| running := true; pending_jobs := pending_jobs s;
                   job_store := <[task_id := j]> (job_store s) |}
              else
                {| running := false; pending_jobs := pending_jobs s ++ [(task_id, j)];
                   job_store := job_store s |})
             self)
  end.

(** The list without its first entry for [task_id], if it has one. *)
Fixpoint remove_first (task_id : string) (l : list (string * job)) :
    option (list (string * job)) :=
  match l with
  | [] => None
  | entry :: l' =>
      if String.eqb (fst entry) task_id then Some l'
      else match remove_first task_id l' with
           | Some l'' => Some (entry :: l'')
           | None => None
           end
  end.

Definition job_lookup_error (task_id : string) : string :=
  "No job by the id of " +:+ task_id +:+ " was found".

(** [scheduler.remove_job(task_id)]: a running scheduler removes the job
    from the job store, a stopped one the first job that waits with this
    id; a missing id is a [JobLookupError]. *)
Definition remove_job (self : t) (task_id : string) : M t :=
  let s := scheduler self in
  if running s then
    match job_store s !! task_id with
    | None => raise (job_lookup_error task_id)
    | Some _ =>
        ret (set_scheduler
               {| running := true; pending_jobs := pending_jobs s;
                  job_store := delete task_id (job_store s) |}
               self)
    end
  else
    match remove_first task_id (pending_jobs s) with
    | None => raise (job_lookup_error task_id)
    | Some l =>
        ret (set_scheduler
               {| running := false; pending_jobs := l; job_store := job_store s |}
               self)
    end.

(** The job store once the jobs that wait are stored, in their order, a
    later one in the place of an earlier one of the same id. *)
Definition store_pending (s : AsyncIOScheduler) : gmap string job :=
  fold_left (fun store entry => <[fst entry := snd entry]> store)
    (pending_jobs s) (job_store s).

(** [scheduler.start()]: a running scheduler refuses; the jobs that wait
    are stored. *)
Definition scheduler_start (s : AsyncIOScheduler) : M AsyncIOScheduler :=
  if running s then raise "Scheduler is already running"
  else
    err <- pure_of scheduler_start_error ;;
    match err with
    | Some e => raise e
    | None => ret {| running := true; pending_jobs := []; job_store := store_pending s |}
    end.

(** [scheduler.shutdown(wait=True)]: a stopped scheduler refuses. *)
Definition scheduler_shutdown (s : AsyncIOScheduler) : M AsyncIOScheduler :=
  if running s then
    ret {| running := false; pending_jobs := pending_jobs s; job_store := ∅ |}
  else raise "Scheduler is not running".

(** [args or []], [kwargs or {}] *)
Definition or_empty {A : Type} (o : option (list A)) : list A :=
  match o with Some l => l | None => [] end.

Definition schedule_cron_task (self : t) (task_id func cron_expression : string)
    (args : option (list value)) (kwargs : option (dict value))
    (description : string) : M (t * bool) :=
  try_except
    (trigger <- make_trigger (CronSpec cron_expression) ;;
     self <- add_job self task_id
               {| job_func := func; job_trigger := trigger;
                  job_args := or_empty args; job_kwargs := or_empty kwargs |} ;;
     created <- now ;;
     let entry := [("type", VStr "cron");
                   ("expression", VStr cron_expression);
                   ("description", VStr description);
                   ("created", VStr created)] in
     let self := set_active_tasks (<[task_id := entry]> (active_tasks self)) self in
     log "task_scheduler" "cron_task_scheduled" ;;
     ret (self, true))
    (fun e =>
       log "task_scheduler" "cron_task_scheduling_failed" ;;
       ret (self, false)).

Definition schedule_interval_task (self : t) (task_id func description : string)
    (interval_kwargs : dict value) : M (t * bool) :=
  try_except
    (trigger <- make_trigger (IntervalSpec interval_kwargs) ;;
     self <- add_job self task_id
               {| job_func := func; job_trigger := trigger;
                  job_args := []; job_kwargs := [] |} ;;
     created <- now ;;
     let entry := [("type", VStr "interval");
                   ("interval", VDict interval_kwargs);
                   ("description", VStr description);
                   ("created", VStr created)] in
     let self := set_active_tasks (<[task_id := entry]> (active_tasks self)) self in
     log "task_scheduler" "interval_task_scheduled" ;;
     ret (self, true))
    (fun e =>
       log "task_scheduler" "interval_task_scheduling_failed" ;;
       ret (self, false)).

(** [run_date] is the date in ISO format. *)
Definition schedule_one_time_task (self : t) (task_id func run_date : string)
    (args : option (list value)) (kwargs : option (dict value))
    (description : string) : M (t * bool) :=
  try_except
    (trigger <- make_trigger (DateSpec run_date) ;;
     self <- add_job self task_id
               {| job_func := func; job_trigger := trigger;
                  job_args := or_empty args; job_kwargs := or_empty kwargs |} ;;
     created <- now ;;
     let entry := [("type", VStr "one_time");
                   ("run_date", VStr run_date);
                   ("description", VStr description);
                   ("created", VStr created)] in
     let self := set_active_tasks (<[task_id := entry]> (active_tasks self)) self in
     log "task_scheduler" "one_time_task_scheduled" ;;
     ret (self, true))
    (fun e =>
       log "task_scheduler" "one_time_task_scheduling_failed" ;;
       ret (self, false)).

Definition cancel_task (self : t) (task_id : string) : M (t * bool) :=
  try_except
    (self <- remove_job self task_id ;;
     let self :=
       match active_tasks self !! task_id with
       | Some _ => set_active_tasks (delete task_id (active_tasks self)) self
       | None => self
       end in
     log "task_scheduler" "task_cancelled" ;;
     ret (self, true))
    (fun e =>
       log "task_scheduler" "task_cancellation_failed" ;;
       ret (self, false)).

(** The dictionary returned by [get_scheduled_tasks]. *)
Record scheduled_tasks : Type := {
  listed_active_tasks : gmap string (dict value);
  scheduler_running : bool;
  jobs_count : nat
}.

Definition get_scheduled_tasks (self : t) : M scheduled_tasks :=
  ret {| listed_active_tasks := active_tasks self;
         scheduler_running := is_running self;
         jobs_count := List.length (get_jobs (scheduler self)) |}.

Section WithSettings.

Variable settings : Settings.

(** [TaskScheduler()]: building the [AsyncIOScheduler] checks the time zone. *)
Definition new : M t :=
  err <- pure_of (fun w => timezone_error w (scheduler_timezone settings)) ;;
  match err with
  | Some e => raise e
  | None =>
      ret {| scheduler := {| running := false; pending_jobs := []; job_store := ∅ |};
             is_running := false; active_tasks := ∅ |}
  end.

Definition _schedule_default_tasks (self : t) : M t :=
  r <- schedule_interval_task self "system_health_check" "_system_health_check"
         "System health monitoring" [("minutes", VInt 5)] ;;
  let self := fst r in
  if auto_organize_downloads settings then
    r <- schedule_interval_task self "auto_organize_downloads" "_auto_organize_downloads"
           "Automatic downloads organization" [("hours", VInt 1)] ;;
    ret (fst r)
  else ret self.

(** [start] returns the object as the call leaves it, and what the call
    did: it returned, or it raised. *)
Definition start (self : t) : M (t * outcome unit) :=
  if is_running self then ret (self, Returns tt)
  else
    started <- attempt (scheduler_start (scheduler self)) ;;
    match started with
    | Raises e => ret (self, Raises e)
    | Returns s =>
        let self := set_is_running true (set_scheduler s self) in
        self <- _schedule_default_tasks self ;;
        logged <- attempt (system_event "task_scheduler" "task_scheduler_started") ;;
        ret (self, logged)
    end.

End WithSettings.

(** [shutdown] returns the object as the call leaves it, and what the call
    did. *)
Definition shutdown (self : t) : M (t * outcome unit) :=
  if is_running self then
    stopped <- attempt (scheduler_shutdown (scheduler self)) ;;
    match stopped with
    | Raises e => ret (self, Raises e)
    | Returns s =>
        let self := set_is_running false (set_scheduler s self) in
        logged <- attempt (system_event "task_scheduler" "task_scheduler_shutdown") ;;
        ret (self, logged)
    end
  else ret (self, Returns tt).

End TaskScheduler.

(* ===================================================================== *)
(** ** pathlib paths (POSIX flavour), as far as the file service uses them *)
(* ===================================================================== *)

Module Pathlib.

(** The root of a path given as a string: exactly two leading slashes are
    the root ["//"], any other number of them the root ["/"]. *)
Definition root_of (s : string) : option string :=
  if startswith "//" s && negb (startswith "///" s) then Some "//"
  else if startswith "/" s then Some "/"
  else None.

Definition is_root (part : string) : bool :=
  String.eqb part "/" || String.eqb part "//".

(** [Path(s)]: empty and ["."] components are dropped. *)
Definition Path (s : string) : path :=
  let parts :=
    List.filter (fun part => negb (String.eqb part "") && negb (String.eqb part "."))
      (split_on "/" s) in
  match root_of s with
  | Some root => root :: parts
  | None => parts
  end.

(** [p.is_absolute()] *)
Definition is_absolute (p : path) : bool :=
  match p with
  | root :: _ => is_root root
  | [] => false
  end.

(** [str(p)] *)
Definition to_str (p : path) : string :=
  match p with
  | [] => "."
  | root :: rest =>
      if is_root root then root +:+ join "/" rest else join "/" p
  end.

(** [p.name] *)
Definition name (p : path) : string :=
  let part := List.last p "" in
  if is_root part then "" else part.

(** [p.parent] *)
Definition parent (p : path) : path :=
  match p with
  | [root] => if is_root root then p else []
  | _ => removelast p
  end.

(** [p / s] *)
Definition joinpath (p : path) (s : string) : path :=
  if startswith "/" s then Path s else p ++ Path s.

(** [s.rfind(c)] *)
Fixpoint rfind (c : ascii) (s : string) : option nat :=
  match s with
  | EmptyString => None
  | String a s' =>
      match rfind c s' with
      | Some i => Some (S i)
      | None => if Ascii.eqb a c then Some 0 else None
      end
  end.

(** The index of the dot that starts the suffix of a file name, when the
    name has a suffix. *)
Definition suffix_index (file_name : string) : option nat :=
  match rfind "." file_name with
  | Some i =>
      if Nat.ltb 0 i && Nat.ltb i (String.length file_name - 1) then Some i else None
  | None => None
  end.

(** [p.suffix] *)
Definition suffix (p : path) : string :=
  let n := name p in
  match suffix_index n with
  | Some i => String.substring i (String.length n - i) n
  | None => ""
  end.

(** [p.stem] *)
Definition stem (p : path) : string :=
  let n := name p in
  match suffix_index n with
  | Some i => String.substring 0 i n
  | None => n
  end.

(** The parts of [other] start the parts of [p]. *)
Fixpoint starts_with (p other : path) : bool :=
  match other, p with
  | [], _ => true
  | _ :: _, [] => false
  | b :: other', a :: p' => String.eqb a b && starts_with p' other'
  end.

(** [p.is_relative_to(other)]: the parts of [other] start the parts of
    [p]; no absolute path is relative to the empty path. *)
Definition is_relative_to (p other : path) : bool :=
  match other with
  | [] => negb (is_absolute p)
  | _ :: _ => starts_with p other
  end.

End Pathlib.

(* ===================================================================== *)
(** ** crystal/services/file_service.py *)
(* ===================================================================== *)

Module FileService.

(** [settings.allowed_directories], read before the field of the same name
    of the service is declared. *)
Definition configured_directories (settings : Settings) : list string :=
  allowed_directories settings.

Record t : Type := {
  allowed_directories : list path;
  file_categories : dict (list string)
}.

Definition default_file_categories : dict (list string) :=
  [("documents", [".pdf"; ".doc"; ".docx"; ".txt"; ".rtf"; ".odt"]);
   ("images", [".jpg"; ".jpeg"; ".png"; ".gif"; ".bmp"; ".svg"; ".tiff"]);
   ("videos", [".mp4"; ".avi"; ".mov"; ".wmv"; ".flv"; ".mkv"; ".webm"]);
   ("audio", [".mp3"; ".wav"; ".flac"; ".aac"; ".ogg"; ".wma"]);
   ("archives", [".zip"; ".rar"; ".7z"; ".tar"; ".gz"; ".bz2"]);
   ("code", [".py"; ".js"; ".html"; ".css"; ".cpp"; ".java"; ".cs"; ".php"]);
   ("spreadsheets", [".xls"; ".xlsx"; ".csv"; ".ods"]);
   ("presentations", [".ppt"; ".pptx"; ".odp"])].

(** The mutations of the file system among the events. *)
Definition is_mutation (ev : Event) : bool :=
  match ev with
  | EvMkdir _ | EvMove _ _ | EvUnlink _ | EvCopytree _ _ => true
  | _ => false
  end.

(** [categories[category].append(entry)] *)
Definition append_to (category entry : string) (files : dict (list string)) :
    dict (list string) :=
  dict_set category (dict_get_default category [] files ++ [entry]) files.

Definition files_value (files : dict (list string)) : value :=
  VDict (map (fun kv => (fst kv, VList (map VStr (snd kv)))) files).

Section WithSettings.

Variable settings : Settings.

(** [FileService()] *)
Definition new : t := {|
  allowed_directories := map Pathlib.Path (configured_directories settings);
  file_categories := default_file_categories
|}.

Definition _is_directory_allowed (self : t) (directory : path) : M bool :=
  if negb (allow_file_operations settings) then ret false
  else
    directory <- resolve directory ;;
    ret (existsb (fun allowed => Pathlib.is_relative_to directory allowed)
           (allowed_directories self)).

Definition _get_file_category (self : t) (file_path : path) : string :=
  let extension := lower (Pathlib.suffix file_path) in
  match List.find (fun entry => mem extension (snd entry)) (file_categories self) with
  | Some entry => fst entry
  | None => "other"
  end.

Definition _calculate_file_hash (file_path : path) : M (option string) :=
  try_except
    (digest <- fs_try "sha256" file_path fs_sha256 ;; ret (Some digest))
    (fun _ => ret None).

Definition _are_files_identical (file1 file2 : path) : M bool :=
  size1 <- fs_try "stat" file1 fs_size ;;
  size2 <- fs_try "stat" file2 fs_size ;;
  if negb (Z.eqb size1 size2) then ret false
  else
    hash1 <- _calculate_file_hash file1 ;;
    hash2 <- _calculate_file_hash file2 ;;
    match hash1, hash2 with
    | Some h1, Some h2 =>
        if str_truthy h1 && str_truthy h2 then ret (String.eqb h1 h2) else ret false
    | _, _ => ret false
    end.

Definition _is_text_file (file_path : path) : M bool :=
  mime_type <- pure_of (fun w => guess_type w (Pathlib.to_str file_path)) ;;
  match mime_type with
  | Some m => ret (str_truthy m && startswith "text/" m)
  | None => ret false
  end.

Definition _create_backup (directory : path) : M unit :=
  stamp <- now ;;
  let backup_dir :=
    Pathlib.joinpath (Pathlib.parent directory)
      (Pathlib.name directory +:+ "_backup_" +:+ stamp) in
  call (EvCopytree directory backup_dir)
    (fun w h => fs_copytree w h directory backup_dir) ;;
  log "file_service" "backup_created".

(** [while target_path.exists(): ...]: the first free name, found by
    appending [_1], [_2], ... to the stem of the name tried before. *)
Fixpoint free_target (fuel : nat) (target_path : path) (counter : nat) : M path :=
  taken <- fs_query "exists" target_path fs_exists ;;
  if taken then
    match fuel with
    | O => diverge
    | S fuel' =>
        let stem := Pathlib.stem target_path in
        let suffix := Pathlib.suffix target_path in
        free_target fuel'
          (Pathlib.joinpath (Pathlib.parent target_path)
             (stem +:+ "_" +:+ str_of_nat counter +:+ suffix))
          (S counter)
    end
  else ret target_path.

(** The body of the inner [try] of [organize_directory], for one file. *)
Definition organize_file (fuel : nat) (self : t) (dir_path : path)
    (create_subdirs : bool) (file_path : path)
    (organized_files : dict (list string)) : M (dict (list string)) :=
  let category := _get_file_category self file_path in
  target_path <-
    (if create_subdirs then
       let target_dir := Pathlib.joinpath dir_path category in
       call (EvMkdir target_dir) (fun w h => fs_mkdir w h target_dir) ;;
       ret (Pathlib.joinpath target_dir (Pathlib.name file_path))
     else
       ret (Pathlib.joinpath dir_path (category +:+ "_" +:+ Pathlib.name file_path))) ;;
  taken <- fs_query "exists" target_path fs_exists ;;
  if negb taken then
    call (EvMove file_path target_path) (fun w h => fs_move w h file_path target_path) ;;
    ret (append_to category (Pathlib.to_str target_path) organized_files)
  else if duplicate_check_enabled settings then
    identical <- _are_files_identical file_path target_path ;;
    if identical then
      call (EvUnlink file_path) (fun w h => fs_unlink w h file_path) ;;
      ret (append_to category ("Removed duplicate: " +:+ Pathlib.name file_path)
             organized_files)
    else
      target_path <- free_target fuel target_path 1 ;;
      call (EvMove file_path target_path) (fun w h => fs_move w h file_path target_path) ;;
      ret (append_to category (Pathlib.to_str target_path) organized_files)
  else ret organized_files.

Definition organize_directory (fuel : nat) (self : t) (directory_path : string)
    (create_subdirs : bool) : M (dict value) :=
  let dir_path := Pathlib.Path directory_path in
  allowed <- _is_directory_allowed self dir_path ;;
  if negb allowed then
    ret [("success", VBool false);
         ("error", VStr ("Directory " +:+ directory_path
                         +:+ " is not in the allowed directories list"))]
  else
    present <- fs_query "exists" dir_path fs_exists ;;
    is_dir <- (if present then fs_query "is_dir" dir_path fs_is_dir else ret false) ;;
    if negb present || negb is_dir then
      ret [("success", VBool false);
           ("error", VStr ("Directory " +:+ directory_path
                           +:+ " does not exist or is not a directory"))]
    else
      log "file_service" "directory_organization_started" ;;
      let organized_files : dict (list string) :=
        map (fun entry => (fst entry, [])) (file_categories self) ++ [("other", [])] in
      try_except
        ((if backup_before_organize settings then _create_backup dir_path else ret tt) ;;
         entries <- fs_try "iterdir" dir_path fs_iterdir ;;
         state <- for_each entries
                    (fun file_path state =>
                       is_file <- fs_query "is_file" file_path fs_is_file ;;
                       if is_file then
                         try_except
                           (organized <- organize_file fuel self dir_path create_subdirs
                                           file_path (fst state) ;;
                            ret (organized, snd state))
                           (fun e =>
                              ret (fst state,
                                   snd state ++ ["Error processing "
                                                 +:+ Pathlib.name file_path +:+ ": " +:+ e]))
                       else ret state)
                    (organized_files, []) ;;
         timestamp <- now ;;
         let total := fold_right (fun entry n => List.length (snd entry) + n) 0 (fst state) in
         log "file_service" "directory_organization_completed" ;;
         ret [("success", VBool true);
              ("organized_files", files_value (fst state));
              ("total_files", VInt (Z.of_nat total));
              ("errors", VList (map VStr (snd state)));
              ("timestamp", VStr timestamp)])
        (fun e =>
           log "file_service" "directory_organization_failed" ;;
           timestamp <- now ;;
           ret [("success", VBool false); ("error", VStr e); ("timestamp", VStr timestamp)]).

Definition find_duplicates (self : t) (directory_path : string) : M (dict value) :=
  let dir_path := Pathlib.Path directory_path in
  allowed <- _is_directory_allowed self dir_path ;;
  if negb allowed then
    ret [("success", VBool false); ("error", VStr "Directory not allowed")]
  else
    present <- fs_query "exists" dir_path fs_exists ;;
    if negb present then
      ret [("success", VBool false); ("error", VStr "Directory does not exist")]
    else
      log "file_service" "duplicate_scan_started" ;;
      try_except
        (entries <- fs_try "rglob" dir_path fs_rglob ;;
         file_hashes <- for_each entries
                          (fun file_path (file_hashes : dict (list string)) =>
                             is_file <- fs_query "is_file" file_path fs_is_file ;;
                             if is_file then
                               file_hash <- _calculate_file_hash file_path ;;
                               match file_hash with
                               | Some h =>
                                   if str_truthy h
                                   then ret (append_to h (Pathlib.to_str file_path) file_hashes)
                                   else ret file_hashes
                               | None => ret file_hashes
                               end
                             else ret file_hashes)
                          [] ;;
         let duplicates :=
           List.filter (fun entry => Nat.ltb 1 (List.length (snd entry))) file_hashes in
         let total :=
           fold_right (fun entry n => (List.length (snd entry) - 1) + n) 0 duplicates in
         timestamp <- now ;;
         log "file_service" "duplicate_scan_completed" ;;
         ret [("success", VBool true);
              ("duplicate_groups", VInt (Z.of_nat (List.length duplicates)));
              ("total_duplicates", VInt (Z.of_nat total));
              ("duplicates", files_value duplicates);
              ("timestamp", VStr timestamp)])
        (fun e =>
           log "file_service" "duplicate_scan_failed" ;;
           ret [("success", VBool false); ("error", VStr e)]).

(** One entry of the [matches] list of [search_files]. *)
Definition match_entry (file_path : path) (match_type : string) : M value :=
  size <- fs_try "stat" file_path fs_size ;;
  modified <- fs_try "stat" file_path fs_mtime ;;
  ret (VDict [("path", VStr (Pathlib.to_str file_path));
              ("name", VStr (Pathlib.name file_path));
              ("size", VInt size);
              ("modified", VStr modified);
              ("match_type", VStr match_type)]).

Definition search_files (self : t) (directory_path pattern : string)
    (include_content : bool) : M (dict value) :=
  let dir_path := Pathlib.Path directory_path in
  allowed <- _is_directory_allowed self dir_path ;;
  if negb allowed then
    ret [("success", VBool false); ("error", VStr "Directory not allowed")]
  else
    try_except
      (entries <- fs_try "rglob" dir_path fs_rglob ;;
       matches <- for_each entries
                    (fun file_path (matches : list value) =>
                       is_file <- fs_query "is_file" file_path fs_is_file ;;
                       if is_file then
                         if contains (lower pattern) (lower (Pathlib.name file_path)) then
                           entry <- match_entry file_path "filename" ;;
                           ret (matches ++ [entry])
                         else
                           is_text <- (if include_content then _is_text_file file_path
                                       else ret false) ;;
                           if is_text then
                             try_except
                               (content <- fs_try "read" file_path fs_read_text ;;
                                if contains (lower pattern) (lower content) then
                                  entry <- match_entry file_path "content" ;;
                                  ret (matches ++ [entry])
                                else ret matches)
                               (fun _ => ret matches)
                           else ret matches
                       else ret matches)
                    [] ;;
       timestamp <- now ;;
       ret [("success", VBool true);
            ("matches", VList matches);
            ("count", VInt (Z.of_nat (List.length matches)));
            ("pattern", VStr pattern);
            ("timestamp", VStr timestamp)])
      (fun e =>
         log "file_service" "file_search_failed" ;;
         ret [("success", VBool false); ("error", VStr e)]).

End WithSettings.

End FileService.

(* ===================================================================== *)
(** ** crystal/core/crystal_assistant.py *)
(* ===================================================================== *)

Module CrystalAssistant.

(** The fields of a [CrystalAssistant] object.  The shared [AIService]
    object it refers to is passed to the methods that use it. *)
Record t : Type := {
  name : string;
  config : AssistantConfig;
  is_active : bool;
  instructions : string;
  capabilities : dict value;
  personality_traits : dict value
}.

(** [CrystalAssistant(assistant_name, config, ...)] *)
Definition new (assistant_name : string) (cfg : AssistantConfig) : t := {|
  name := assistant_name;
  config := cfg;
  is_active := false;
  instructions := "";
  capabilities := [];
  personality_traits := []
|}.

Definition set_is_active (b : bool) (self : t) : t :=
  {| name := name self; config := config self; is_active := b;
     instructions := instructions self; capabilities := capabilities self;
     personality_traits := personality_traits self |}.

Definition set_instructions (text : string) (self : t) : t :=
  {| name := name self; config := config self; is_active := is_active self;
     instructions := text; capabilities := capabilities self;
     personality_traits := personality_traits self |}.

Definition set_capabilities (caps : dict value) (self : t) : t :=
  {| name := name self; config := config self; is_active := is_active self;
     instructions := instructions self; capabilities := caps;
     personality_traits := personality_traits self |}.

Definition set_personality_traits (traits : dict value) (self : t) : t :=
  {| name := name self; config := config self; is_active := is_active self;
     instructions := instructions self; capabilities := capabilities self;
     personality_traits := traits |}.

(** The text that stands in for instructions that cannot be loaded. *)
Definition generic_greeting (self : t) : string :=
  "I am " +:+ name self +:+ ", your assistant. How can I help you today?".

Definition apology_message : string :=
  "I apologize, but I encountered an error processing your request. Please try again or contact support if the problem persists.".

Definition _load_instructions (self : t) : M t :=
  try_except
    (match instructions_file (config self) with
     | None =>
         log (lower (name self) +:+ "_assistant") "no_instructions_file_configured" ;;
         ret (set_instructions (generic_greeting self) self)
     | Some file =>
         if negb (str_truthy file) then
           log (lower (name self) +:+ "_assistant") "no_instructions_file_configured" ;;
           ret (set_instructions (generic_greeting self) self)
         else
           let instructions_path := Pathlib.Path file in
           present <- fs_query "exists" instructions_path fs_exists ;;
           if present then
             text <- fs_try "read" instructions_path fs_read_text ;;
             log (lower (name self) +:+ "_assistant") "instructions_loaded" ;;
             ret (set_instructions text self)
           else
             log (lower (name self) +:+ "_assistant") "instructions_file_not_found" ;;
             ret (set_instructions (generic_greeting self) self)
     end)
    (fun e =>
       log (lower (name self) +:+ "_assistant") "instructions_loading_failed" ;;
       ret (set_instructions (generic_greeting self) self)).

(** The loop of [_parse_personality_from_instructions] over the lines. *)
Fixpoint parse_lines (lines : list string) (in_personality_section : bool)
    (traits : dict value) : dict value :=
  match lines with
  | [] => traits
  | line :: rest =>
      let line := strip line in
      if contains "personality" (lower line) || contains "traits" (lower line) then
        parse_lines rest true traits
      else if in_personality_section && startswith "-" line then
        let trait := strip (String.substring 1 (String.length line - 1) line) in
        match split_once ":" trait with
        | Some (key, val) =>
            parse_lines rest in_personality_section
              (dict_set (replace_char " " "_" (lower (strip key))) (VStr (strip val)) traits)
        | None =>
            parse_lines rest in_personality_section
              (dict_set (replace_char " " "_" (lower trait)) (VBool true) traits)
        end
      else if in_personality_section && str_truthy line && negb (startswith "#" line) then
        traits
      else parse_lines rest in_personality_section traits
  end.

Definition _parse_personality_from_instructions (self : t) : dict value :=
  parse_lines (split_on (ascii_of_nat 10) (instructions self)) false [].

Definition _load_capabilities (self : t) : M t :=
  try_except
    (let self :=
       set_capabilities
         (match capabilities_config (config self) with Some c => c | None => [] end)
         self in
     let self :=
       if contains "personality" (lower (instructions self))
          || contains "traits" (lower (instructions self))
       then set_personality_traits (_parse_personality_from_instructions self) self
       else self in
     log (lower (name self) +:+ "_assistant") "capabilities_loaded" ;;
     ret self)
    (fun e =>
       log (lower (name self) +:+ "_assistant") "capabilities_loading_failed" ;;
       ret (set_personality_traits [] (set_capabilities [] self))).

Definition initialize (self : t) : M t :=
  let self := set_is_active true self in
  self <- _load_instructions self ;;
  self <- _load_capabilities self ;;
  log (lower (name self) +:+ "_assistant") "initialized" ;;
  ret self.

(** ["- key: value"] for every entry, one per line. *)
Definition render_entries (entries : dict value) : M string :=
  lines <- for_each entries
             (fun entry lines =>
                text <- py_str (snd entry) ;;
                ret (lines ++ ["- " +:+ fst entry +:+ ": " +:+ text]))
             [] ;;
  ret (join NL lines).

Definition _build_context_prompt (self : t) (message : string)
    (context : dict value) : M string :=
  let prompt_parts :=
    if str_truthy (instructions self) then [instructions self] else [] in
  prompt_parts <-
    (if nonempty (capabilities self) then
       text <- render_entries (capabilities self) ;;
       ret (prompt_parts ++ ["Available capabilities:" +:+ NL +:+ text])
     else ret prompt_parts) ;;
  prompt_parts <-
    (if nonempty (personality_traits self) then
       text <- render_entries (personality_traits self) ;;
       ret (prompt_parts ++ ["Personality traits to embody:" +:+ NL +:+ text])
     else ret prompt_parts) ;;
  prompt_parts <-
    match conversation_history (Some context) with
    | Some history =>
        recent <- py_last3 history ;;
        entries <- py_iter recent ;;
        for_each entries
          (fun entry prompt_parts =>
             user <- py_get entry "user" (VStr "") ;;
             user <- py_str user ;;
             assistant <- py_get entry "assistant" (VStr "") ;;
             assistant <- py_str assistant ;;
             ret (prompt_parts ++ ["User: " +:+ user; name self +:+ ": " +:+ assistant]))
          (prompt_parts ++ ["Recent conversation context:"])
    | None => ret prompt_parts
    end ;;
  let prompt_parts :=
    prompt_parts ++
      ["---";
       "Current user message: " +:+ message;
       "Please respond as " +:+ name self
         +:+ ", following all instructions and embodying the personality traits above."] in
  ret (join (NL +:+ NL) prompt_parts).

Definition _post_process_response (response : string) (context : dict value) : string :=
  strip response.

Definition default_model : string := "llama3.1:8b".

Section WithSettings.

Variable settings : Settings.

(** [ai_service] is the object the assistant was built with; [None] stands
    for Python's [None]. *)
Definition process_message (self : t) (ai_service : option AIService.t)
    (message : string) (context : dict value) :
    M (t * option AIService.t * dict value) :=
  log (lower (name self) +:+ "_assistant") "processing_message" ;;
  self <- _load_instructions self ;;
  full_prompt <- _build_context_prompt self message context ;;
  try_except
    (r <- match ai_service with
          | None => raise "'NoneType' object has no attribute 'generate_response'"
          | Some service =>
              AIService.generate_response settings service full_prompt
                (Some (match preferred_model (config self) with
                       | Some m => m
                       | None => default_model
                       end))
                (Some context) None
          end ;;
     let processed_response := _post_process_response (snd r) context in
     processing_time <- now ;;
     ret (self, Some (fst r),
          [("message", VStr processed_response);
           ("actions", VList [VStr "message_processed"]);
           ("metadata",
            VDict [("assistant", VStr (lower (name self)));
                   ("instructions_version",
                    VInt (Z.of_nat (String.length (instructions self))));
                   ("capabilities_used",
                    VList (map VStr (dict_keys (capabilities self))));
                   ("processing_time", VStr processing_time)])]))
    (fun e =>
       log (lower (name self) +:+ "_assistant") "message_processing_failed" ;;
       processing_time <- now ;;
       ret (self, ai_service,
            [("message", VStr apology_message);
             ("actions", VList [VStr "error_occurred"]);
             ("metadata",
              VDict [("assistant", VStr (lower (name self)));
                     ("error", VStr e);
                     ("processing_time", VStr processing_time)])])).

End WithSettings.

(** [self.base_capabilities] *)
Definition base_capabilities : dict value :=
  [("natural_language_processing", VBool true);
   ("task_execution", VBool true);
   ("status_reporting", VBool true);
   ("instruction_reloading", VBool true)].

Definition get_status (self : t) : M (dict value) :=
  ret [("name", VStr (name self));
       ("active", VBool (is_active self));
       ("model", VStr (match preferred_model (config self) with
                       | Some m => m
                       | None => default_model
                       end));
       ("instructions_loaded", VBool (Nat.ltb 0 (String.length (instructions self))));
       ("instructions_length", VInt (Z.of_nat (String.length (instructions self))));
       ("capabilities", VDict (capabilities self));
       ("personality_traits", VDict (personality_traits self));
       ("configuration_file", match instructions_file (config self) with
                              | Some file => VStr file
                              | None => VNone
                              end);
       ("description",
        VStr "Crystal modular assistant - behavior defined by configuration files")].

Definition get_capabilities (self : t) : dict value :=
  dict_update base_capabilities (capabilities self).

Definition reload_configuration (self : t) : M t :=
  self <- _load_instructions self ;;
  self <- _load_capabilities self ;;
  log (lower (name self) +:+ "_assistant") "configuration_reloaded" ;;
  ret self.

Definition execute_task (self : t) (task_type : string) (parameters : dict value) :
    M (t * dict value) :=
  log (lower (name self) +:+ "_assistant") "task_execution_started" ;;
  try_except
    (r <- (if String.eqb task_type "status_check" then
             status <- get_status self ;; ret (self, VDict status)
           else if String.eqb task_type "capability_list" then
             ret (self, VDict (get_capabilities self))
           else if String.eqb task_type "reload_instructions" then
             self <- reload_configuration self ;;
             ret (self, VDict [("reloaded", VBool true);
                               ("instructions_length",
                                VInt (Z.of_nat (String.length (instructions self))))])
           else
             raise ("Task type '" +:+ task_type +:+ "' not implemented for "
                    +:+ name self)) ;;
     log (lower (name self) +:+ "_assistant") "task_execution_completed" ;;
     timestamp <- now ;;
     ret (fst r,
          [("success", VBool true);
           ("result", snd r);
           ("task_type", VStr task_type);
           ("timestamp", VStr timestamp)]))
    (fun e =>
       log (lower (name self) +:+ "_assistant") "task_execution_failed" ;;
       timestamp <- now ;;
       ret (self,
            [("success", VBool false);
             ("error", VStr e);
             ("task_type", VStr task_type);
             ("timestamp", VStr timestamp)])).

Definition shutdown (self : t) : M t :=
  let self := set_is_active false self in
  log (lower (name self) +:+ "_assistant") "shutdown_complete" ;;
  ret self.

End CrystalAssistant.

(* ===================================================================== *)
(** ** crystal/core/orchestrator.py *)
(* ===================================================================== *)

Module CrystalOrchestrator.

Record t : Type := {
  assistants : dict CrystalAssistant.t;
  ai_service : option AIService.t;
  task_scheduler : option TaskScheduler.t;
  file_service : option FileService.t;
  is_initialized : bool
}.

(** [CrystalOrchestrator()] *)
Definition new : t := {|
  assistants := [];
  ai_service := None;
  task_scheduler := None;
  file_service := None;
  is_initialized := false
|}.

Definition set_assistants (a : dict CrystalAssistant.t) (self : t) : t :=
  {| assistants := a; ai_service := ai_service self;
     task_scheduler := task_scheduler self; file_service := file_service self;
     is_initialized := is_initialized self |}.

Definition set_ai_service (s : option AIService.t) (self : t) : t :=
  {| assistants := assistants self; ai_service := s;
     task_scheduler := task_scheduler self; file_service := file_service self;
     is_initialized := is_initialized self |}.

(** The message of the envelope for a persona that is not registered. *)
Definition not_found_message (self : t) (assistant_name : string) : string :=
  "Assistant '" +:+ assistant_name +:+ "' not found. Available: "
    +:+ join ", " (dict_keys (assistants self)).

Section WithSettings.

Variable settings : Settings.

(** [RubyAssistant(...)] *)
Definition RubyAssistant : CrystalAssistant.t := CrystalAssistant.new "Ruby" RUBY.

(** The first statement after the test is a call of [system_event],
    outside the [try]. *)
Definition initialize (self : t) : M t :=
  if is_initialized self then ret self
  else
    system_event "orchestrator" "orchestrator_startup" ;;
    try_except
      (service <- AIService.initialize settings AIService.new ;;
       scheduler <- TaskScheduler.new settings ;;
       started <- TaskScheduler.start settings scheduler ;;
       raised (snd started) ;;
       let scheduler := fst started in
       let files := FileService.new settings in
       ruby <- CrystalAssistant.initialize RubyAssistant ;;
       log "orchestrator" "assistants_initialized" ;;
       system_event "orchestrator" "orchestrator_ready" ;;
       ret {| assistants := dict_set "ruby" ruby (assistants self);
              ai_service := Some service;
              task_scheduler := Some scheduler;
              file_service := Some files;
              is_initialized := true |})
      (fun e =>
         log "orchestrator" "orchestrator_initialization_failed" ;;
         raise e).

(** [context or {}] *)
Definition context_or_empty (context : option (dict value)) : dict value :=
  match context with Some c => c | None => [] end.

(** [if not self.is_initialized: await self.initialize()] *)
Definition ensure_initialized (self : t) : M t :=
  if negb (is_initialized self) then initialize self else ret self.

Definition process_message (self : t) (assistant_name message : string)
    (context : option (dict value)) : M (t * dict value) :=
  self <- ensure_initialized self ;;
  let assistant_name := lower assistant_name in
  match dict_get assistant_name (assistants self) with
  | None =>
      ret (self,
           [("message", VStr (not_found_message self assistant_name));
            ("assistant", VStr "system");
            ("error", VBool true)])
  | Some assistant =>
      log "orchestrator" "process_message" ;;
      try_except
        (r <- CrystalAssistant.process_message settings assistant (ai_service self)
                message (context_or_empty context) ;;
         let response := snd r in
         let self :=
           set_ai_service (snd (fst r))
             (set_assistants (dict_set assistant_name (fst (fst r)) (assistants self))
                self) in
         log "orchestrator" "message_processed" ;;
         timestamp <- now ;;
         ret (self,
              [("message", dict_get_default "message" (VStr "") response);
               ("assistant", VStr assistant_name);
               ("timestamp", VStr timestamp);
               ("actions_taken", dict_get_default "actions" (VList []) response);
               ("metadata", dict_get_default "metadata" (VDict []) response)]))
        (fun e =>
           log "orchestrator" "message_processing_failed" ;;
           timestamp <- now ;;
           ret (self,
                [("message", VStr ("Sorry, I encountered an error: " +:+ e));
                 ("assistant", VStr assistant_name);
                 ("error", VBool true);
                 ("timestamp", VStr timestamp)]))
  end.

End WithSettings.

Definition set_task_scheduler (s : option TaskScheduler.t) (self : t) : t :=
  {| assistants := assistants self; ai_service := ai_service self;
     task_scheduler := s; file_service := file_service self;
     is_initialized := is_initialized self |}.

Definition set_is_initialized (b : bool) (self : t) : t :=
  {| assistants := assistants self; ai_service := ai_service self;
     task_scheduler := task_scheduler self; file_service := file_service self;
     is_initialized := b |}.

(** [assistant_name] is [None] for the default argument. *)
Definition get_assistant_status (self : t) (assistant_name : option string) :
    M (dict value) :=
  match (match assistant_name with
         | Some n => if str_truthy n then Some n else None
         | None => None
         end)
  with
  | Some n =>
      match dict_get n (assistants self) with
      | Some assistant => CrystalAssistant.get_status assistant
      | None => ret [("error", VStr ("Assistant '" +:+ n +:+ "' not found"))]
      end
  | None =>
      status <- for_each (assistants self)
                  (fun entry (status : dict value) =>
                     s <- CrystalAssistant.get_status (snd entry) ;;
                     ret (dict_set (fst entry) (VDict s) status))
                  [] ;;
      ret [("orchestrator",
            VDict [("initialized", VBool (is_initialized self));
                   ("assistants_count",
                    VInt (Z.of_nat (List.length (assistants self))))]);
           ("assistants", VDict status)]
  end.

(** The first statement is a call of [system_event]. *)
Definition shutdown (self : t) : M t :=
  system_event "orchestrator" "orchestrator_shutdown" ;;
  registry <- for_each (assistants self)
                (fun entry (registry : dict CrystalAssistant.t) =>
                   try_except
                     (assistant <- CrystalAssistant.shutdown (snd entry) ;;
                      log "orchestrator" "assistant_shutdown" ;;
                      ret (dict_set (fst entry) assistant registry))
                     (fun e =>
                        log "orchestrator" "assistant_shutdown_failed" ;;
                        ret registry))
                (assistants self) ;;
  let self := set_assistants registry self in
  self <- match task_scheduler self with
          | Some scheduler =>
              stopped <- TaskScheduler.shutdown scheduler ;;
              raised (snd stopped) ;;
              ret (set_task_scheduler (Some (fst stopped)) self)
          | None => ret self
          end ;;
  match ai_service self with
  | Some service => AIService.shutdown service
  | None => ret tt
  end ;;
  let self := set_is_initialized false self in
  system_event "orchestrator" "orchestrator_shutdown_complete" ;;
  ret self.

End CrystalOrchestrator.

(* ===================================================================== *)
(** ** crystal/api/routes.py *)
(* ===================================================================== *)

Module Routes.

(** What the web framework sends back: the body of a successful response,
    or the status and detail of a raised [HTTPException]. *)
Inductive http_response : Type :=
| Http200 (body : value)
| HttpError (status_code : Z) (detail : string).

Record MessageRequest : Type := {
  message : string;
  assistant : string;
  context : option (dict value)
}.

Record TaskRequest : Type := {
  task_type : string;
  parameters : dict value;
  task_assistant : string
}.

(** The fields of [MessageResponse] with their defaults; a field without
    default is required. *)
Definition MessageResponse_fields : list (string * option value) :=
  [("message", None);
   ("assistant", None);
   ("timestamp", None);
   ("actions_taken", Some (VList []));
   ("metadata", Some (VDict []));
   ("error", Some (VBool false))].

Section WithFramework.

Variable settings : Settings.

(** The validation library: a value given for a field is coerced to the
    type of the field, or refused. *)
Variable validate_field : string -> value -> option value.

(** [str(e)] for the validation error on the given fields, and for an
    [HTTPException] with a status code and a detail. *)
Variable validation_error : list string -> string.
Variable http_exception_str : Z -> value -> string.

Definition field_value (response : dict value) (field : string * option value) :
    option value :=
  match dict_get (fst field) response with
  | Some v => validate_field (fst field) v
  | None => snd field
  end.

(** The constructor of [MessageResponse], called with the envelope as
    keyword arguments: keys that are no fields are ignored. *)
Definition MessageResponse (response : dict value) : M (dict value) :=
  match List.filter (fun field => negb (is_some (field_value response field)))
          MessageResponse_fields
  with
  | [] =>
      ret (map (fun field =>
                  (fst field,
                   match field_value response field with Some v => v | None => VNone end))
             MessageResponse_fields)
  | failed => raise (validation_error (map fst failed))
  end.

(** [POST /chat].  The orchestrator keeps what [process_message] did to it
    when the response model refuses the envelope. *)
Definition chat_with_assistant (orchestrator : CrystalOrchestrator.t)
    (request : MessageRequest) : M (CrystalOrchestrator.t * http_response) :=
  processed <- try_except
                 (r <- CrystalOrchestrator.process_message settings orchestrator
                         (assistant request) (message request) (context request) ;;
                  ret (inl r))
                 (fun e => ret (inr e)) ;;
  match processed with
  | inl (orchestrator', response) =>
      try_except
        (model <- MessageResponse response ;;
         ret (orchestrator', Http200 (VDict model)))
        (fun e => ret (orchestrator', HttpError 500 e))
  | inr e => ret (orchestrator, HttpError 500 e)
  end.

(** [len(v)] *)
Definition py_len (v : value) : M Z :=
  match v with
  | VStr s => ret (Z.of_nat (String.length s))
  | VList l => ret (Z.of_nat (List.length l))
  | VDict d => ret (Z.of_nat (List.length d))
  | _ => raise "object has no len()"
  end.

(** [GET /assistants] *)
Definition list_assistants (orchestrator : CrystalOrchestrator.t) : M http_response :=
  try_except
    (status <- CrystalOrchestrator.get_assistant_status orchestrator None ;;
     let assistants := dict_get_default "assistants" (VDict []) status in
     count <- py_len assistants ;;
     ret (Http200 (VDict [("assistants", assistants); ("count", VInt count)])))
    (fun e => ret (HttpError 500 e)).

(** [GET /assistants/{assistant_name}/status]: the [HTTPException] raised
    for an unknown name is raised inside the [try] block. *)
Definition get_assistant_status (orchestrator : CrystalOrchestrator.t)
    (assistant_name : string) : M http_response :=
  try_except
    (status <- CrystalOrchestrator.get_assistant_status orchestrator
                 (Some assistant_name) ;;
     match dict_get "error" status with
     | Some detail => raise (http_exception_str 404 detail)
     | None => ret (Http200 (VDict status))
     end)
    (fun e => ret (HttpError 500 e)).

(** [POST /tasks/execute]: the envelope is returned as it is. *)
Definition execute_task (orchestrator : CrystalOrchestrator.t) (request : TaskRequest) :
    M (CrystalOrchestrator.t * http_response) :=
  try_except
    (parameters <- py_str (VDict (parameters request)) ;;
     let message :=
       "Execute task: " +:+ task_type request +:+ " with parameters: " +:+ parameters in
     r <- CrystalOrchestrator.process_message settings orchestrator
            (task_assistant request) message
            (Some [("task_execution", VBool true);
                   ("task_type", VStr (task_type request))]) ;;
     ret (fst r, Http200 (VDict (snd r))))
    (fun e => ret (orchestrator, HttpError 500 e)).

End WithFramework.

End Routes.

(* ===================================================================== *)
(** ** Vocabulary of the statements *)
(* ===================================================================== *)

(** A generation request to the local (Ollama) backend. *)
Definition is_local_generation (ev : Event) : bool :=
  match ev with EvOllamaGenerate _ _ _ => true | _ => false end.

(** A completion request to the remote (OpenAI) backend. *)
Definition is_remote_generation (ev : Event) : bool :=
  match ev with EvOpenAICreate _ _ _ => true | _ => false end.

(** The events of a request that reached a persona or the coordinator. *)
Definition is_request_event (ev : Event) : bool :=
  match ev with
  | EvOllamaGenerate _ _ _ | EvOpenAICreate _ _ _ => true
  | EvLog _ event =>
      String.eqb event "processing_message"
      || String.eqb event "generate_response_started"
  | _ => false
  end.

(** No event of a request: nothing reached a persona or the coordinator. *)
Definition no_request (ev : Event) : Prop := is_request_event ev = false.

(** A computation that emits nothing and whose loops all finish. *)
Definition quiet {A : Type} (m : M A) : Prop :=
  forall w h, exists r, m w h = ([], r) /\ r <> Diverge.

(** Every event of a computation satisfies [P], and its loops finish. *)
Definition safe {A : Type} (P : Event -> Prop) (m : M A) : Prop :=
  forall w h, Forall P (fst (m w h)) /\ snd (m w h) <> Diverge.

(** A [safe] computation that returns a value. *)
Definition total {A : Type} (P : Event -> Prop) (m : M A) : Prop :=
  forall w h, Forall P (fst (m w h)) /\ exists a, snd (m w h) = Ok a.

(** Where the text returned by [generate_response] comes from. *)
Inductive text_origin (w : World) (text : string) : Prop :=
| FromLocal (h : list Event) (model prompt : string) (n : Z) :
    ollama_generate w h model prompt n = Returns text ->
    text <> "" -> text_origin w text
| FromRemote (h : list Event) (model : string) (msgs : list chat_message) (n : Z)
    (rest : list (option string)) :
    openai_create w h model msgs n = Returns (Some text :: rest) ->
    text_origin w text
| NoContent : text = AIService.no_content_message -> text_origin w text
| Degraded : text = AIService.degraded_message -> text_origin w text
| Failed (e : string) : text = AIService.error_message e -> text_origin w text.

(** A backend answered a generation request with an empty or all-blank
    text. *)
Definition blank_reply (w : World) : Prop :=
  (exists h model prompt n text,
     ollama_generate w h model prompt n = Returns text /\ strip text = "")
  \/ (exists h model msgs n text rest,
        openai_create w h model msgs n = Returns (Some text :: rest)
        /\ strip text = "").

(** The [message] of a response envelope, when it holds a string. *)
Definition message_of (envelope : dict value) : option string :=
  match dict_get "message" envelope with
  | Some (VStr text) => Some text
  | _ => None
  end.

(** The instructions file of the assistant is not configured or does not
    exist. *)
Definition instructions_missing (w : World) (self : CrystalAssistant.t) : Prop :=
  match instructions_file (CrystalAssistant.config self) with
  | None => True
  | Some file =>
      str_truthy file = true -> forall h, fs_exists w h (Pathlib.Path file) = false
  end.

(** One scheduling call of [TaskScheduler], of any of the three trigger
    kinds, without the job id. *)
Inductive schedule_call : Type :=
| CronCall (func cron_expression : string) (args : option (list value))
    (kwargs : option (dict value)) (description : string)
| IntervalCall (func description : string) (interval_kwargs : dict value)
| OneTimeCall (func run_date : string) (args : option (list value))
    (kwargs : option (dict value)) (description : string).

Definition schedule (self : TaskScheduler.t) (task_id : string) (c : schedule_call) :
    M (TaskScheduler.t * bool) :=
  match c with
  | CronCall func cron_expression args kwargs description =>
      TaskScheduler.schedule_cron_task self task_id func cron_expression args kwargs
        description
  | IntervalCall func description interval_kwargs =>
      TaskScheduler.schedule_interval_task self task_id func description interval_kwargs
  | OneTimeCall func run_date args kwargs description =>
      TaskScheduler.schedule_one_time_task self task_id func run_date args kwargs
        description
  end.

(** The entry of [active_tasks] a scheduling call writes at time [created]. *)
Definition entry_of (c : schedule_call) (created : string) : dict value :=
  match c with
  | CronCall _ cron_expression _ _ description =>
      [("type", VStr "cron"); ("expression", VStr cron_expression);
       ("description", VStr description); ("created", VStr created)]
  | IntervalCall _ description interval_kwargs =>
      [("type", VStr "interval"); ("interval", VDict interval_kwargs);
       ("description", VStr description); ("created", VStr created)]
  | OneTimeCall _ run_date _ _ description =>
      [("type", VStr "one_time"); ("run_date", VStr run_date);
       ("description", VStr description); ("created", VStr created)]
  end.

(** The entries of a listing that carry the job id [task_id]. *)
Definition entries_for (task_id : string) (listing : gmap string (dict value)) :
    list (string * dict value) :=
  List.filter (fun entry => String.eqb (fst entry) task_id) (map_to_list listing).

(** A world for examples: the local server lists [models] and answers every
    generation request with [local_reply], the remote service answers with
    [remote_reply], and exactly the paths of [existing] exist, as
    directories. *)
Definition example_world (models : outcome (list string)) (local_reply : outcome string)
    (remote_reply : outcome (list (option string))) (existing : list path) : World := {|
  system_event_error := "BoundLogger.info() got multiple values for argument 'event'";
  utcnow := fun h => "2025-01-01T00:00:" +:+ str_of_nat (List.length h);
  ollama_new := fun _ _ => Returns tt;
  ollama_list := fun _ => models;
  ollama_generate := fun _ _ _ _ => local_reply;
  openai_create := fun _ _ _ _ => remote_reply;
  py_repr := fun _ => "<value>";
  fs_error := fun _ _ _ => None;
  fs_resolve := fun _ p => p;
  fs_exists := fun _ p => existsb (fun q => String.eqb (Pathlib.to_str p) (Pathlib.to_str q)) existing;
  fs_is_dir := fun _ p => existsb (fun q => String.eqb (Pathlib.to_str p) (Pathlib.to_str q)) existing;
  fs_is_file := fun _ _ => false;
  fs_iterdir := fun _ _ => Returns [];
  fs_rglob := fun _ _ => Returns [];
  fs_size := fun _ _ => Raises "No such file or directory";
  fs_mtime := fun _ _ => Raises "No such file or directory";
  fs_sha256 := fun _ _ => Raises "No such file or directory";
  fs_read_text := fun _ _ => Raises "No such file or directory";
  fs_mkdir := fun _ _ => Returns tt;
  fs_move := fun _ _ _ => Returns tt;
  fs_unlink := fun _ _ => Returns tt;
  fs_copytree := fun _ _ _ => Returns tt;
  guess_type := fun _ => None;
  timezone_error := fun _ => None;
  scheduler_start_error := None;
  trigger_error := fun spec =>
    match spec with
    | CronSpec "" => Some "Wrong number of fields; got 0, expected 5"
    | _ => None
    end;
  job_error := fun _ _ _ => None
|}.

(** Settings with an API key, and with the local model tried first or not. *)
Definition example_settings (api_key : option string) (local_first : bool) : Settings := {|
  openai_api_key := api_key;
  openai_model := "gpt-3.5-turbo";
  openai_max_tokens := 1000;
  ollama_host := "http://localhost:11434";
  default_local_model := "llama3.1:8b";
  use_local_first := local_first;
  fallback_to_api := true;
  allow_file_operations := true;
  allowed_directories := ["/home/user/Documents"; "/home/user/Downloads"];
  scheduler_timezone := "UTC";
  auto_organize_downloads := false;
  duplicate_check_enabled := true;
  backup_before_organize := true
|}.

(** A service with the fields a finished initialization sets: the OpenAI
    client, the Ollama client and the local models it lists. *)
Definition ready_service (api_key host : option string) (models : list string) :
    AIService.t := {|
  AIService.openai_client := api_key;
  AIService.ollama_client := host;
  AIService.available_local_models := models;
  AIService.is_initialized := true
|}.

(** A task scheduler that runs and holds no job. *)
Definition running_scheduler : TaskScheduler.t := {|
  TaskScheduler.scheduler :=
    {| TaskScheduler.running := true; TaskScheduler.pending_jobs := [];
       TaskScheduler.job_store := ∅ |};
  TaskScheduler.is_running := true;
  TaskScheduler.active_tasks := ∅
|}.

(** An orchestrator with the fields a finished initialization sets, as far
    as [process_message] reads them: the persona [ruby], the AI service and
    the mark. *)
Definition ready_orchestrator (service : AIService.t) : CrystalOrchestrator.t := {|
  CrystalOrchestrator.assistants :=
    [("ruby", CrystalAssistant.set_is_active true (CrystalAssistant.new "Ruby" RUBY))];
  CrystalOrchestrator.ai_service := Some service;
  CrystalOrchestrator.task_scheduler := None;
  CrystalOrchestrator.file_service := None;
  CrystalOrchestrator.is_initialized := true
|}.

(** A world in which [resolve] refuses a path with a NUL character, as the
    operating system does; nothing exists. *)
Definition null_byte_world : World := {|
  system_event_error := "BoundLogger.info() got multiple values for argument 'event'";
  utcnow := fun h => "2025-01-01T00:00:" +:+ str_of_nat (List.length h);
  ollama_new := fun _ _ => Returns tt;
  ollama_list := fun _ => Returns [];
  ollama_generate := fun _ _ _ _ => Returns "";
  openai_create := fun _ _ _ _ => Returns [];
  py_repr := fun _ => "<value>";
  fs_error := fun _ op p =>
    if String.eqb op "resolve"
       && existsb (contains (String (ascii_of_nat 0) "")) p
    then Some "embedded null byte" else None;
  fs_resolve := fun _ p => p;
  fs_exists := fun _ _ => false;
  fs_is_dir := fun _ _ => false;
  fs_is_file := fun _ _ => false;
  fs_iterdir := fun _ _ => Returns [];
  fs_rglob := fun _ _ => Returns [];
  fs_size := fun _ _ => Raises "No such file or directory";
  fs_mtime := fun _ _ => Raises "No such file or directory";
  fs_sha256 := fun _ _ => Raises "No such file or directory";
  fs_read_text := fun _ _ => Raises "No such file or directory";
  fs_mkdir := fun _ _ => Returns tt;
  fs_move := fun _ _ _ => Returns tt;
  fs_unlink := fun _ _ => Returns tt;
  fs_copytree := fun _ _ _ => Returns tt;
  guess_type := fun _ => None;
  timezone_error := fun _ => None;
  scheduler_start_error := None;
  trigger_error := fun _ => None;
  job_error := fun _ _ _ => None
|}.

(** A task scheduler as it is built: stopped, without a job. *)
Definition stopped_scheduler : TaskScheduler.t := {|
  TaskScheduler.scheduler :=
    {| TaskScheduler.running := false; TaskScheduler.pending_jobs := [];
       TaskScheduler.job_store := ∅ |};
  TaskScheduler.is_running := false;
  TaskScheduler.active_tasks := ∅
|}.

(** A probe or construction of a backend client, as [initialize] does. *)
Definition is_probe (ev : Event) : bool :=
  match ev with
  | EvOllamaNew _ | EvOllamaList | EvOpenAINew _ => true
  | _ => false
  end.

(** A call of a backend: a client is built, the local server is asked for
    its models, or a generation request is sent. *)
Definition is_backend_event (ev : Event) : bool :=
  is_probe ev || is_local_generation ev || is_remote_generation ev.

(** The text [str(v)] gives in the world [w]. *)
Definition text_of (w : World) (v : value) : string :=
  match v with
  | VNone => "None"
  | VBool true => "True"
  | VBool false => "False"
  | VInt z => str_of_Z z
  | VStr s => s
  | _ => py_repr w v
  end.

(** The chat message a history entry contributes to the remote request:
    entries that are no dictionary, or lack a role or a content, give
    none. *)
Definition history_message (w : World) (entry : value) : option chat_message :=
  match entry with
  | VDict d =>
      match dict_get "role" d, dict_get "content" d with
      | Some role, Some content => Some (role, text_of w content)
      | _, _ => None
      end
  | _ => None
  end.

Definition is_dict (v : value) : bool :=
  match v with VDict _ => true | _ => false end.


(** Every task of the listing has a job in the scheduler. *)
Definition consistent (self : TaskScheduler.t) : Prop :=
  forall task_id,
    is_Some (TaskScheduler.active_tasks self !! task_id) ->
    is_Some (TaskScheduler.scheduler_jobs self !! task_id).

(** One call of a public method of [TaskScheduler] that adds to the
    scheduler or removes from it. *)
Inductive scheduler_op : Type :=
| OpSchedule (task_id : string) (c : schedule_call)
| OpCancel (task_id : string)
| OpStart.

(** The scheduler as the call leaves it, whether the call returns or
    raises. *)
Definition run_op (settings : Settings) (self : TaskScheduler.t) (op : scheduler_op) :
    M TaskScheduler.t :=
  match op with
  | OpSchedule task_id c => bind (schedule self task_id c) (fun r => ret (fst r))
  | OpCancel task_id => bind (TaskScheduler.cancel_task self task_id) (fun r => ret (fst r))
  | OpStart => bind (TaskScheduler.start settings self) (fun r => ret (fst r))
  end.

(** The calls of [ops], one after the other. *)
Definition run_ops (settings : Settings) (self : TaskScheduler.t)
    (ops : list scheduler_op) : M TaskScheduler.t :=
  for_each ops (fun op self => run_op settings self op) self.

(** What a result may be: a value that satisfies [Q], an exception that
    satisfies [E], a loop that did not finish when [may_diverge]. *)
Definition outcome_is {A : Type} (E : string -> Prop) (may_diverge : bool)
    (Q : A -> Prop) (r : result A) : Prop :=
  match r with
  | Ok a => Q a
  | Raise e => E e
  | Diverge => may_diverge = true
  end.

(** In the world [w], every event of the computation satisfies [P] and its
    result is as [outcome_is] says. *)
Definition behaves {A : Type} (w : World) (E : string -> Prop) (may_diverge : bool)
    (P : Event -> Prop) (Q : A -> Prop) (m : M A) : Prop :=
  forall h, Forall P (fst (m w h)) /\ outcome_is E may_diverge Q (snd (m w h)).

Definition any_exception : string -> Prop := fun _ => True.

(** The exception [e] is the one a test of the file system raises in the
    world [w]: one of the tests [ops] ([resolve], [exists], [is_dir],
    [is_file]) of the path [p], after some events. *)
Definition read_failure (w : World) (p : path) (ops : list string) (e : string) : Prop :=
  exists h op, In op ops /\ fs_error w h op p = Some e.

(** A result dictionary that reports success or failure. *)
Definition reports (r : dict value) : Prop :=
  exists b, dict_get "success" r = Some (VBool b).

Definition is_unlink (ev : Event) : bool :=
  match ev with EvUnlink _ => true | _ => false end.

Definition is_move (ev : Event) : bool :=
  match ev with EvMove _ _ => true | _ => false end.

(** Every move among the events [t], emitted after the events [h], goes to
    a path that the check for existence just before it found free. *)
Definition moves_to_free_names (w : World) (h t : list Event) : Prop :=
  forall pre post src dst,
    t = pre ++ EvMove src dst :: post ->
    exists pre',
      pre = pre' ++ [EvFsRead "exists" dst] /\ fs_exists w (h ++ pre') dst = false.

(** A computation all of whose moves go to names found free. *)
Definition careful {A : Type} (m : M A) : Prop :=
  forall w h, moves_to_free_names w h (fst (m w h)).

(** Every event of [t], emitted after the events [h], satisfies [G] of the
    world and of all the events before it. *)
Definition observes (G : World -> list Event -> Event -> Prop) (w : World)
    (h t : list Event) : Prop :=
  forall pre ev post, t = pre ++ ev :: post -> G w (h ++ pre) ev.

Definition heeds {A : Type} (G : World -> list Event -> Event -> Prop) (m : M A) : Prop :=
  forall w h, observes G w h (fst (m w h)).

(** The deletion of [p] comes directly after the comparison of [p] with
    another file that found the same size and the same, non-empty
    digest. *)
Definition compared_before (w : World) (past : list Event) (p : path) : Prop :=
  exists before other size digest,
    past = before ++ [EvFsRead "stat" p; EvFsRead "stat" other;
                      EvFsRead "sha256" p; EvFsRead "sha256" other]
    /\ fs_size w before p = Returns size
    /\ fs_size w (before ++ [EvFsRead "stat" p]) other = Returns size
    /\ fs_sha256 w (before ++ [EvFsRead "stat" p; EvFsRead "stat" other]) p
       = Returns digest
    /\ fs_sha256 w (before ++ [EvFsRead "stat" p; EvFsRead "stat" other;
                               EvFsRead "sha256" p]) other
       = Returns digest
    /\ digest <> "".

Definition deletion_checked (w : World) (past : list Event) (ev : Event) : Prop :=
  match ev with
  | EvUnlink p => compared_before w past p
  | _ => True
  end.

(** In the world [w], no search for a free name runs out of its [fuel]
    renamings. *)
Definition searches_end (w : World) (fuel : nat) : Prop :=
  forall target_path counter h,
    snd (FileService.free_target fuel target_path counter w h) <> Diverge.

(** A world in which [/home/user/Documents] holds the file [a.txt] and the
    directory [documents] with a file [a.txt]; every file has five bytes
    and the same digest. *)
Definition duplicate_world : World := {|
  system_event_error := "BoundLogger.info() got multiple values for argument 'event'";
  utcnow := fun h => "2025-01-01T00:00:" +:+ str_of_nat (List.length h);
  ollama_new := fun _ _ => Returns tt;
  ollama_list := fun _ => Returns [];
  ollama_generate := fun _ _ _ _ => Returns "";
  openai_create := fun _ _ _ _ => Returns [];
  py_repr := fun _ => "<value>";
  fs_error := fun _ _ _ => None;
  fs_resolve := fun _ p => p;
  fs_exists := fun _ p =>
    mem (Pathlib.to_str p)
      ["/home/user/Documents"; "/home/user/Documents/a.txt";
       "/home/user/Documents/documents"; "/home/user/Documents/documents/a.txt"];
  fs_is_dir := fun _ p =>
    mem (Pathlib.to_str p) ["/home/user/Documents"; "/home/user/Documents/documents"];
  fs_is_file := fun _ p =>
    mem (Pathlib.to_str p)
      ["/home/user/Documents/a.txt"; "/home/user/Documents/documents/a.txt"];
  fs_iterdir := fun _ _ =>
    Returns [["/"; "home"; "user"; "Documents"; "a.txt"];
             ["/"; "home"; "user"; "Documents"; "documents"]];
  fs_rglob := fun _ _ => Returns [];
  fs_size := fun _ _ => Returns 5%Z;
  fs_mtime := fun _ _ => Returns "2025-01-01T00:00:00";
  fs_sha256 := fun _ _ => Returns "2cf24dba";
  fs_read_text := fun _ _ => Returns "hello";
  fs_mkdir := fun _ _ => Returns tt;
  fs_move := fun _ _ _ => Returns tt;
  fs_unlink := fun _ _ => Returns tt;
  fs_copytree := fun _ _ _ => Returns tt;
  guess_type := fun _ => None;
  timezone_error := fun _ => None;
  scheduler_start_error := None;
  trigger_error := fun _ => None;
  job_error := fun _ _ _ => None
|}.

(** A world whose scheduling library accepts every time zone, trigger
    and job, and starts. *)
Definition accepting_world : World := {|
  system_event_error := "BoundLogger.info() got multiple values for argument 'event'";
  utcnow := fun _ => "2025-01-01T00:00:00";
  ollama_new := fun _ _ => Returns tt;
  ollama_list := fun _ => Returns [];
  ollama_generate := fun _ _ _ _ => Returns "";
  openai_create := fun _ _ _ _ => Returns [];
  py_repr := fun _ => "<value>";
  fs_error := fun _ _ _ => None;
  fs_resolve := fun _ p => p;
  fs_exists := fun _ _ => false;
  fs_is_dir := fun _ _ => false;
  fs_is_file := fun _ _ => false;
  fs_iterdir := fun _ _ => Returns [];
  fs_rglob := fun _ _ => Returns [];
  fs_size := fun _ _ => Raises "No such file or directory";
  fs_mtime := fun _ _ => Raises "No such file or directory";
  fs_sha256 := fun _ _ => Raises "No such file or directory";
  fs_read_text := fun _ _ => Raises "No such file or directory";
  fs_mkdir := fun _ _ => Returns tt;
  fs_move := fun _ _ _ => Returns tt;
  fs_unlink := fun _ _ => Returns tt;
  fs_copytree := fun _ _ _ => Returns tt;
  guess_type := fun _ => None;
  timezone_error := fun _ => None;
  scheduler_start_error := None;
  trigger_error := fun _ => None;
  job_error := fun _ _ _ => None
|}.

(* ===================================================================== *)
(** ** Behaviour on concrete inputs *)
(* ===================================================================== *)

Example lower_name : lower "Ruby" = "ruby".
Proof. reflexivity. Qed.

Example strip_spaces : strip ("  a b " +:+ NL) = "a b".
Proof. reflexivity. Qed.

Example strip_no_break_space :
  strip (String (ascii_of_nat 160) "a b" +:+ String (ascii_of_nat 133) "") = "a b".
Proof. reflexivity. Qed.

Example lower_latin1 :
  lower (String (ascii_of_nat 201) "T") = String (ascii_of_nat 233) "t"
  /\ lower (String (ascii_of_nat 215) "") = String (ascii_of_nat 215) "".
Proof. split; reflexivity. Qed.

Example split_lines : split_on ":" "a:b:" = ["a"; "b"; ""].
Proof. reflexivity. Qed.

Example local_model_by_tag : AIService._is_local_model AIService.new "llama3.1:8b" = true.
Proof. reflexivity. Qed.

Example remote_name_is_not_local : AIService._is_local_model AIService.new "gpt-4" = false.
Proof. reflexivity. Qed.

Example openai_model_by_prefix : AIService._is_openai_model "gpt-4o-mini" = true.
Proof. reflexivity. Qed.

Example unknown_model_is_neither :
  AIService._is_local_model AIService.new "mistral" = false
  /\ AIService._is_openai_model "mistral" = false.
Proof. split; reflexivity. Qed.

Example select_remote_for_analysis :
  AIService._select_optimal_model (example_settings (Some "sk-test") true)
    (AIService.set_openai_client (Some "sk-test") AIService.new)
    "Please ANALYZE this" None
  = "gpt-3.5-turbo".
Proof. reflexivity. Qed.

Example select_local_for_short_message :
  AIService._select_optimal_model (example_settings (Some "sk-test") true)
    (AIService.set_available_local_models ["llama3.1:8b"] AIService.new) "hello" None
  = "llama3.1:8b".
Proof. reflexivity. Qed.

Example local_prompt_with_history :
  AIService._build_prompt "How are you?"
    (Some [("conversation_history",
            VList [VDict [("role", VStr "user"); ("content", VStr "Hi")];
                   VDict [("content", VStr "Hello")]])])
    (example_world (Returns []) (Returns "") (Returns []) []) []
  = ([], Ok ("Previous conversation:" +:+ NL +:+ "user: Hi" +:+ NL +:+ "user: Hello"
             +:+ NL +:+ NL +:+ "User: How are you?" +:+ NL +:+ "Assistant:")).
Proof. reflexivity. Qed.

Example path_parts : Pathlib.Path "/home//user/./Documents/" = ["/"; "home"; "user"; "Documents"].
Proof. reflexivity. Qed.

Example path_two_slashes :
  Pathlib.Path "//srv/data" = ["//"; "srv"; "data"]
  /\ Pathlib.Path "///srv/data" = ["/"; "srv"; "data"]
  /\ Pathlib.to_str ["//"; "srv"; "data"] = "//srv/data"
  /\ Pathlib.parent ["//"] = ["//"].
Proof. repeat split; reflexivity. Qed.

Example path_suffix :
  Pathlib.suffix ["a.tar.gz"] = ".gz" /\ Pathlib.stem ["a.tar.gz"] = "a.tar"
  /\ Pathlib.suffix [".bashrc"] = "" /\ Pathlib.stem [".bashrc"] = ".bashrc".
Proof. repeat split; reflexivity. Qed.

Example relative_to_root :
  Pathlib.is_relative_to (Pathlib.Path "/home/user/Documents/taxes")
    (Pathlib.Path "/home/user/Documents") = true
  /\ Pathlib.is_relative_to (Pathlib.Path "/home/user/Documents2")
       (Pathlib.Path "/home/user/Documents") = false.
Proof. split; reflexivity. Qed.

Example relative_to_empty_path :
  Pathlib.is_relative_to ["/"; "home"] [] = false
  /\ Pathlib.is_relative_to ["home"] [] = true
  /\ Pathlib.is_relative_to ["//"; "home"] ["/"] = false.
Proof. repeat split; reflexivity. Qed.

Example category_by_extension :
  FileService._get_file_category (FileService.new (example_settings None true))
    (Pathlib.Path "/home/user/Downloads/photo.JPG") = "images"
  /\ FileService._get_file_category (FileService.new (example_settings None true))
       (Pathlib.Path "/home/user/Downloads/notes") = "other".
Proof. split; reflexivity. Qed.

Example personality_section :
  CrystalAssistant.parse_lines
    ["# Personality"; "- Tone: warm and direct"; "- Very Patient"; ""; "## Details";
     "- humor: dry"; "Other text"; "- ignored: yes"]
    false []
  = [("tone", VStr "warm and direct"); ("very_patient", VBool true);
     ("humor", VStr "dry")].
Proof. reflexivity. Qed.

Example cancel_unknown_job :
  TaskScheduler.cancel_task
    {| TaskScheduler.scheduler :=
         {| TaskScheduler.running := true; TaskScheduler.pending_jobs := [];
            TaskScheduler.job_store := ∅ |};
       TaskScheduler.is_running := true;
       TaskScheduler.active_tasks := ∅ |}
    "X" (example_world (Returns []) (Returns "") (Returns []) []) []
  = ([EvLog "task_scheduler" "task_cancellation_failed"],
     Ok ({| TaskScheduler.scheduler :=
         {| TaskScheduler.running := true; TaskScheduler.pending_jobs := [];
            TaskScheduler.job_store := ∅ |};
       TaskScheduler.is_running := true;
            TaskScheduler.active_tasks := ∅ |}, false)).
Proof. reflexivity. Qed.

(** On a stopped scheduler the second job of an id waits behind the
    first: two jobs, one listing entry; one cancellation removes the entry
    and leaves a job. *)
Example stopped_scheduler_keeps_both_jobs :
  let w := example_world (Returns []) (Returns "") (Returns []) [] in
  let c := IntervalCall "report" "hourly" [("hours", VInt 1)] in
  let twice := bind (schedule stopped_scheduler "X" c)
                 (fun r => bind (schedule (fst r) "X" c) (fun r => ret (fst r))) in
  let cancelled := bind twice
                     (fun s => bind (TaskScheduler.cancel_task s "X")
                                 (fun r => ret (fst r))) in
  option_map (fun s => (List.length (TaskScheduler.get_jobs (TaskScheduler.scheduler s)),
                        size (TaskScheduler.active_tasks s)))
    (result_value (snd (twice w [])))
  = Some (2, 1)
  /\ option_map (fun s => (List.length (TaskScheduler.get_jobs (TaskScheduler.scheduler s)),
                           size (TaskScheduler.active_tasks s)))
       (result_value (snd (cancelled w [])))
     = Some (1, 0).
Proof. split; reflexivity. Qed.

Example system_event_raises :
  system_event "ai_service" "ai_service_ready"
    (example_world (Returns []) (Returns "") (Returns []) []) []
  = ([], Raise "BoundLogger.info() got multiple values for argument 'event'").
Proof. reflexivity. Qed.

(* ===================================================================== *)
(** ** Strings *)
(* ===================================================================== *)

Lemma append_nil_r (s : string) : s +:+ "" = s.
Proof.
  induction s as [| c s IH]; [reflexivity |].
  change (String c (s +:+ "") = String c s). f_equal. exact IH.
Qed.

Lemma append_assoc (a b c : string) : (a +:+ b) +:+ c = a +:+ b +:+ c.
Proof.
  induction a as [| x a IH]; [reflexivity |].
  change (String x ((a +:+ b) +:+ c) = String x (a +:+ b +:+ c)). f_equal. exact IH.
Qed.

Lemma prefix_append (s t : string) : String.prefix s (s +:+ t) = true.
Proof.
  induction s as [| c s IH]; simpl.
  - destruct t; reflexivity.
  - destruct (ascii_dec c c); [exact IH | contradiction].
Qed.

Lemma prefix_append_l (sub a b : string) :
  String.prefix sub a = true -> String.prefix sub (a +:+ b) = true.
Proof.
  revert a. induction sub as [| c sub IH]; intros a H.
  - destruct (a +:+ b); reflexivity.
  - destruct a as [| c' a]; [discriminate |]. simpl in *.
    destruct (ascii_dec c c'); [apply IH; assumption | discriminate].
Qed.

Lemma contains_here (sub s : string) : String.prefix sub s = true -> contains sub s = true.
Proof. intros H. destruct s; simpl in *; rewrite H; reflexivity. Qed.

Lemma contains_append_r (sub a b : string) :
  contains sub b = true -> contains sub (a +:+ b) = true.
Proof.
  intros H. induction a as [| c a IH]; [exact H |].
  change (String c a +:+ b) with (String c (a +:+ b)).
  cbn [contains]. rewrite IH. destruct (String.prefix sub (String c (a +:+ b))); reflexivity.
Qed.

Lemma contains_append_l (sub a b : string) :
  contains sub a = true -> contains sub (a +:+ b) = true.
Proof.
  induction a as [| c a IH]; intros H.
  - cbn [contains] in H.
    destruct (String.prefix sub "") eqn:Hp; [| discriminate].
    apply contains_here. apply prefix_append_l. assumption.
  - change (String c a +:+ b) with (String c (a +:+ b)).
    cbn [contains] in *.
    destruct (String.prefix sub (String c a)) eqn:Hp.
    + pose proof (prefix_append_l sub (String c a) b Hp) as Hp'.
      change (String c a +:+ b) with (String c (a +:+ b)) in Hp'.
      rewrite Hp'. reflexivity.
    + rewrite (IH H). destruct (String.prefix sub (String c (a +:+ b))); reflexivity.
Qed.

Lemma contains_middle (sub a b : string) : contains sub (a +:+ sub +:+ b) = true.
Proof. apply contains_append_r. apply contains_here. apply prefix_append. Qed.

Lemma contains_join (sep k : string) (l : list string) :
  In k l -> contains k (join sep l) = true.
Proof.
  unfold join. induction l as [| x l IH]; intros Hin; [destruct Hin |].
  destruct l as [| y l].
  - destruct Hin as [-> | []]. simpl. apply contains_here.
    rewrite <- (append_nil_r k) at 2. apply prefix_append.
  - change (String.concat sep (x :: y :: l))
      with (x +:+ sep +:+ String.concat sep (y :: l)).
    destruct Hin as [-> | Hin].
    + apply contains_append_l. apply contains_here.
      rewrite <- (append_nil_r k) at 2. apply prefix_append.
    + apply contains_append_r, contains_append_r. apply IH. assumption.
Qed.

Lemma rev_string_acc_append (s acc : string) :
  rev_string_acc s acc = rev_string s +:+ acc.
Proof.
  unfold rev_string. revert acc. induction s as [| c s IH]; intros acc; simpl.
  - reflexivity.
  - rewrite IH. rewrite (IH (String c "")).
    rewrite append_assoc. reflexivity.
Qed.

Lemma lstrip_ends_nonspace (a : string) (c : ascii) :
  is_space c = false -> lstrip (a +:+ String c "") <> "".
Proof.
  intros Hc. induction a as [| x a IH]; simpl.
  - rewrite Hc. discriminate.
  - destruct (is_space x); [exact IH | discriminate].
Qed.

Lemma rev_string_nonempty (s : string) : s <> "" -> rev_string s <> "".
Proof.
  destruct s as [| c s]; [contradiction |]. intros _.
  unfold rev_string. simpl. rewrite rev_string_acc_append.
  destruct (rev_string s); discriminate.
Qed.

(** A text that starts with a character that is not white space does not
    strip to the empty string. *)
Lemma strip_nonempty (c : ascii) (s : string) :
  is_space c = false -> strip (String c s) <> "".
Proof.
  intros Hc. unfold strip, rstrip. simpl lstrip. rewrite Hc.
  apply rev_string_nonempty.
  unfold rev_string at 1. simpl. rewrite rev_string_acc_append.
  apply lstrip_ends_nonspace. assumption.
Qed.

Lemma str_truthy_nonempty (s : string) : str_truthy s = true -> s <> "".
Proof. unfold str_truthy. intros H ->. discriminate. Qed.

Lemma str_truthy_false (s : string) : str_truthy s = false -> s = "".
Proof.
  unfold str_truthy. destruct (String.eqb_spec s ""); [auto | discriminate].
Qed.

(* ===================================================================== *)
(** ** The computation monad *)
(* ===================================================================== *)

Ltac unfold_monad :=
  unfold bind, try_except, call, ask, log, emit, ret, raise, pure_of, of_outcome, now.

Ltac norm_app :=
  repeat first
    [ rewrite <- List.app_assoc | rewrite <- List.app_comm_cons | rewrite List.app_nil_r ];
  cbn [List.app].

Lemma bind_ok {A B : Type} (m : M A) (k : A -> M B) (w : World) (h t : list Event) (a : A) :
  m w h = (t, Ok a) ->
  bind m k w h = (t ++ fst (k a w (h ++ t)), snd (k a w (h ++ t))).
Proof. intros E. unfold bind. rewrite E. destruct (k a w (h ++ t)). reflexivity. Qed.

Lemma bind_raise {A B : Type} (m : M A) (k : A -> M B) (w : World) (h t : list Event)
    (e : string) :
  m w h = (t, Raise e) -> bind m k w h = (t, Raise e).
Proof. intros E. unfold bind. rewrite E. reflexivity. Qed.

Lemma try_except_ok {A : Type} (m : M A) (handler : string -> M A) (w : World)
    (h t : list Event) (a : A) :
  m w h = (t, Ok a) -> try_except m handler w h = (t, Ok a).
Proof. intros E. unfold try_except. rewrite E. reflexivity. Qed.

Lemma try_except_raise {A : Type} (m : M A) (handler : string -> M A) (w : World)
    (h t : list Event) (e : string) :
  m w h = (t, Raise e) ->
  try_except m handler w h
    = (t ++ fst (handler e w (h ++ t)), snd (handler e w (h ++ t))).
Proof.
  intros E. unfold try_except. rewrite E. destruct (handler e w (h ++ t)). reflexivity.
Qed.

Lemma bind_log {B : Type} (component event : string) (k : unit -> M B) (w : World)
    (h : list Event) :
  bind (log component event) k w h
    = (EvLog component event :: fst (k tt w (h ++ [EvLog component event])),
       snd (k tt w (h ++ [EvLog component event]))).
Proof. apply (bind_ok (log component event) k w h [EvLog component event] tt eq_refl). Qed.

Lemma fs_query_run {B : Type} (op : string) (p : path)
    (oracle : World -> list Event -> path -> bool) (k : bool -> M B) (w : World)
    (h : list Event) :
  bind (fs_query op p oracle) k w h
  = if oracle w h p then
      (EvFsRead op p :: fst (k true w (h ++ [EvFsRead op p])),
       snd (k true w (h ++ [EvFsRead op p])))
    else
      match fs_error w h op p with
      | Some e => ([EvFsRead op p], Raise e)
      | None =>
          (EvFsRead op p :: fst (k false w (h ++ [EvFsRead op p])),
           snd (k false w (h ++ [EvFsRead op p])))
      end.
Proof.
  unfold bind, fs_query. destruct (oracle w h p).
  - destruct (k true w (h ++ [EvFsRead op p])). reflexivity.
  - destruct (fs_error w h op p); [reflexivity |].
    destruct (k false w (h ++ [EvFsRead op p])). reflexivity.
Qed.

Lemma quiet_ret {A : Type} (a : A) : quiet (ret a).
Proof. intros w h. exists (Ok a). split; [reflexivity | discriminate]. Qed.

Lemma quiet_raise {A : Type} (e : string) : quiet (@raise A e).
Proof. intros w h. exists (Raise e). split; [reflexivity | discriminate]. Qed.

Lemma quiet_pure_of {A : Type} (f : World -> A) : quiet (pure_of f).
Proof. intros w h. exists (Ok (f w)). split; [reflexivity | discriminate]. Qed.

Lemma quiet_bind {A B : Type} (m : M A) (k : A -> M B) :
  quiet m -> (forall a, quiet (k a)) -> quiet (bind m k).
Proof.
  intros Hm Hk w h. unfold bind.
  destruct (Hm w h) as (r & E & Hr). rewrite E.
  destruct r as [a | e |].
  - destruct (Hk a w (h ++ [])) as (r' & E' & Hr'). rewrite E'.
    exists r'. split; [reflexivity | assumption].
  - exists (Raise e). split; [reflexivity | discriminate].
  - contradiction.
Qed.

Lemma quiet_for_each {A S : Type} (l : list A) (body : A -> S -> M S) :
  (forall x s, quiet (body x s)) -> forall s, quiet (for_each l body s).
Proof.
  intros Hbody. induction l as [| x l IH]; intros s; simpl.
  - apply quiet_ret.
  - apply quiet_bind; [apply Hbody | intros s'; apply IH].
Qed.

Lemma quiet_py_str (v : value) : quiet (py_str v).
Proof.
  destruct v as [| [|] | | | |]; simpl;
    first [apply quiet_ret | apply quiet_pure_of].
Qed.

Lemma quiet_py_iter (v : value) : quiet (py_iter v).
Proof. destruct v; simpl; first [apply quiet_ret | apply quiet_raise]. Qed.

Lemma quiet_py_last3 (v : value) : quiet (py_last3 v).
Proof. destruct v; simpl; first [apply quiet_ret | apply quiet_raise]. Qed.

Lemma quiet_py_get (v : value) (k : string) (d : value) : quiet (py_get v k d).
Proof. destruct v; simpl; first [apply quiet_ret | apply quiet_raise]. Qed.

Create HintDb quiet.

#[local] Hint Resolve quiet_ret quiet_raise quiet_pure_of quiet_py_str quiet_py_iter
  quiet_py_last3 quiet_py_get : quiet.

Ltac quiet_steps :=
  repeat first
    [ match goal with |- forall _, _ => intro end
    | apply quiet_bind
    | apply quiet_for_each
    | solve [auto with quiet]
    | match goal with
      | |- quiet (match ?x with _ => _ end) => destruct x
      | |- quiet (if ?b then _ else _) => destruct b
      end ].

Lemma total_safe {A : Type} (P : Event -> Prop) (m : M A) : total P m -> safe P m.
Proof.
  intros H w h. destruct (H w h) as (Ht & a & Ha). split; [assumption |].
  rewrite Ha. discriminate.
Qed.

Lemma quiet_safe {A : Type} (P : Event -> Prop) (m : M A) : quiet m -> safe P m.
Proof.
  intros H w h. destruct (H w h) as (r & E & Hr). rewrite E. split; [constructor | assumption].
Qed.

Lemma total_ret {A : Type} (P : Event -> Prop) (a : A) : total P (ret a).
Proof. intros w h. split; [constructor | eauto]. Qed.

Lemma total_emit (P : Event -> Prop) (ev : Event) : P ev -> total P (emit ev).
Proof. intros Hev w h. split; [repeat constructor; assumption | eauto]. Qed.

Lemma total_log (P : Event -> Prop) (component event : string) :
  P (EvLog component event) -> total P (log component event).
Proof. apply total_emit. Qed.

Lemma total_ask {A : Type} (P : Event -> Prop) (ev : Event)
    (oracle : World -> list Event -> A) :
  P ev -> total P (ask ev oracle).
Proof. intros Hev w h. split; [repeat constructor; assumption | simpl; eauto]. Qed.

Lemma total_pure_of {A : Type} (P : Event -> Prop) (f : World -> A) : total P (pure_of f).
Proof. intros w h. split; [constructor | simpl; eauto]. Qed.

Lemma safe_raise {A : Type} (P : Event -> Prop) (e : string) : safe P (@raise A e).
Proof. intros w h. split; [constructor | discriminate]. Qed.

Lemma safe_call {A : Type} (P : Event -> Prop) (ev : Event)
    (oracle : World -> list Event -> outcome A) :
  P ev -> safe P (call ev oracle).
Proof.
  intros Hev w h. split; [repeat constructor; assumption |].
  simpl. destruct (oracle w h); discriminate.
Qed.

Lemma safe_bind {A B : Type} (P : Event -> Prop) (m : M A) (k : A -> M B) :
  safe P m -> (forall a, safe P (k a)) -> safe P (bind m k).
Proof.
  intros Hm Hk w h. unfold bind.
  destruct (Hm w h) as [Ht Hr]. destruct (m w h) as [t [a | e |]]; simpl in *.
  - destruct (Hk a w (h ++ t)) as [Ht' Hr'].
    destruct (k a w (h ++ t)) as [t' r']. simpl in *.
    split; [apply Forall_app; split; assumption | assumption].
  - split; [assumption | discriminate].
  - contradiction.
Qed.

Lemma total_bind {A B : Type} (P : Event -> Prop) (m : M A) (k : A -> M B) :
  total P m -> (forall a, total P (k a)) -> total P (bind m k).
Proof.
  intros Hm Hk w h. unfold bind.
  destruct (Hm w h) as (Ht & a & Ha). destruct (m w h) as [t r]. simpl in *. subst r.
  destruct (Hk a w (h ++ t)) as (Ht' & b & Hb).
  destruct (k a w (h ++ t)) as [t' r']. simpl in *.
  split; [apply Forall_app; split; assumption | eauto].
Qed.

Lemma safe_try_except {A : Type} (P : Event -> Prop) (m : M A) (handler : string -> M A) :
  safe P m -> (forall e, safe P (handler e)) -> safe P (try_except m handler).
Proof.
  intros Hm Hh w h. unfold try_except.
  destruct (Hm w h) as [Ht Hr]. destruct (m w h) as [t [a | e |]]; simpl in *.
  - split; [assumption | discriminate].
  - destruct (Hh e w (h ++ t)) as [Ht' Hr'].
    destruct (handler e w (h ++ t)) as [t' r']. simpl in *.
    split; [apply Forall_app; split; assumption | assumption].
  - contradiction.
Qed.

Lemma total_try_except {A : Type} (P : Event -> Prop) (m : M A) (handler : string -> M A) :
  safe P m -> (forall e, total P (handler e)) -> total P (try_except m handler).
Proof.
  intros Hm Hh w h. unfold try_except.
  destruct (Hm w h) as [Ht Hr]. destruct (m w h) as [t [a | e |]]; simpl in *.
  - split; [assumption | eauto].
  - destruct (Hh e w (h ++ t)) as (Ht' & a & Ha).
    destruct (handler e w (h ++ t)) as [t' r']. simpl in *.
    split; [apply Forall_app; split; assumption | eauto].
  - contradiction.
Qed.

Lemma safe_for_each {A S : Type} (P : Event -> Prop) (l : list A) (body : A -> S -> M S) :
  (forall x s, safe P (body x s)) -> forall s, safe P (for_each l body s).
Proof.
  intros Hbody. induction l as [| x l IH]; intros s; simpl.
  - apply total_safe, total_ret.
  - apply safe_bind; [apply Hbody | intros s'; apply IH].
Qed.

Lemma total_for_each {A S : Type} (P : Event -> Prop) (l : list A) (body : A -> S -> M S) :
  (forall x s, total P (body x s)) -> forall s, total P (for_each l body s).
Proof.
  intros Hbody. induction l as [| x l IH]; intros s; simpl.
  - apply total_ret.
  - apply total_bind; [apply Hbody | intros s'; apply IH].
Qed.

Lemma total_py_str (P : Event -> Prop) (v : value) : total P (py_str v).
Proof.
  destruct v as [| [|] | | | |]; simpl; first [apply total_ret | apply total_pure_of].
Qed.

Lemma total_run {A : Type} (m : M A) (w : World) (h : list Event) :
  total (fun _ => False) m -> exists a, m w h = ([], Ok a).
Proof.
  intros H. destruct (H w h) as (Ht & a & Ha). exists a.
  destruct (m w h) as [t r]. simpl in *. subst r.
  destruct t as [| ev t]; [reflexivity |]. inversion Ht as [| ? ? []].
Qed.

Lemma safe_fs_query (P : Event -> Prop) (op : string) (p : path)
    (oracle : World -> list Event -> path -> bool) :
  P (EvFsRead op p) -> safe P (fs_query op p oracle).
Proof.
  intros Hev w h. split; [repeat constructor; assumption |].
  unfold fs_query. simpl.
  destruct (oracle w h p); [| destruct (fs_error w h op p)]; discriminate.
Qed.

Lemma safe_resolve (P : Event -> Prop) (p : path) :
  P (EvResolve p) -> safe P (resolve p).
Proof.
  intros Hev w h. split; [repeat constructor; assumption |].
  unfold resolve. simpl. destruct (fs_error w h "resolve" p); discriminate.
Qed.

Create HintDb safety.

(** Goals [total P m] and [safe P m], by the structure of [m]. *)
Ltac step_total :=
  repeat first
    [ match goal with |- forall _, _ => intro end
    | match goal with
      | |- total _ (match ?x with _ => _ end) => destruct x
      | |- total _ (if ?b then _ else _) => destruct b
      | |- safe _ (match ?x with _ => _ end) => destruct x
      | |- safe _ (if ?b then _ else _) => destruct b
      end
    | apply total_ret
    | apply total_py_str
    | apply total_pure_of
    | apply total_log; reflexivity
    | apply total_emit; reflexivity
    | apply total_ask; reflexivity
    | apply total_bind
    | apply total_for_each
    | apply total_try_except
    | apply safe_raise
    | apply safe_call; reflexivity
    | apply safe_fs_query; reflexivity
    | apply safe_resolve; reflexivity
    | apply safe_bind
    | apply safe_try_except
    | apply safe_for_each
    | solve [auto with safety]
    | apply total_safe; solve [auto with safety | step_total] ].

Lemma request_event_local (ev : Event) :
  is_request_event ev = false -> is_local_generation ev = false.
Proof. destruct ev; simpl; congruence. Qed.

Lemma request_event_remote (ev : Event) :
  is_request_event ev = false -> is_remote_generation ev = false.
Proof. destruct ev; simpl; congruence. Qed.

(* ===================================================================== *)
(** ** AIService *)
(* ===================================================================== *)

Lemma quiet_build_prompt (message : string) (context : option (dict value)) :
  quiet (AIService._build_prompt message context).
Proof. unfold AIService._build_prompt. quiet_steps. Qed.

Lemma quiet_build_messages (message : string) (context : option (dict value)) :
  quiet (AIService.build_messages message context).
Proof. unfold AIService.build_messages. quiet_steps. Qed.

Lemma safe_system_event (P : Event -> Prop) (component event : string) :
  safe P (system_event component event).
Proof. intros w h. split; [constructor | discriminate]. Qed.

#[local] Hint Resolve safe_system_event : safety.

Lemma safe_ai_initialize (settings : Settings) (self : AIService.t) :
  safe no_request (AIService.initialize settings self).
Proof. unfold AIService.initialize. step_total. Qed.

#[local] Hint Resolve safe_ai_initialize : safety.

(** The first statement of [initialize] raises: a service that is not
    initialized stays as it is. *)
Lemma ai_initialize_raises (settings : Settings) (self : AIService.t) (w : World)
    (h : list Event) :
  AIService.is_initialized self = false ->
  AIService.initialize settings self w h = ([], Raise (system_event_error w)).
Proof. intros Hself. unfold AIService.initialize. rewrite Hself. reflexivity. Qed.

Lemma ensure_initialized_ready (settings : Settings) (self : AIService.t) (w : World)
    (h : list Event) :
  AIService.is_initialized self = true ->
  AIService.ensure_initialized settings self w h = ([], Ok self).
Proof. intros Hself. unfold AIService.ensure_initialized. rewrite Hself. reflexivity. Qed.

Lemma generate_response_raises (settings : Settings) (self : AIService.t)
    (message : string) (model : option string) (context : option (dict value))
    (max_tokens : option Z) (w : World) (h : list Event) :
  AIService.is_initialized self = false ->
  AIService.generate_response settings self message model context max_tokens w h
    = ([], Raise (system_event_error w)).
Proof.
  intros Hself. unfold AIService.generate_response, AIService.ensure_initialized.
  rewrite Hself. cbn [negb].
  rewrite (bind_raise _ _ _ _ _ _ (ai_initialize_raises settings self w h Hself)).
  reflexivity.
Qed.

Lemma local_response_spec (settings : Settings) (self : AIService.t)
    (message model : string) (context : option (dict value)) (max_tokens : option Z)
    (w : World) (h : list Event) :
  exists t r,
    AIService._generate_local_response settings self message model context max_tokens w h
      = (t, Ok r)
    /\ Forall (fun ev => is_remote_generation ev = false) t
    /\ (forall text, r = Some text ->
        exists h' prompt n, ollama_generate w h' model prompt n = Returns text).
Proof.
  unfold AIService._generate_local_response.
  destruct (AIService.ollama_client self) as [client |].
  2: { exists [], None. repeat split; [constructor | discriminate]. }
  unfold try_except, bind at 1.
  destruct (quiet_build_prompt message context w h) as (r & E & Hr). rewrite E.
  destruct r as [prompt | e |]; [| | contradiction].
  - unfold_monad. simpl.
    destruct (ollama_generate w (h ++ []) model prompt _) as [text | e] eqn:Egen; simpl.
    + eexists; eexists; repeat split; [repeat constructor |].
      intros text' Htext. injection Htext as <-. eauto.
    + eexists; eexists; repeat split; [repeat constructor | discriminate].
  - unfold_monad. simpl.
    eexists; eexists; repeat split; [repeat constructor | discriminate].
Qed.

Lemma openai_response_spec (settings : Settings) (self : AIService.t)
    (message model : string) (context : option (dict value)) (max_tokens : option Z)
    (w : World) (h : list Event) :
  exists t r,
    AIService._generate_openai_response settings self message model context max_tokens w h
      = (t, r)
    /\ r <> Diverge
    /\ Forall (fun ev => is_local_generation ev = false) t
    /\ Forall (fun ev => forall m msgs n, ev = EvOpenAICreate m msgs n -> m = model) t
    /\ (forall text, r = Ok text -> text_origin w text).
Proof.
  unfold AIService._generate_openai_response.
  destruct (AIService.openai_client self) as [client |].
  2: { eexists; eexists; split; [reflexivity |].
       repeat split; [discriminate | constructor | constructor | discriminate]. }
  unfold bind at 1.
  destruct (quiet_build_messages message context w h) as (r & E & Hr). rewrite E.
  destruct r as [messages | e |]; [| | contradiction].
  - unfold_monad. simpl.
    destruct (openai_create w (h ++ []) model messages _) as [choices | e] eqn:Ecreate; simpl.
    + destruct choices as [| [text |] rest]; simpl;
        (eexists; eexists; split; [reflexivity |]);
        (repeat split;
         [ discriminate
         | repeat constructor
         | repeat constructor; intros ? ? ? [=]; congruence
         | ]).
      * discriminate.
      * intros text' [= <-]. eapply FromRemote. exact Ecreate.
      * intros text' [= <-]. apply NoContent. reflexivity.
    + eexists; eexists; split; [reflexivity |].
      repeat split;
        [ discriminate | repeat constructor
        | repeat constructor; intros ? ? ? [=]; congruence | discriminate ].
  - eexists; eexists; split; [reflexivity |].
    repeat split; [discriminate | constructor | constructor | discriminate].
Qed.

Lemma dispatch_origin (settings : Settings) (self : AIService.t)
    (message model : string) (context : option (dict value)) (max_tokens : option Z)
    (w : World) (h : list Event) :
  exists t r,
    AIService.dispatch settings self message model context max_tokens w h = (t, r)
    /\ r <> Diverge
    /\ (forall text, r = Ok text -> text_origin w text).
Proof.
  unfold AIService.dispatch.
  destruct (use_local_first settings && AIService._is_local_model self model).
  - (* the local model first *)
    assert (Hlocal : exists t r,
      (if mem model (AIService.available_local_models self)
       then
         response <- AIService._generate_local_response settings self message model
                       context max_tokens ;;
         match response with
         | Some text => ret (if str_truthy text then Some text else None)
         | None => ret None
         end
       else ret None) w h = (t, Ok r)
      /\ (forall text, r = Some text -> text_origin w text)).
    { destruct (mem model (AIService.available_local_models self)).
      - destruct (local_response_spec settings self message model context max_tokens w h)
          as (t & r & E & _ & Hr).
        rewrite (bind_ok _ _ _ _ _ _ E).
        destruct r as [text |]; simpl.
        + destruct (str_truthy text) eqn:Htruthy.
          * eexists; eexists; split; [reflexivity |].
            intros text' [= <-].
            destruct (Hr text eq_refl) as (h' & prompt & n & Hgen).
            eapply FromLocal; [exact Hgen | apply str_truthy_nonempty; assumption].
          * eexists; eexists; split; [reflexivity | discriminate].
        + eexists; eexists; split; [reflexivity | discriminate].
      - exists [], None. split; [reflexivity | discriminate]. }
    destruct Hlocal as (t & r & E & Hr).
    rewrite (bind_ok _ _ _ _ _ _ E).
    destruct r as [text |]; simpl.
    + eexists; eexists; split; [reflexivity |]. split; [discriminate |].
      intros text' [= <-]. auto.
    + destruct (fallback_to_api settings && is_some (AIService.openai_client self)).
      * rewrite bind_log.
        destruct (openai_response_spec settings self message (openai_model settings)
                    context max_tokens w ((h ++ t) ++ [EvLog "ai_service" "falling_back_to_openai_api"]))
          as (t' & r' & E' & Hnd & _ & _ & Hr').
        rewrite E'. simpl.
        eexists; eexists; split; [reflexivity |]. split; assumption.
      * eexists; eexists; split; [reflexivity |]. split; [discriminate |].
        intros text' [= <-]. apply Degraded. reflexivity.
  - destruct (is_some (AIService.openai_client self) && AIService._is_openai_model model).
    + destruct (openai_response_spec settings self message model context max_tokens w h)
        as (t' & r' & E' & Hnd & _ & _ & Hr').
      eexists; eexists; split; [exact E' |]. split; assumption.
    + destruct (is_some (AIService.ollama_client self)
                && nonempty (AIService.available_local_models self)).
      * destruct (local_response_spec settings self message
                    (hd "" (AIService.available_local_models self)) context max_tokens w h)
          as (t & r & E & _ & Hr).
        rewrite (bind_ok _ _ _ _ _ _ E).
        destruct r as [text |]; simpl.
        -- destruct (str_truthy text) eqn:Htruthy;
             (eexists; eexists; split; [reflexivity |]; split; [discriminate |]);
             intros text' [= <-].
           ++ destruct (Hr text eq_refl) as (h' & prompt & n & Hgen).
              eapply FromLocal; [exact Hgen | apply str_truthy_nonempty; assumption].
           ++ apply Degraded. reflexivity.
        -- eexists; eexists; split; [reflexivity |]. split; [discriminate |].
           intros text' [= <-]. apply Degraded. reflexivity.
      * eexists; eexists; split; [reflexivity |]. split; [discriminate |].
        intros text' [= <-]. apply Degraded. reflexivity.
Qed.

Lemma generate_response_origin (settings : Settings) (self : AIService.t)
    (message : string) (model : option string) (context : option (dict value))
    (max_tokens : option Z) (w : World) (h : list Event) :
  AIService.is_initialized self = true ->
  exists t text,
    AIService.generate_response settings self message model context max_tokens w h
      = (t, Ok (self, text))
    /\ text_origin w text.
Proof.
  intros Hself. unfold AIService.generate_response.
  rewrite (bind_ok _ _ _ _ _ _ (ensure_initialized_ready settings self w h Hself)).
  rewrite bind_log.
  destruct (dispatch_origin settings self message
              (AIService.resolve_model settings self message model context)
              context max_tokens w
              ((h ++ []) ++ [EvLog "ai_service" "generate_response_started"]))
    as (t & r & E & Hnd & Hr).
  destruct r as [text | e |]; [| | contradiction].
  - rewrite (bind_ok _ _ _ _ _ _ (try_except_ok _ _ _ _ _ _ E)). simpl.
    eexists; eexists; split; [reflexivity | auto].
  - cbv beta.
    match goal with
    | |- context [bind (try_except ?m ?hd) ?k ?w ?hh] =>
        pose proof (try_except_raise m hd w hh _ _ E) as Etry; cbn in Etry;
        rewrite (bind_ok _ k _ _ _ _ Etry)
    end.
    simpl.
    eexists; eexists; split; [reflexivity |].
    eapply Failed. reflexivity.
Qed.

Lemma error_message_nonempty (e : string) : AIService.error_message e <> "".
Proof. unfold AIService.error_message. simpl. discriminate. Qed.

(** C1 as stated fails: on an initialized service, with a remote backend
    that answers with an empty content, the text returned by
    [generate_response] is empty. *)
Lemma generate_response_empty_text :
  AIService.generate_response (example_settings (Some "sk-test") true)
    (ready_service (Some "sk-test") None []) "hello" (Some "gpt-4") None None
    (example_world (Raises "connection refused") (Raises "connection refused")
       (Returns [Some ""]) [])
    []
  = ([EvLog "ai_service" "generate_response_started";
      EvOpenAICreate "gpt-4" [AIService.system_message; (VStr "user", "hello")] 1000;
      EvLog "ai_service" "openai_response_generated"],
     Ok (ready_service (Some "sk-test") None [], "")).
Proof. vm_compute. reflexivity. Qed.

(** C1, amended: on an initialized service, [generate_response] terminates
    without raising and returns a text for every message, model hint,
    context and token limit; the text is not empty unless the remote
    backend answered with an empty content, which is passed on as it is. *)
Theorem generate_response_returns_text (settings : Settings) (self : AIService.t)
    (message : string) (model : option string) (context : option (dict value))
    (max_tokens : option Z) (w : World) (h : list Event) :
  AIService.is_initialized self = true ->
  exists t text,
    AIService.generate_response settings self message model context max_tokens w h
      = (t, Ok (self, text))
    /\ (text <> ""
        \/ exists h' remote_model msgs n rest,
             openai_create w h' remote_model msgs n = Returns (Some "" :: rest)).
Proof.
  intros Hself.
  destruct (generate_response_origin settings self message model context max_tokens w h
              Hself)
    as (t & text & E & Horigin).
  exists t, text. split; [exact E |].
  destruct Horigin as [h' m prompt n Hgen Hne | h' m msgs n rest Hcreate | -> | -> | e ->].
  - left. assumption.
  - destruct (String.eqb_spec text "") as [-> | Hne].
    + right. eauto 6.
    + left. assumption.
  - left. discriminate.
  - left. discriminate.
  - left. apply error_message_nonempty.
Qed.

Lemma generate_response_returns_text_witness :
  let settings := example_settings (Some "sk-test") true in
  let self := ready_service (Some "sk-test") (Some "http://localhost:11434")
                ["llama3.1:8b"] in
  let w := example_world (Returns ["llama3.1:8b"]) (Returns "local answer")
             (Returns [Some "remote answer"]) [] in
  exists t text,
    AIService.generate_response settings self "hello" None None None w []
      = (t, Ok (self, text))
    /\ (text <> ""
        \/ exists h' remote_model msgs n rest,
             openai_create w h' remote_model msgs n = Returns (Some "" :: rest)).
Proof.
  intros settings self w.
  apply generate_response_returns_text. reflexivity.
Defined.

Lemma dispatch_degraded (settings : Settings) (self : AIService.t)
    (message model : string) (context : option (dict value)) (max_tokens : option Z)
    (w : World) (h : list Event) :
  AIService.openai_client self = None ->
  AIService.ollama_client self = None \/ AIService.available_local_models self = [] ->
  AIService.dispatch settings self message model context max_tokens w h
    = ([], Ok AIService.degraded_message).
Proof.
  intros Hopenai Hlocal. unfold AIService.dispatch.
  rewrite Hopenai. simpl is_some. rewrite andb_false_r. simpl andb.
  assert (Hattempt :
    (if mem model (AIService.available_local_models self)
     then
       response <- AIService._generate_local_response settings self message model
                     context max_tokens ;;
       match response with
       | Some text => ret (if str_truthy text then Some text else None)
       | None => ret None
       end
     else ret None) w h = ([], Ok None)).
  { destruct Hlocal as [Hclient | Hmodels].
    - destruct (mem model (AIService.available_local_models self)); [| reflexivity].
      unfold AIService._generate_local_response. rewrite Hclient. reflexivity.
    - rewrite Hmodels. reflexivity. }
  destruct (use_local_first settings && AIService._is_local_model self model).
  - rewrite (bind_ok _ _ _ _ _ _ Hattempt). reflexivity.
  - destruct Hlocal as [-> | ->]; simpl; [reflexivity |].
    rewrite andb_false_r. reflexivity.
Qed.

(** An initialized service without an OpenAI client and without a usable
    local backend answers with the degraded-service message. *)
Lemma generate_response_degraded_run (settings : Settings) (self : AIService.t)
    (message : string) (model : option string) (context : option (dict value))
    (max_tokens : option Z) (w : World) (h : list Event) :
  AIService.is_initialized self = true ->
  AIService.openai_client self = None ->
  AIService.ollama_client self = None \/ AIService.available_local_models self = [] ->
  AIService.generate_response settings self message model context max_tokens w h
    = ([EvLog "ai_service" "generate_response_started"],
       Ok (self, AIService.degraded_message)).
Proof.
  intros Hself Hopenai Hlocal. unfold AIService.generate_response.
  rewrite (bind_ok _ _ _ _ _ _ (ensure_initialized_ready settings self w h Hself)).
  rewrite bind_log. cbv beta.
  match goal with
  | |- context [bind (try_except ?m ?hd) ?k ?w ?hh] =>
      rewrite (bind_ok _ k _ _ _ _
                 (try_except_ok m hd w hh _ _
                    (dispatch_degraded settings self message _ context max_tokens w hh
                       Hopenai Hlocal)))
  end.
  simpl. reflexivity.
Qed.

(** C2, the code at the failing input: a new service has no OpenAI client
    and no local backend, and [generate_response] raises the [TypeError] of
    [system_event], the first statement of [initialize], where the claim
    has it return the degraded-service message; no event is emitted. *)
Theorem generate_response_on_new_service (settings : Settings) (message : string)
    (model : option string) (context : option (dict value)) (max_tokens : option Z)
    (w : World) (h : list Event) :
  AIService.openai_client AIService.new = None
  /\ AIService.ollama_client AIService.new = None
  /\ AIService.generate_response settings AIService.new message model context
       max_tokens w h
     = ([], Raise (system_event_error w)).
Proof.
  split; [reflexivity |]. split; [reflexivity |].
  apply generate_response_raises. reflexivity.
Qed.

Lemma openai_model_truthy (model : string) :
  AIService._is_openai_model model = true -> str_truthy model = true.
Proof. destruct model; [discriminate | reflexivity]. Qed.




(** C4 as stated fails: with [use_local_first] off and the remote model
    name ["gpt-4"], an initialized service without an OpenAI client sends
    the request to the local backend, its last resort. *)
Lemma remote_model_reaches_local_backend :
  let settings := example_settings None false in
  let w := example_world (Returns ["llama3.1:8b"]) (Returns "local answer")
             (Returns [Some "remote answer"]) [] in
  let self := ready_service None (Some "http://localhost:11434") ["llama3.1:8b"] in
  use_local_first settings = false
  /\ AIService._is_openai_model "gpt-4" = true
  /\ AIService.generate_response settings self "hello" (Some "gpt-4") None None w []
     = ([EvLog "ai_service" "generate_response_started";
         EvOllamaGenerate "llama3.1:8b" ("User: hello" +:+ NL +:+ "Assistant:") 1000;
         EvLog "ai_service" "local_response_generated"],
        Ok (self, "local answer")).
Proof. vm_compute. repeat split; reflexivity. Qed.

(** C4, amended: with [use_local_first] off, a supplied model identifier
    that classifies as remote and an OpenAI client configured,
    [generate_response] sends no generation request to the local (Ollama)
    backend, whatever the message and the context. *)
Theorem generate_response_remote_skips_local (settings : Settings)
    (self : AIService.t) (message model : string)
    (context : option (dict value)) (max_tokens : option Z) (w : World)
    (h : list Event) :
  use_local_first settings = false ->
  AIService._is_openai_model model = true ->
  is_some (AIService.openai_client self) = true ->
  Forall (fun ev => is_local_generation ev = false)
    (fst (AIService.generate_response settings self message (Some model) context
            max_tokens w h)).
Proof.
  intros Hfirst Hremote Hclient.
  destruct (AIService.is_initialized self) eqn:Hself.
  2: { rewrite (generate_response_raises settings self message (Some model) context
                  max_tokens w h Hself).
       constructor. }
  unfold AIService.generate_response.
  rewrite (bind_ok _ _ _ _ _ _ (ensure_initialized_ready settings self w h Hself)).
  rewrite bind_log. cbv beta.
  unfold AIService.resolve_model. rewrite (openai_model_truthy model Hremote).
  set (hd := (h ++ []) ++ [EvLog "ai_service" "generate_response_started"]).
  destruct (openai_response_spec settings self message model context max_tokens w hd)
    as (t & r & E & Hnd & Hquiet & _ & _).
  assert (Edispatch :
    AIService.dispatch settings self message model context max_tokens w hd = (t, r)).
  { unfold AIService.dispatch. rewrite Hfirst, Hclient, Hremote. exact E. }
  assert (Hprefix : Forall (fun ev => is_local_generation ev = false)
                      (EvLog "ai_service" "generate_response_started" :: t)).
  { constructor; [reflexivity | assumption]. }
  destruct r as [text | e |]; [| | contradiction].
  - rewrite (bind_ok _ _ _ _ _ _ (try_except_ok _ _ _ _ _ _ Edispatch)). simpl.
    norm_app. exact Hprefix.
  - match goal with
    | |- context [bind (try_except ?m ?hdl) ?k ?w ?hh] =>
        pose proof (try_except_raise m hdl w hh _ _ Edispatch) as Etry; cbn in Etry;
        rewrite (bind_ok _ k _ _ _ _ Etry)
    end.
    simpl. norm_app.
    change (EvLog "ai_service" "generate_response_started"
               :: t ++ [EvLog "ai_service" "ai_response_generation_failed"])
      with ((EvLog "ai_service" "generate_response_started" :: t)
               ++ [EvLog "ai_service" "ai_response_generation_failed"]).
    apply Forall_app. split; [exact Hprefix | repeat constructor].
Qed.

Lemma generate_response_remote_skips_local_witness :
  Forall (fun ev => is_local_generation ev = false)
    (fst (AIService.generate_response (example_settings (Some "sk-test") false)
            (ready_service (Some "sk-test") (Some "http://localhost:11434")
               ["llama3.1:8b"])
            "hello" (Some "gpt-4") None None
            (example_world (Returns ["llama3.1:8b"]) (Returns "local answer")
               (Returns [Some "remote answer"]) [])
            [])).
Proof.
  apply generate_response_remote_skips_local.
  - reflexivity.
  - reflexivity.
  - reflexivity.
Defined.

(* ===================================================================== *)
(** ** TaskScheduler *)
(* ===================================================================== *)

Lemma total_schedule_interval_task (self : TaskScheduler.t)
    (task_id func description : string) (interval_kwargs : dict value) :
  total no_request
    (TaskScheduler.schedule_interval_task self task_id func description interval_kwargs).
Proof.
  unfold TaskScheduler.schedule_interval_task, TaskScheduler.make_trigger,
    TaskScheduler.add_job, now.
  step_total.
Qed.

#[local] Hint Resolve total_schedule_interval_task : safety.

Lemma total_attempt {A : Type} (P : Event -> Prop) (m : M A) :
  safe P m -> total P (attempt m).
Proof.
  intros Hm. unfold attempt. apply total_try_except; [| intros e; apply total_ret].
  apply safe_bind; [exact Hm | intros a; apply total_safe, total_ret].
Qed.

Lemma safe_raised {A : Type} (P : Event -> Prop) (o : outcome A) : safe P (raised o).
Proof. destruct o; simpl; [apply total_safe, total_ret | apply safe_raise]. Qed.

#[local] Hint Resolve safe_raised : safety.

Lemma safe_library_start (P : Event -> Prop) (s : TaskScheduler.AsyncIOScheduler) :
  safe P (TaskScheduler.scheduler_start s).
Proof. unfold TaskScheduler.scheduler_start. step_total. Qed.

Lemma safe_library_shutdown (P : Event -> Prop) (s : TaskScheduler.AsyncIOScheduler) :
  safe P (TaskScheduler.scheduler_shutdown s).
Proof. unfold TaskScheduler.scheduler_shutdown. step_total. Qed.

Lemma total_scheduler_start (settings : Settings) (self : TaskScheduler.t) :
  total no_request (TaskScheduler.start settings self).
Proof.
  unfold TaskScheduler.start, TaskScheduler._schedule_default_tasks.
  pose proof safe_library_start. pose proof safe_system_event.
  step_total; apply total_attempt; auto.
Qed.

#[local] Hint Resolve total_scheduler_start : safety.

Lemma total_scheduler_shutdown (self : TaskScheduler.t) :
  total no_request (TaskScheduler.shutdown self).
Proof.
  unfold TaskScheduler.shutdown.
  pose proof safe_library_shutdown. pose proof safe_system_event.
  step_total; apply total_attempt; auto.
Qed.

Lemma safe_scheduler_new (settings : Settings) :
  safe no_request (TaskScheduler.new settings).
Proof. unfold TaskScheduler.new. step_total. Qed.

#[local] Hint Resolve safe_scheduler_new : safety.

(** *** The jobs of the scheduler, by id *)

Lemma jobs_of_store (store : gmap string TaskScheduler.job) :
  list_to_map (map_to_list store) = store.
Proof. apply list_to_map_to_list. Qed.

Lemma jobs_after_append (l : list (string * TaskScheduler.job)) (k : string)
    (j : TaskScheduler.job) :
  is_Some ((list_to_map (l ++ [(k, j)]) : gmap string TaskScheduler.job) !! k)
  /\ forall other, other <> k ->
       (list_to_map (l ++ [(k, j)]) : gmap string TaskScheduler.job) !! other
       = (list_to_map l : gmap string TaskScheduler.job) !! other.
Proof.
  induction l as [| [k' j'] l [IHsome IHother]]; simpl.
  - split; [rewrite lookup_insert_eq; eauto |].
    intros other Hne. rewrite lookup_insert_ne by congruence. reflexivity.
  - split.
    + destruct (String.eqb_spec k' k) as [-> | Hne].
      * rewrite lookup_insert_eq. eauto.
      * rewrite lookup_insert_ne by assumption. exact IHsome.
    + intros other Hne. destruct (String.eqb_spec k' other) as [-> | Hne'].
      * rewrite !lookup_insert_eq. reflexivity.
      * rewrite !lookup_insert_ne by assumption. apply IHother. assumption.
Qed.

Lemma remove_first_spec (k : string) (l : list (string * TaskScheduler.job)) :
  match TaskScheduler.remove_first k l with
  | Some l' =>
      is_Some ((list_to_map l : gmap string TaskScheduler.job) !! k)
      /\ (forall other, other <> k ->
            (list_to_map l' : gmap string TaskScheduler.job) !! other
            = (list_to_map l : gmap string TaskScheduler.job) !! other)
      /\ List.length l = S (List.length l')
  | None => (list_to_map l : gmap string TaskScheduler.job) !! k = None
  end.
Proof.
  induction l as [| [k' j'] l IH]; simpl; [apply lookup_empty |].
  destruct (String.eqb_spec k' k) as [-> | Hne].
  - split; [rewrite lookup_insert_eq; eauto |]. split; [| reflexivity].
    intros other Hother. rewrite lookup_insert_ne by congruence. reflexivity.
  - destruct (TaskScheduler.remove_first k l) as [l' |]; simpl.
    + destruct IH as (IHsome & IHother & IHlen). split; [| split].
      * rewrite lookup_insert_ne by assumption. exact IHsome.
      * intros other Hother. destruct (String.eqb_spec k' other) as [-> | Hne'].
        -- rewrite !lookup_insert_eq. reflexivity.
        -- rewrite !lookup_insert_ne by assumption. apply IHother. assumption.
      * rewrite IHlen. reflexivity.
    + rewrite lookup_insert_ne by assumption. exact IH.
Qed.

(** [add_job], when the library accepts the job: the scheduler holds a
    job of this id, the other ids are as before. *)
Lemma add_job_run (self : TaskScheduler.t) (task_id : string) (j : TaskScheduler.job)
    (w : World) (h : list Event) :
  job_error w (TaskScheduler.job_func j) (TaskScheduler.job_args j)
    (TaskScheduler.job_kwargs j) = None ->
  exists self',
    TaskScheduler.add_job self task_id j w h = ([], Ok self')
    /\ TaskScheduler.active_tasks self' = TaskScheduler.active_tasks self
    /\ TaskScheduler.is_running self' = TaskScheduler.is_running self
    /\ TaskScheduler.running (TaskScheduler.scheduler self')
       = TaskScheduler.running (TaskScheduler.scheduler self)
    /\ is_Some (TaskScheduler.scheduler_jobs self' !! task_id)
    /\ forall other, other <> task_id ->
         TaskScheduler.scheduler_jobs self' !! other
         = TaskScheduler.scheduler_jobs self !! other.
Proof.
  intros Hjob. unfold TaskScheduler.add_job. unfold_monad. simpl. rewrite Hjob.
  eexists. split; [reflexivity |]. split; [reflexivity |]. split; [reflexivity |].
  unfold TaskScheduler.scheduler_jobs, TaskScheduler.get_jobs. simpl.
  destruct (TaskScheduler.running (TaskScheduler.scheduler self)); simpl.
  - split; [reflexivity |]. rewrite !jobs_of_store.
    split; [rewrite lookup_insert_eq; eauto |].
    intros other Hne. rewrite lookup_insert_ne by congruence. reflexivity.
  - split; [reflexivity |]. apply jobs_after_append.
Qed.

Lemma add_job_refused (self : TaskScheduler.t) (task_id : string) (j : TaskScheduler.job)
    (w : World) (h : list Event) (e : string) :
  job_error w (TaskScheduler.job_func j) (TaskScheduler.job_args j)
    (TaskScheduler.job_kwargs j) = Some e ->
  TaskScheduler.add_job self task_id j w h = ([], Raise e).
Proof.
  intros Hjob. unfold TaskScheduler.add_job. unfold_monad. simpl. rewrite Hjob.
  reflexivity.
Qed.

(** [remove_job]: the scheduler must hold a job of this id; the other ids
    are as before. *)
Lemma remove_job_run (self : TaskScheduler.t) (task_id : string) (w : World)
    (h : list Event) :
  match TaskScheduler.scheduler_jobs self !! task_id with
  | Some _ =>
      exists self',
        TaskScheduler.remove_job self task_id w h = ([], Ok self')
        /\ TaskScheduler.active_tasks self' = TaskScheduler.active_tasks self
        /\ TaskScheduler.is_running self' = TaskScheduler.is_running self
        /\ TaskScheduler.running (TaskScheduler.scheduler self')
           = TaskScheduler.running (TaskScheduler.scheduler self)
        /\ (forall other, other <> task_id ->
              TaskScheduler.scheduler_jobs self' !! other
              = TaskScheduler.scheduler_jobs self !! other)
        /\ List.length (TaskScheduler.get_jobs (TaskScheduler.scheduler self))
           = S (List.length (TaskScheduler.get_jobs (TaskScheduler.scheduler self')))
  | None =>
      TaskScheduler.remove_job self task_id w h
      = ([], Raise (TaskScheduler.job_lookup_error task_id))
  end.
Proof.
  unfold TaskScheduler.remove_job, TaskScheduler.scheduler_jobs, TaskScheduler.get_jobs.
  destruct (TaskScheduler.running (TaskScheduler.scheduler self)) eqn:Hrunning.
  - rewrite jobs_of_store.
    destruct (TaskScheduler.job_store (TaskScheduler.scheduler self) !! task_id)
      as [j |] eqn:Hjob; [| reflexivity].
    eexists. split; [reflexivity |]. simpl. repeat split.
    + intros other Hne. rewrite jobs_of_store.
      rewrite lookup_delete_ne by congruence. reflexivity.
    + rewrite !length_map_to_list.
      rewrite <- (insert_delete_id _ _ _ Hjob) at 1.
      rewrite map_size_insert_None by apply lookup_delete_eq. reflexivity.
  - pose proof (remove_first_spec task_id
                  (TaskScheduler.pending_jobs (TaskScheduler.scheduler self))) as Hspec.
    destruct (TaskScheduler.remove_first task_id
                (TaskScheduler.pending_jobs (TaskScheduler.scheduler self))) as [l' |].
    + destruct Hspec as ([j Hsome] & Hother & Hlen). rewrite Hsome.
      eexists. split; [reflexivity |]. simpl. repeat split; assumption.
    + rewrite Hspec. reflexivity.
Qed.

Lemma schedule_success (self self1 : TaskScheduler.t) (task_id : string)
    (c : schedule_call) (w : World) (h t : list Event) :
  schedule self task_id c w h = (t, Ok (self1, true)) ->
  exists created,
    TaskScheduler.active_tasks self1
      = <[task_id := entry_of c created]> (TaskScheduler.active_tasks self)
    /\ is_Some (TaskScheduler.scheduler_jobs self1 !! task_id).
Proof.
  destruct c; simpl;
    unfold TaskScheduler.schedule_cron_task, TaskScheduler.schedule_interval_task,
      TaskScheduler.schedule_one_time_task, TaskScheduler.make_trigger;
    unfold try_except, bind at 1, bind at 1, pure_of, ret, raise;
    destruct (trigger_error w _) as [e |]; simpl;
    try (unfold_monad; simpl; intros [= _ _]; discriminate);
    match goal with
    | |- context [TaskScheduler.add_job ?s ?k ?j] =>
        destruct (job_error w (TaskScheduler.job_func j) (TaskScheduler.job_args j)
                    (TaskScheduler.job_kwargs j)) as [e |] eqn:Hjob;
        [ rewrite (bind_raise _ _ _ _ _ _ (add_job_refused s k j w _ e Hjob));
          unfold_monad; simpl; intros [= _ _]; discriminate
        | destruct (add_job_run s k j w (h ++ []) Hjob)
            as (self' & E & Hactive & _ & _ & Hsome & _);
          rewrite (bind_ok _ _ _ _ _ _ E); unfold_monad; simpl;
          intros [= _ <-]; eexists; simpl; rewrite Hactive;
          (split; [reflexivity | exact Hsome]) ]
    end.
Qed.

Lemma cancel_scheduled (self : TaskScheduler.t) (task_id : string) (w : World)
    (h : list Event) :
  is_Some (TaskScheduler.scheduler_jobs self !! task_id) ->
  exists self',
    TaskScheduler.cancel_task self task_id w h
      = ([EvLog "task_scheduler" "task_cancelled"], Ok (self', true))
    /\ TaskScheduler.active_tasks self' !! task_id = None.
Proof.
  intros [j Hjob].
  pose proof (remove_job_run self task_id w h) as Hrun. rewrite Hjob in Hrun.
  destruct Hrun as (self1 & E & Hactive & _).
  unfold TaskScheduler.cancel_task.
  unfold try_except. rewrite (bind_ok _ _ _ _ _ _ E). cbv beta zeta.
  unfold_monad. simpl. rewrite Hactive.
  destruct (TaskScheduler.active_tasks self !! task_id) eqn:Hentry.
  - eexists. split; [reflexivity |]. simpl. apply lookup_delete_eq.
  - eexists. split; [reflexivity |]. simpl. rewrite Hactive. assumption.
Qed.

Lemma filter_unique_key {V : Type} (l : list (string * V)) (k : string) (v : V) :
  NoDup (map fst l) -> In (k, v) l ->
  List.filter (fun entry => String.eqb (fst entry) k) l = [(k, v)].
Proof.
  induction l as [| [k' v'] l IH]; intros Hnodup Hin; [destruct Hin |].
  simpl in *. apply NoDup_cons in Hnodup as [Hfresh Hnodup].
  assert (Hnone : forall l' : list (string * V), ~ In k (map fst l') ->
            List.filter (fun entry => String.eqb (fst entry) k) l' = []).
  { induction l' as [| [k2 v2] l' IH']; intros Hk; [reflexivity |]. simpl in *.
    destruct (String.eqb_spec k2 k) as [-> | Hne].
    - exfalso. apply Hk. left. reflexivity.
    - apply IH'. intros Hin'. apply Hk. right. assumption. }
  destruct Hin as [[= -> ->] | Hin].
  - rewrite String.eqb_refl. f_equal. apply Hnone.
    intros Hin. apply Hfresh. apply list_elem_of_In. assumption.
  - destruct (String.eqb_spec k' k) as [-> | Hne].
    + exfalso. apply Hfresh. apply list_elem_of_In.
      change k with (fst (k, v)). apply in_map. assumption.
    + apply IH; assumption.
Qed.

Lemma entries_for_lookup (task_id : string) (listing : gmap string (dict value))
    (entry : dict value) :
  listing !! task_id = Some entry -> entries_for task_id listing = [(task_id, entry)].
Proof.
  intros Hlookup. unfold entries_for. apply filter_unique_key.
  - apply (NoDup_fst_map_to_list listing).
  - apply list_elem_of_In. apply elem_of_map_to_list. assumption.
Qed.

(** C8: after a job [task_id] is scheduled, cancelling [task_id] leaves the
    listing of [get_scheduled_tasks] without an entry for it; scheduling
    [task_id] again, with any trigger kind, leaves exactly one entry for
    it in the listing, the one written by the second call. *)
Theorem schedule_cancel_and_reschedule (self self1 self2 : TaskScheduler.t)
    (task_id : string) (c1 c2 : schedule_call) (w : World) (h t1 t2 : list Event) :
  schedule self task_id c1 w h = (t1, Ok (self1, true)) ->
  schedule self1 task_id c2 w (h ++ t1) = (t2, Ok (self2, true)) ->
  (exists t3 self3 listing,
     TaskScheduler.cancel_task self1 task_id w (h ++ t1) = (t3, Ok (self3, true))
     /\ snd (TaskScheduler.get_scheduled_tasks self3 w (h ++ t1 ++ t3)) = Ok listing
     /\ TaskScheduler.listed_active_tasks listing !! task_id = None
     /\ entries_for task_id (TaskScheduler.listed_active_tasks listing) = [])
  /\ (exists created listing,
        snd (TaskScheduler.get_scheduled_tasks self2 w (h ++ t1 ++ t2)) = Ok listing
        /\ TaskScheduler.listed_active_tasks listing !! task_id
           = Some (entry_of c2 created)
        /\ entries_for task_id (TaskScheduler.listed_active_tasks listing)
           = [(task_id, entry_of c2 created)]).
Proof.
  intros E1 E2.
  destruct (schedule_success _ _ _ _ _ _ _ E1) as (created1 & _ & Hjob1).
  destruct (schedule_success _ _ _ _ _ _ _ E2) as (created2 & Hactive2 & _).
  split.
  - destruct (cancel_scheduled self1 task_id w (h ++ t1) Hjob1) as (self3 & E3 & Hnone).
    eexists; exists self3. eexists. split; [exact E3 |].
    split; [reflexivity |]. simpl. split; [exact Hnone |].
    unfold entries_for.
    destruct (List.filter _ _) as [| [k entry] rest] eqn:Hfilter; [reflexivity |].
    exfalso.
    assert (Hin : In (k, entry)
                    (List.filter (fun entry => String.eqb (fst entry) task_id)
                       (map_to_list (TaskScheduler.active_tasks self3))))
      by (rewrite Hfilter; left; reflexivity).
    apply List.filter_In in Hin as [Hin Hkey]. simpl in Hkey.
    apply String.eqb_eq in Hkey. subst k.
    apply list_elem_of_In, elem_of_map_to_list in Hin. congruence.
  - exists created2. eexists. split; [reflexivity |]. simpl.
    assert (Hlookup : TaskScheduler.active_tasks self2 !! task_id
                      = Some (entry_of c2 created2))
      by (rewrite Hactive2; apply lookup_insert_eq).
    split; [exact Hlookup |]. apply entries_for_lookup. exact Hlookup.
Qed.

Lemma schedule_cancel_and_reschedule_witness :
  let w := example_world (Returns []) (Returns "") (Returns []) [] in
  let self := running_scheduler in
  let c1 := IntervalCall "report" "first" [("minutes", VInt 5)] in
  let c2 := CronCall "report" "0 9 * * *" None None "second" in
  exists self1 self2 t1 t2,
    schedule self "X" c1 w [] = (t1, Ok (self1, true))
    /\ schedule self1 "X" c2 w ([] ++ t1) = (t2, Ok (self2, true))
    /\ (exists t3 self3 listing,
          TaskScheduler.cancel_task self1 "X" w ([] ++ t1) = (t3, Ok (self3, true))
          /\ snd (TaskScheduler.get_scheduled_tasks self3 w ([] ++ t1 ++ t3)) = Ok listing
          /\ TaskScheduler.listed_active_tasks listing !! "X" = None
          /\ entries_for "X" (TaskScheduler.listed_active_tasks listing) = [])
    /\ (exists created listing,
          snd (TaskScheduler.get_scheduled_tasks self2 w ([] ++ t1 ++ t2)) = Ok listing
          /\ TaskScheduler.listed_active_tasks listing !! "X" = Some (entry_of c2 created)
          /\ entries_for "X" (TaskScheduler.listed_active_tasks listing)
             = [("X", entry_of c2 created)]).
Proof.
  intros w self c1 c2.
  do 4 eexists.
  split; [reflexivity |].
  split; [reflexivity |].
  apply (schedule_cancel_and_reschedule self _ _ "X" c1 c2 w [] _ _); reflexivity.
Defined.

(* ===================================================================== *)
(** ** FileService *)
(* ===================================================================== *)

Lemma existsb_none {A : Type} (f : A -> bool) (l : list A) :
  (forall x, In x l -> f x = false) -> existsb f l = false.
Proof.
  induction l as [| x l IH]; intros Hall; [reflexivity |]. simpl.
  rewrite (Hall x (or_introl eq_refl)). apply IH.
  intros y Hy. apply Hall. right. assumption.
Qed.

Lemma directory_refused (settings : Settings) (self : FileService.t) (directory : path)
    (w : World) (h : list Event) :
  allow_file_operations settings = true ->
  fs_error w h "resolve" directory = None ->
  (forall allowed, In allowed (FileService.allowed_directories self) ->
     Pathlib.is_relative_to (fs_resolve w h directory) allowed = false) ->
  FileService._is_directory_allowed settings self directory w h
  = ([EvResolve directory], Ok false).
Proof.
  intros Hallowed Hresolves Houtside. unfold FileService._is_directory_allowed.
  rewrite Hallowed. cbn [negb]. unfold resolve. unfold_monad. simpl. rewrite Hresolves.
  rewrite (existsb_none
             (fun allowed => Pathlib.is_relative_to (fs_resolve w h directory) allowed)
             _ Houtside).
  reflexivity.
Qed.

Lemma directory_refused_when_disabled (settings : Settings) (self : FileService.t)
    (directory : path) (w : World) (h : list Event) :
  allow_file_operations settings = false ->
  FileService._is_directory_allowed settings self directory w h = ([], Ok false).
Proof. intros Hoff. unfold FileService._is_directory_allowed. rewrite Hoff. reflexivity. Qed.

(** C9, the code at the failing input: when [resolve] of the directory
    raises (a NUL byte in the path, a loop of symbolic links),
    [organize_directory] raises the exception to its caller, where the
    claim has it return a result whose [success] is false: the call of
    [resolve] in [_is_directory_allowed] is outside every [try].  Nothing
    is changed in the file system: the only event is the resolution. *)
Theorem organize_directory_unresolvable (settings : Settings) (self : FileService.t)
    (directory_path : string) (create_subdirs : bool) (fuel : nat) (w : World)
    (h : list Event) (e : string) :
  allow_file_operations settings = true ->
  fs_error w h "resolve" (Pathlib.Path directory_path) = Some e ->
  FileService.organize_directory settings fuel self directory_path create_subdirs w h
  = ([EvResolve (Pathlib.Path directory_path)], Raise e).
Proof.
  intros Hallowed Hfails.
  unfold FileService.organize_directory, FileService._is_directory_allowed.
  rewrite Hallowed. cbn [negb]. unfold resolve. unfold_monad. simpl.
  rewrite Hfails. reflexivity.
Qed.

Lemma organize_directory_unresolvable_witness :
  let settings := example_settings None true in
  let directory_path := "/tmp/a" +:+ String (ascii_of_nat 0) "b" in
  FileService.organize_directory settings 10 (FileService.new settings) directory_path
    true null_byte_world []
  = ([EvResolve (Pathlib.Path directory_path)], Raise "embedded null byte").
Proof.
  intros settings directory_path.
  apply organize_directory_unresolvable; reflexivity.
Defined.

(** C10: with [allow_file_operations] off, [organize_directory],
    [find_duplicates] and [search_files] return a result whose [success]
    is false for every directory path, allowed roots included. *)
Theorem file_operations_disabled (settings : Settings) (self : FileService.t)
    (directory_path pattern : string) (create_subdirs include_content : bool)
    (fuel : nat) (w : World) (h : list Event) :
  allow_file_operations settings = false ->
  (exists r,
     FileService.organize_directory settings fuel self directory_path create_subdirs w h
       = ([], Ok r)
     /\ dict_get "success" r = Some (VBool false))
  /\ (exists r,
        FileService.find_duplicates settings self directory_path w h = ([], Ok r)
        /\ dict_get "success" r = Some (VBool false))
  /\ (exists r,
        FileService.search_files settings self directory_path pattern include_content w h
          = ([], Ok r)
        /\ dict_get "success" r = Some (VBool false)).
Proof.
  intros Hoff.
  pose proof (directory_refused_when_disabled settings self (Pathlib.Path directory_path)
                w h Hoff) as E.
  unfold FileService.organize_directory, FileService.find_duplicates,
    FileService.search_files.
  rewrite !(bind_ok _ _ _ _ _ _ E). simpl.
  repeat split; eexists; split; reflexivity.
Qed.

Lemma file_operations_disabled_witness :
  let settings := {| openai_api_key := None; openai_model := "gpt-3.5-turbo";
                     openai_max_tokens := 1000;
                     ollama_host := "http://localhost:11434";
                     default_local_model := "llama3.1:8b";
                     use_local_first := true; fallback_to_api := true;
                     allow_file_operations := false;
                     allowed_directories := ["/home/user/Documents"];
                     scheduler_timezone := "UTC"; auto_organize_downloads := false;
                     duplicate_check_enabled := true;
                     backup_before_organize := true |} in
  let w := example_world (Returns []) (Returns "") (Returns [])
             [["/"; "home"; "user"; "Documents"]] in
  let self := FileService.new settings in
  (exists r,
     FileService.organize_directory settings 10 self "/home/user/Documents" true w []
       = ([], Ok r)
     /\ dict_get "success" r = Some (VBool false))
  /\ (exists r,
        FileService.find_duplicates settings self "/home/user/Documents" w [] = ([], Ok r)
        /\ dict_get "success" r = Some (VBool false))
  /\ (exists r,
        FileService.search_files settings self "/home/user/Documents" "report" true w []
          = ([], Ok r)
        /\ dict_get "success" r = Some (VBool false)).
Proof.
  intros settings w self.
  apply file_operations_disabled. reflexivity.
Defined.

(* ===================================================================== *)
(** ** CrystalAssistant *)
(* ===================================================================== *)

Lemma total_load_instructions (self : CrystalAssistant.t) :
  total no_request (CrystalAssistant._load_instructions self).
Proof. unfold CrystalAssistant._load_instructions. step_total. Qed.

#[local] Hint Resolve total_load_instructions : safety.

Lemma total_assistant_initialize (self : CrystalAssistant.t) :
  total no_request (CrystalAssistant.initialize self).
Proof.
  unfold CrystalAssistant.initialize, CrystalAssistant._load_capabilities.
  step_total.
Qed.

#[local] Hint Resolve total_assistant_initialize : safety.

Lemma load_instructions_shape (self : CrystalAssistant.t) (w : World) (h : list Event) :
  exists t text,
    CrystalAssistant._load_instructions self w h
      = (t, Ok (CrystalAssistant.set_instructions text self))
    /\ (instructions_missing w self -> text = CrystalAssistant.generic_greeting self).
Proof.
  unfold CrystalAssistant._load_instructions, instructions_missing.
  destruct (instructions_file (CrystalAssistant.config self)) as [file |].
  - destruct (str_truthy file) eqn:Hfile; simpl.
    + unfold fs_query, fs_try. unfold_monad. simpl.
      destruct (fs_exists w h (Pathlib.Path file)) eqn:Hexists; simpl.
      * match goal with
        | |- context [fs_read_text w ?hh ?p] =>
            destruct (fs_read_text w hh p) as [text | e]
        end; simpl;
          (eexists; eexists; split; [reflexivity |]);
          intros Hmissing; rewrite (Hmissing eq_refl) in Hexists; discriminate.
      * destruct (fs_error w h "exists" (Pathlib.Path file)) as [e |]; simpl;
          eexists; eexists; split; reflexivity.
    + unfold_monad. simpl. eexists; eexists; split; [reflexivity | reflexivity].
  - unfold_monad. simpl. eexists; eexists; split; [reflexivity | reflexivity].
Qed.

Lemma total_render_entries (P : Event -> Prop) (entries : dict value) :
  total P (CrystalAssistant.render_entries entries).
Proof. unfold CrystalAssistant.render_entries. step_total. Qed.

Lemma quiet_render_entries (entries : dict value) :
  quiet (CrystalAssistant.render_entries entries).
Proof.
  intros w h.
  destruct (total_run _ w h (total_render_entries (fun _ => False) entries)) as (a & E).
  exists (Ok a). split; [exact E | discriminate].
Qed.

Lemma quiet_build_context_prompt (self : CrystalAssistant.t) (message : string)
    (context : dict value) :
  quiet (CrystalAssistant._build_context_prompt self message context).
Proof.
  unfold CrystalAssistant._build_context_prompt.
  pose proof quiet_render_entries.
  quiet_steps.
Qed.

Lemma build_context_prompt_without_history (self : CrystalAssistant.t) (message : string)
    (context : dict value) (w : World) (h : list Event) :
  conversation_history (Some context) = None ->
  exists prompt,
    CrystalAssistant._build_context_prompt self message context w h = ([], Ok prompt).
Proof.
  intros Hnone. apply total_run.
  unfold CrystalAssistant._build_context_prompt. rewrite Hnone.
  pose proof (total_render_entries (fun _ => False)).
  step_total; auto.
Qed.

Lemma assistant_process_message_spec (settings : Settings) (self : CrystalAssistant.t)
    (service : option AIService.t) (message : string) (context : dict value)
    (w : World) (h : list Event) :
  exists t r,
    CrystalAssistant.process_message settings self service message context w h = (t, r)
    /\ match r with
       | Ok (self', _, envelope) =>
           (exists loaded,
              self' = CrystalAssistant.set_instructions loaded self
              /\ (instructions_missing w self ->
                  loaded = CrystalAssistant.generic_greeting self))
           /\ dict_get "error" envelope = None
           /\ exists text,
                dict_get "message" envelope = Some (VStr text)
                /\ (text = CrystalAssistant.apology_message
                    \/ exists reply, text = strip reply /\ text_origin w reply)
       | Raise _ => conversation_history (Some context) <> None
       | Diverge => False
       end.
Proof.
  unfold CrystalAssistant.process_message. rewrite bind_log. cbv beta.
  set (h1 := h ++ [EvLog _ "processing_message"]).
  destruct (load_instructions_shape self w h1) as (t1 & loaded & E1 & Hloaded).
  rewrite (bind_ok _ _ _ _ _ _ E1).
  set (self1 := CrystalAssistant.set_instructions loaded self) in *.
  destruct (quiet_build_context_prompt self1 message context w (h1 ++ t1))
    as (r2 & E2 & Hr2).
  destruct r2 as [prompt | e |]; [| | contradiction].
  - rewrite (bind_ok _ _ _ _ _ _ E2). cbv beta.
    destruct service as [service |].
    + destruct (AIService.is_initialized service) eqn:Hready.
      * match goal with
        | |- context [AIService.generate_response ?s ?sv ?m ?md ?c ?mt] =>
            destruct (generate_response_origin s sv m md c mt w ((h1 ++ t1) ++ []) Hready)
              as (t3 & reply & E3 & Horigin)
        end.
        unfold try_except. rewrite (bind_ok _ _ _ _ _ _ E3). unfold_monad. simpl.
        eexists; eexists; split; [reflexivity |].
        split; [exists loaded; split; [reflexivity | assumption] |].
        split; [reflexivity |].
        eexists; split; [reflexivity |]. right. eauto.
      * match goal with
        | |- context [AIService.generate_response ?s ?sv ?m ?md ?c ?mt] =>
            pose proof (generate_response_raises s sv m md c mt w ((h1 ++ t1) ++ [])
                          Hready) as E3
        end.
        unfold try_except. rewrite (bind_raise _ _ _ _ _ _ E3). unfold_monad. simpl.
        eexists; eexists; split; [reflexivity |].
        split; [exists loaded; split; [reflexivity | assumption] |].
        split; [reflexivity |].
        eexists; split; [reflexivity |]. left. reflexivity.
    + unfold try_except, raise. unfold_monad. simpl.
      eexists; eexists; split; [reflexivity |].
      split; [exists loaded; split; [reflexivity | assumption] |].
      split; [reflexivity |].
      eexists; split; [reflexivity |]. left. reflexivity.
  - rewrite (bind_raise _ _ _ _ _ _ E2). simpl.
    eexists; eexists; split; [reflexivity |].
    intros Hnone.
    destruct (build_context_prompt_without_history self1 message context w (h1 ++ t1) Hnone)
      as (prompt & E). congruence.
Qed.

Lemma greeting_contains_name (self : CrystalAssistant.t) :
  contains (CrystalAssistant.name self) (CrystalAssistant.generic_greeting self) = true.
Proof. unfold CrystalAssistant.generic_greeting. apply contains_middle. Qed.

(** C7 as stated fails: with the instructions file missing, the envelope
    of [process_message] carries the degraded-service message of an
    initialized coordinator without backend, and the apology of the
    assistant for a coordinator that is not initialized; neither contains
    the persona's name: the generic greeting only replaces the
    instructions. *)
Lemma missing_instructions_message_lacks_name :
  let settings := example_settings None true in
  let w := example_world (Raises "connection refused") (Raises "connection refused")
             (Raises "connection refused") [] in
  let ruby := CrystalAssistant.new "Ruby" RUBY in
  instructions_file (CrystalAssistant.config ruby)
    = Some "crystal/assistants/instructions/ruby_instructions.md"
  /\ fs_exists w [] (Pathlib.Path "crystal/assistants/instructions/ruby_instructions.md")
     = false
  /\ option_map (fun r => (dict_get "error" (snd r), message_of (snd r)))
       (result_value
          (snd (CrystalAssistant.process_message settings ruby
                  (Some (ready_service None None [])) "hello" [] w [])))
     = Some (None, Some AIService.degraded_message)
  /\ contains (CrystalAssistant.name ruby) AIService.degraded_message = false
  /\ option_map (fun r => (dict_get "error" (snd r), message_of (snd r)))
       (result_value
          (snd (CrystalAssistant.process_message settings ruby (Some AIService.new)
                  "hello" [] w [])))
     = Some (None, Some CrystalAssistant.apology_message)
  /\ contains (CrystalAssistant.name ruby) CrystalAssistant.apology_message = false.
Proof. vm_compute. repeat split; reflexivity. Qed.

(** C7, amended: when the instructions file is not configured or does not
    exist, [process_message] replaces the instruction text by the generic
    greeting, which contains the persona's name, and the envelope it
    returns has no [error] flag; the message of the envelope is the text
    of the coordinator with surrounding white space stripped (or the
    apology of the assistant), not the greeting. *)
Theorem process_message_without_instructions (settings : Settings)
    (self : CrystalAssistant.t) (service : option AIService.t) (message : string)
    (context : dict value) (w : World) (h : list Event) :
  instructions_missing w self ->
  match snd (CrystalAssistant.process_message settings self service message context w h)
  with
  | Ok (self', _, envelope) =>
      CrystalAssistant.instructions self' = CrystalAssistant.generic_greeting self
      /\ contains (CrystalAssistant.name self) (CrystalAssistant.instructions self') = true
      /\ dict_get "error" envelope = None
      /\ exists text,
           dict_get "message" envelope = Some (VStr text)
           /\ (text = CrystalAssistant.apology_message
               \/ exists reply, text = strip reply /\ text_origin w reply)
  | Raise _ => conversation_history (Some context) <> None
  | Diverge => False
  end.
Proof.
  intros Hmissing.
  destruct (assistant_process_message_spec settings self service message context w h)
    as (t & r & E & Hr).
  rewrite E. cbn [snd].
  destruct r as [[[self' service'] envelope] | e |]; [| exact Hr | exact Hr].
  destruct Hr as ((loaded & -> & Hloaded) & Herror & Hmessage).
  rewrite (Hloaded Hmissing).
  split; [reflexivity |].
  split; [exact (greeting_contains_name self) |].
  split; [exact Herror | exact Hmessage].
Qed.

Lemma process_message_without_instructions_witness :
  let settings := example_settings None true in
  let w := example_world (Returns ["llama3.1:8b"]) (Returns "Hello! How can I help?")
             (Raises "connection refused") [] in
  let ruby := CrystalAssistant.new "Ruby" RUBY in
  let service := ready_service None (Some "http://localhost:11434") ["llama3.1:8b"] in
  match snd (CrystalAssistant.process_message settings ruby (Some service)
               "hello" [] w [])
  with
  | Ok (self', _, envelope) =>
      CrystalAssistant.instructions self' = CrystalAssistant.generic_greeting ruby
      /\ contains (CrystalAssistant.name ruby) (CrystalAssistant.instructions self') = true
      /\ dict_get "error" envelope = None
      /\ exists text,
           dict_get "message" envelope = Some (VStr text)
           /\ (text = CrystalAssistant.apology_message
               \/ exists reply, text = strip reply /\ text_origin w reply)
  | Raise _ => conversation_history (Some []) <> None
  | Diverge => False
  end.
Proof.
  intros settings w ruby service.
  apply process_message_without_instructions.
  intros _ h. reflexivity.
Defined.

(* ===================================================================== *)
(** ** CrystalOrchestrator *)
(* ===================================================================== *)

(** The first statement of [initialize] after the test raises: an
    orchestrator that is not initialized stays as it is. *)
Lemma orchestrator_initialize_raises (settings : Settings) (self : CrystalOrchestrator.t)
    (w : World) (h : list Event) :
  CrystalOrchestrator.is_initialized self = false ->
  CrystalOrchestrator.initialize settings self w h = ([], Raise (system_event_error w)).
Proof.
  intros Hself. unfold CrystalOrchestrator.initialize. rewrite Hself. reflexivity.
Qed.

Lemma orchestrator_ready (settings : Settings) (self : CrystalOrchestrator.t)
    (w : World) (h : list Event) :
  CrystalOrchestrator.is_initialized self = true ->
  CrystalOrchestrator.ensure_initialized settings self w h = ([], Ok self).
Proof.
  intros Hself. unfold CrystalOrchestrator.ensure_initialized. rewrite Hself. reflexivity.
Qed.

Lemma process_message_raises (settings : Settings) (self : CrystalOrchestrator.t)
    (assistant_name message : string) (context : option (dict value)) (w : World)
    (h : list Event) :
  CrystalOrchestrator.is_initialized self = false ->
  CrystalOrchestrator.process_message settings self assistant_name message context w h
    = ([], Raise (system_event_error w)).
Proof.
  intros Hself.
  unfold CrystalOrchestrator.process_message, CrystalOrchestrator.ensure_initialized.
  rewrite Hself. cbn [negb].
  rewrite (bind_raise _ _ _ _ _ _ (orchestrator_initialize_raises settings self w h Hself)).
  reflexivity.
Qed.

Lemma origin_strip (w : World) (reply : string) :
  text_origin w reply -> strip reply <> "" \/ blank_reply w.
Proof.
  intros [h m prompt n Hgen _ | h m msgs n rest Hcreate | -> | -> | e ->].
  - destruct (String.eqb_spec (strip reply) "") as [Hblank | Hne]; [| left; assumption].
    right. left. eauto 8.
  - destruct (String.eqb_spec (strip reply) "") as [Hblank | Hne]; [| left; assumption].
    right. right. eauto 9.
  - left. vm_compute. discriminate.
  - left. vm_compute. discriminate.
  - left.
    exact (strip_nonempty "I"%char
             (" encountered an error while processing your request: " +:+ e) eq_refl).
Qed.

(** C5 as stated fails: when the local backend answers with a blank text,
    the envelope an initialized orchestrator returns for the registered
    persona is a success envelope whose message is empty. *)
Lemma blank_reply_gives_empty_message :
  let settings := example_settings None true in
  let w := example_world (Returns ["llama3.1:8b"]) (Returns " ")
             (Raises "connection refused") [] in
  let self := ready_orchestrator
                (ready_service None (Some "http://localhost:11434") ["llama3.1:8b"]) in
  option_map (fun r => (dict_get "error" (snd r), message_of (snd r)))
    (result_value
       (snd (CrystalOrchestrator.process_message settings self "ruby" "hello" None w [])))
  = Some (None, Some "").
Proof. vm_compute. reflexivity. Qed.

(** C5, amended: on an initialized orchestrator, [process_message] returns
    an envelope that carries a message string.  The message is not empty
    for an unknown persona and after a caught exception; on success it is
    the backend's text with surrounding white space stripped, which is
    empty only when a backend answered with an empty or blank text. *)
Theorem process_message_envelope_message (settings : Settings)
    (self : CrystalOrchestrator.t) (assistant_name message : string)
    (context : option (dict value)) (w : World) (h : list Event) :
  CrystalOrchestrator.is_initialized self = true ->
  exists t self' envelope text,
    CrystalOrchestrator.process_message settings self assistant_name message context w h
      = (t, Ok (self', envelope))
    /\ dict_get "message" envelope = Some (VStr text)
    /\ (text <> "" \/ (dict_get "error" envelope = None /\ blank_reply w)).
Proof.
  intros Hself. unfold CrystalOrchestrator.process_message.
  rewrite (bind_ok _ _ _ _ _ _ (orchestrator_ready settings self w h Hself)).
  cbv beta zeta.
  destruct (dict_get (lower assistant_name) (CrystalOrchestrator.assistants self))
    as [assistant |].
  2: { simpl. do 4 eexists. split; [reflexivity |]. split; [reflexivity |].
       left. discriminate. }
  rewrite bind_log. cbv beta. unfold try_except.
  set (h1 := (h ++ []) ++ [EvLog "orchestrator" "process_message"]).
  destruct (assistant_process_message_spec settings assistant
              (CrystalOrchestrator.ai_service self) message
              (CrystalOrchestrator.context_or_empty context) w h1)
    as (t & r & E & Hr).
  destruct r as [[[assistant' service'] response] | e |]; [| | contradiction].
  - rewrite (bind_ok _ _ _ _ _ _ E). unfold_monad. simpl.
    destruct Hr as (_ & Herror & text & Htext & Horigin).
    unfold dict_get_default. rewrite Htext.
    do 3 eexists. exists text. split; [reflexivity |]. split; [reflexivity |].
    destruct Horigin as [-> | (reply & -> & Horigin)].
    + left. discriminate.
    + destruct (origin_strip w reply Horigin) as [Hne | Hblank].
      * left. assumption.
      * right. split; [reflexivity | assumption].
  - rewrite (bind_raise _ _ _ _ _ _ E). unfold_monad. simpl.
    do 4 eexists. split; [reflexivity |]. split; [reflexivity |]. left. discriminate.
Qed.

Lemma process_message_envelope_message_witness :
  let settings := example_settings None true in
  let w := example_world (Returns ["llama3.1:8b"]) (Returns "Hello! How can I help?")
             (Raises "connection refused") [] in
  let self := ready_orchestrator
                (ready_service None (Some "http://localhost:11434") ["llama3.1:8b"]) in
  exists t self' envelope text,
    CrystalOrchestrator.process_message settings self "Ruby" "hello" None w []
      = (t, Ok (self', envelope))
    /\ dict_get "message" envelope = Some (VStr text)
    /\ (text <> "" \/ (dict_get "error" envelope = None /\ blank_reply w)).
Proof.
  intros settings w self.
  apply process_message_envelope_message. reflexivity.
Defined.

(** On an initialized orchestrator, a persona name whose lower-cased form
    is no key of the registry gives the error envelope, which lists the
    registered names, and no event. *)
Lemma process_message_unknown_run (settings : Settings) (self : CrystalOrchestrator.t)
    (assistant_name message : string) (context : option (dict value)) (w : World)
    (h : list Event) :
  CrystalOrchestrator.is_initialized self = true ->
  dict_get (lower assistant_name) (CrystalOrchestrator.assistants self) = None ->
  CrystalOrchestrator.process_message settings self assistant_name message context w h
    = ([], Ok (self,
               [("message",
                 VStr (CrystalOrchestrator.not_found_message self (lower assistant_name)));
                ("assistant", VStr "system");
                ("error", VBool true)])).
Proof.
  intros Hself Hunknown. unfold CrystalOrchestrator.process_message.
  rewrite (bind_ok _ _ _ _ _ _ (orchestrator_ready settings self w h Hself)).
  cbv beta zeta. rewrite Hunknown. reflexivity.
Qed.

Lemma not_found_message_lists (self : CrystalOrchestrator.t) (assistant_name : string)
    (registered : string) :
  In registered (dict_keys (CrystalOrchestrator.assistants self)) ->
  contains registered (CrystalOrchestrator.not_found_message self assistant_name) = true.
Proof.
  intros Hin. unfold CrystalOrchestrator.not_found_message.
  do 3 apply contains_append_r. apply contains_join. assumption.
Qed.

(** C6, the code at the failing input: on a new orchestrator,
    [process_message] raises the [TypeError] of [system_event], the first
    statement of [initialize], for every persona name, where the claim has
    it return the error envelope; no persona is registered and no event is
    emitted. *)
Theorem process_message_on_new_orchestrator (settings : Settings)
    (assistant_name message : string) (context : option (dict value)) (w : World)
    (h : list Event) :
  dict_get (lower assistant_name) (CrystalOrchestrator.assistants CrystalOrchestrator.new)
    = None
  /\ CrystalOrchestrator.process_message settings CrystalOrchestrator.new assistant_name
       message context w h
     = ([], Raise (system_event_error w)).
Proof.
  split; [reflexivity |]. apply process_message_raises. reflexivity.
Qed.

(* ===================================================================== *)
(** ** AIService: initialization, model choice and prompts *)
(* ===================================================================== *)

(** X1: a persona whose AI service is not initialized cannot answer.
    [generate_response] calls [initialize], whose first statement,
    [system_event], raises a [TypeError]; [process_message] of the persona
    catches it.  The envelope carries the apology and the action
    [error_occurred], its metadata the text of the exception; the service
    is left as it was, and no client is built and no backend is asked.  The
    call itself raises only for a conversation history in the context. *)
Theorem uninitialized_service_gives_apology (settings : Settings)
    (self : CrystalAssistant.t) (service : AIService.t) (message : string)
    (context : dict value) (w : World) (h : list Event) :
  AIService.is_initialized service = false ->
  Forall (fun ev => is_backend_event ev = false)
    (fst (CrystalAssistant.process_message settings self (Some service) message context
            w h))
  /\ match snd (CrystalAssistant.process_message settings self (Some service) message
                  context w h)
     with
     | Ok (_, service', envelope) =>
         service' = Some service
         /\ message_of envelope = Some CrystalAssistant.apology_message
         /\ dict_get "actions" envelope = Some (VList [VStr "error_occurred"])
         /\ exists processing_time,
              dict_get "metadata" envelope
              = Some (VDict [("assistant", VStr (lower (CrystalAssistant.name self)));
                             ("error", VStr (system_event_error w));
                             ("processing_time", VStr processing_time)])
     | Raise _ => conversation_history (Some context) <> None
     | Diverge => False
     end.
Proof.
  intros Hservice. unfold CrystalAssistant.process_message. rewrite bind_log. cbv beta.
  set (h1 := h ++ [EvLog _ "processing_message"]).
  assert (Hload : total (fun ev => is_backend_event ev = false)
                    (CrystalAssistant._load_instructions self))
    by (unfold CrystalAssistant._load_instructions; step_total).
  destruct (Hload w h1) as (Ht1 & self1 & E1).
  destruct (CrystalAssistant._load_instructions self w h1) as [t1 r1] eqn:Eload.
  simpl in Ht1, E1. subst r1.
  destruct (load_instructions_shape self w h1) as (t1' & loaded & Eshape & _).
  rewrite Eload in Eshape. injection Eshape as _ ->. clear t1'.
  rewrite (bind_ok _ _ _ _ _ _ Eload).
  set (self1 := CrystalAssistant.set_instructions loaded self) in *.
  destruct (quiet_build_context_prompt self1 message context w (h1 ++ t1))
    as (r2 & E2 & Hr2).
  destruct r2 as [prompt | e |]; [| | contradiction].
  - rewrite (bind_ok _ _ _ _ _ _ E2). cbv beta.
    match goal with
    | |- context [AIService.generate_response ?s ?sv ?m ?md ?c ?mt] =>
        pose proof (generate_response_raises s sv m md c mt w ((h1 ++ t1) ++ [])
                      Hservice) as E3
    end.
    unfold try_except. rewrite (bind_raise _ _ _ _ _ _ E3). unfold_monad. simpl.
    split.
    + constructor; [reflexivity |]. apply Forall_app. split; [exact Ht1 |].
      repeat constructor.
    + split; [reflexivity |]. split; [reflexivity |]. split; [reflexivity |]. eauto.
  - rewrite (bind_raise _ _ _ _ _ _ E2). simpl. split.
    + constructor; [reflexivity |]. rewrite app_nil_r. exact Ht1.
    + intros Hnone.
      destruct (build_context_prompt_without_history self1 message context w (h1 ++ t1)
                  Hnone)
        as (prompt & E). congruence.
Qed.

Lemma uninitialized_service_gives_apology_witness :
  let settings := example_settings None true in
  let w := example_world (Returns ["llama3.1:8b"]) (Returns "Hello!")
             (Returns [Some "Hello!"]) [] in
  let ruby := CrystalAssistant.new "Ruby" RUBY in
  Forall (fun ev => is_backend_event ev = false)
    (fst (CrystalAssistant.process_message settings ruby (Some AIService.new) "hello" []
            w []))
  /\ match snd (CrystalAssistant.process_message settings ruby (Some AIService.new)
                  "hello" [] w [])
     with
     | Ok (_, service', envelope) =>
         service' = Some AIService.new
         /\ message_of envelope = Some CrystalAssistant.apology_message
         /\ dict_get "actions" envelope = Some (VList [VStr "error_occurred"])
         /\ exists processing_time,
              dict_get "metadata" envelope
              = Some (VDict [("assistant", VStr (lower (CrystalAssistant.name ruby)));
                             ("error", VStr (system_event_error w));
                             ("processing_time", VStr processing_time)])
     | Raise _ => conversation_history (Some []) <> None
     | Diverge => False
     end.
Proof.
  intros settings w ruby.
  apply uninitialized_service_gives_apology. reflexivity.
Defined.

Lemma safe_dispatch_no_probe (settings : Settings) (self : AIService.t)
    (message model : string) (context : option (dict value)) (max_tokens : option Z) :
  safe (fun ev => is_probe ev = false)
    (AIService.dispatch settings self message model context max_tokens).
Proof.
  unfold AIService.dispatch, AIService._generate_local_response,
    AIService._generate_openai_response, AIService.build_messages,
    AIService._build_prompt, py_iter, py_last3, py_get.
  step_total.
Qed.

(** X2: a service that is initialized is never initialized again:
    [generate_response] returns the service unchanged and neither builds a
    client nor asks the local server for its models, so the local models
    found at initialization are never refreshed. *)
Theorem generate_response_never_probes_again (settings : Settings) (self : AIService.t)
    (message : string) (model : option string) (context : option (dict value))
    (max_tokens : option Z) (w : World) (h : list Event) :
  AIService.is_initialized self = true ->
  exists t text,
    AIService.generate_response settings self message model context max_tokens w h
      = (t, Ok (self, text))
    /\ Forall (fun ev => is_probe ev = false) t.
Proof.
  intros Hinit. unfold AIService.generate_response, AIService.ensure_initialized.
  rewrite Hinit. cbn [negb].
  rewrite (bind_ok _ _ w h [] self eq_refl). rewrite bind_log. cbv beta.
  set (resolved := AIService.resolve_model settings self message model context).
  set (hd := (h ++ []) ++ [EvLog "ai_service" "generate_response_started"]).
  destruct (safe_dispatch_no_probe settings self message resolved context max_tokens w hd)
    as [Ht Hnd].
  destruct (AIService.dispatch settings self message resolved context max_tokens w hd)
    as [t r] eqn:E.
  simpl in Ht, Hnd.
  destruct r as [text | e |]; [| | contradiction].
  - rewrite (bind_ok _ _ _ _ _ _ (try_except_ok _ _ _ _ _ _ E)). simpl.
    eexists; eexists; split; [reflexivity |].
    constructor; [reflexivity |]. rewrite app_nil_r. exact Ht.
  - match goal with
    | |- context [bind (try_except ?m ?hdl) ?k ?w ?hh] =>
        pose proof (try_except_raise m hdl w hh _ _ E) as Etry; cbn in Etry;
        rewrite (bind_ok _ k _ _ _ _ Etry)
    end.
    simpl. eexists; eexists; split; [reflexivity |].
    constructor; [reflexivity |]. rewrite app_nil_r.
    apply Forall_app. split; [exact Ht | repeat constructor].
Qed.

Lemma generate_response_never_probes_again_witness :
  let self := {| AIService.openai_client := None;
                 AIService.ollama_client := Some "http://localhost:11434";
                 AIService.available_local_models := ["llama3.1:8b"];
                 AIService.is_initialized := true |} in
  exists t text,
    AIService.generate_response (example_settings None true) self "hello" None None None
      (example_world (Returns ["other:1b"]) (Returns "hi") (Returns []) []) []
      = (t, Ok (self, text))
    /\ Forall (fun ev => is_probe ev = false) t.
Proof.
  intros self. apply generate_response_never_probes_again. reflexivity.
Defined.

Lemma generate_response_initialized (settings : Settings) (self : AIService.t)
    (message : string) (model : option string) (context : option (dict value))
    (max_tokens : option Z) (w : World) (h t : list Event) (text : string) :
  AIService.is_initialized self = true ->
  AIService.dispatch settings self message
    (AIService.resolve_model settings self message model context) context max_tokens w
    (h ++ [EvLog "ai_service" "generate_response_started"]) = (t, Ok text) ->
  AIService.generate_response settings self message model context max_tokens w h
    = (EvLog "ai_service" "generate_response_started" :: t, Ok (self, text)).
Proof.
  intros Hinit E. unfold AIService.generate_response, AIService.ensure_initialized.
  rewrite Hinit. cbn [negb].
  rewrite (bind_ok _ _ w h [] self eq_refl). rewrite bind_log. cbv beta.
  rewrite app_nil_r.
  rewrite (bind_ok _ _ _ _ _ _ (try_except_ok _ _ _ _ _ _ E)). simpl.
  rewrite app_nil_r. reflexivity.
Qed.

Lemma local_tag_truthy (self : AIService.t) (model : string) :
  AIService._is_local_model self model = true ->
  mem model (AIService.available_local_models self) = false ->
  str_truthy model = true.
Proof.
  unfold AIService._is_local_model. intros Hlocal Hmem. rewrite Hmem in Hlocal.
  destruct model; [discriminate | reflexivity].
Qed.

(** X3: with [use_local_first], a model identifier that classifies as local
    but is not among the installed local models, and no way to the remote
    backend (no OpenAI client, or [fallback_to_api] off), the answer is the
    degraded-service message and no backend is contacted: the last-resort
    use of the first installed model is not reached, even when other local
    models are installed. *)
Theorem uninstalled_local_model_is_not_replaced (settings : Settings)
    (self : AIService.t) (message model : string) (context : option (dict value))
    (max_tokens : option Z) (w : World) (h : list Event) :
  AIService.is_initialized self = true ->
  use_local_first settings = true ->
  AIService._is_local_model self model = true ->
  mem model (AIService.available_local_models self) = false ->
  fallback_to_api settings = false \/ AIService.openai_client self = None ->
  AIService.generate_response settings self message (Some model) context max_tokens w h
    = ([EvLog "ai_service" "generate_response_started"],
       Ok (self, AIService.degraded_message)).
Proof.
  intros Hinit Hfirst Hlocal Hmem Hremote.
  apply generate_response_initialized; [assumption |].
  unfold AIService.resolve_model. rewrite (local_tag_truthy self model Hlocal Hmem).
  unfold AIService.dispatch. rewrite Hfirst, Hlocal, Hmem. cbn [andb].
  unfold_monad. simpl.
  destruct Hremote as [-> | ->]; [reflexivity |].
  simpl. rewrite andb_false_r. reflexivity.
Qed.

Lemma uninstalled_local_model_is_not_replaced_witness :
  let self := {| AIService.openai_client := None;
                 AIService.ollama_client := Some "http://localhost:11434";
                 AIService.available_local_models := ["mistral:7b"];
                 AIService.is_initialized := true |} in
  AIService.generate_response (example_settings None true) self "hello"
    (Some "llama3.1:8b") None None
    (example_world (Returns ["mistral:7b"]) (Returns "hi") (Returns []) []) []
  = ([EvLog "ai_service" "generate_response_started"],
     Ok (self, AIService.degraded_message)).
Proof.
  intros self. apply uninstalled_local_model_is_not_replaced.
  - reflexivity.
  - reflexivity.
  - reflexivity.
  - reflexivity.
  - right. reflexivity.
Defined.

(** X4: with [use_local_first], an installed model, an Ollama client and a
    context without conversation history, a non-empty reply of the local
    backend is returned as it is.  The backend receives the prompt
    ["User: <message>\nAssistant:"] and the token limit ([max_tokens], or
    the configured default when it is absent or zero), and the remote
    backend is not contacted. *)
Theorem local_reply_is_returned (settings : Settings) (self : AIService.t)
    (message model text client : string) (context : option (dict value))
    (max_tokens : option Z) (w : World) (h : list Event) :
  let prompt := "User: " +:+ message +:+ NL +:+ "Assistant:" in
  let limit := AIService.token_limit settings max_tokens in
  AIService.is_initialized self = true ->
  use_local_first settings = true ->
  str_truthy model = true ->
  mem model (AIService.available_local_models self) = true ->
  AIService.ollama_client self = Some client ->
  conversation_history context = None ->
  (forall h', ollama_generate w h' model prompt limit = Returns text) ->
  text <> "" ->
  AIService.generate_response settings self message (Some model) context max_tokens w h
    = ([EvLog "ai_service" "generate_response_started";
        EvOllamaGenerate model prompt limit;
        EvLog "ai_service" "local_response_generated"],
       Ok (self, text)).
Proof.
  intros prompt limit Hinit Hfirst Hmodel Hmem Hclient Hhistory Hreply Htext.
  apply generate_response_initialized; [assumption |].
  unfold AIService.resolve_model. rewrite Hmodel.
  unfold AIService.dispatch, AIService._is_local_model.
  rewrite Hfirst, Hmem, orb_true_r. cbn [andb].
  unfold AIService._generate_local_response, AIService._build_prompt.
  rewrite Hclient, Hhistory. unfold_monad. simpl.
  fold prompt. fold limit. rewrite Hreply. simpl.
  destruct (str_truthy text) eqn:Htruthy; [reflexivity |].
  apply str_truthy_false in Htruthy. contradiction.
Qed.

Lemma local_reply_is_returned_witness :
  let self := {| AIService.openai_client := Some "sk-test";
                 AIService.ollama_client := Some "http://localhost:11434";
                 AIService.available_local_models := ["llama3.1:8b"];
                 AIService.is_initialized := true |} in
  AIService.generate_response (example_settings (Some "sk-test") true) self "hello"
    (Some "llama3.1:8b") None (Some 0%Z)
    (example_world (Returns ["llama3.1:8b"]) (Returns "Hi there") (Returns [Some "remote"])
       []) []
  = ([EvLog "ai_service" "generate_response_started";
      EvOllamaGenerate "llama3.1:8b" ("User: " +:+ "hello" +:+ NL +:+ "Assistant:") 1000;
      EvLog "ai_service" "local_response_generated"],
     Ok (self, "Hi there")).
Proof.
  intros self.
  apply (local_reply_is_returned (example_settings (Some "sk-test") true) self "hello"
           "llama3.1:8b" "Hi there" "http://localhost:11434" None (Some 0%Z)).
  - reflexivity.
  - reflexivity.
  - reflexivity.
  - reflexivity.
  - reflexivity.
  - reflexivity.
  - intros h'. reflexivity.
  - discriminate.
Defined.




Lemma dict_get_set_eq {V : Type} (k : string) (v : V) (d : dict V) :
  dict_get k (dict_set k v d) = Some v.
Proof.
  induction d as [| [k' v'] d IH]; simpl.
  - rewrite String.eqb_refl. reflexivity.
  - destruct (String.eqb k k') eqn:E; simpl.
    + rewrite String.eqb_refl. reflexivity.
    + rewrite E. exact IH.
Qed.

Lemma dict_get_set_neq {V : Type} (k k' : string) (v : V) (d : dict V) :
  k' <> k -> dict_get k' (dict_set k v d) = dict_get k' d.
Proof.
  intros Hne. induction d as [| [k2 v2] d IH]; simpl.
  - destruct (String.eqb_spec k' k); [contradiction | reflexivity].
  - destruct (String.eqb_spec k k2) as [-> | Hk]; simpl.
    + destruct (String.eqb_spec k' k2); [contradiction | reflexivity].
    + destruct (String.eqb k' k2); [reflexivity | exact IH].
Qed.

Lemma dict_set_nonempty {V : Type} (k : string) (v : V) (d : dict V) :
  dict_set k v d <> [].
Proof. destruct d as [| [k' v'] d]; simpl; [| destruct (String.eqb k k')]; discriminate. Qed.

Lemma conversation_history_set (history : value) (d : dict value) :
  conversation_history (Some (dict_set "conversation_history" history d))
  = if truthy history then Some history else None.
Proof.
  unfold conversation_history.
  destruct (dict_set "conversation_history" history d) eqn:E.
  - exfalso. exact (dict_set_nonempty _ _ _ E).
  - rewrite <- E. rewrite dict_get_set_eq. reflexivity.
Qed.

Lemma last_n_app {A : Type} (old recent : list A) :
  last_n (List.length recent) (old ++ recent) = recent.
Proof.
  unfold last_n. rewrite List.length_app.
  replace (List.length old + List.length recent - List.length recent)
    with (List.length old + 0) by lia.
  rewrite List.skipn_app, List.skipn_all2 by lia.
  replace (List.length old + 0 - List.length old) with 0 by lia. reflexivity.
Qed.

Lemma last_n_all {A : Type} (n : nat) (l : list A) :
  List.length l <= n -> last_n n l = l.
Proof.
  intros Hle. unfold last_n. replace (List.length l - n) with 0 by lia. reflexivity.
Qed.

(** X6: the prompt for the local backend uses the last three entries of
    the conversation history only: entries before them change nothing, in
    any context. *)
Theorem local_prompt_keeps_three_turns (message : string) (context : dict value)
    (old recent : list value) (w : World) (h : list Event) :
  List.length recent = 3 ->
  AIService._build_prompt message
    (Some (dict_set "conversation_history" (VList (old ++ recent)) context)) w h
  = AIService._build_prompt message
      (Some (dict_set "conversation_history" (VList recent) context)) w h.
Proof.
  intros Hlen. unfold AIService._build_prompt.
  rewrite !conversation_history_set.
  assert (Hold : truthy (VList (old ++ recent)) = true).
  { destruct recent; [discriminate |]. destruct old; reflexivity. }
  assert (Hrecent : truthy (VList recent) = true) by (destruct recent; [discriminate | reflexivity]).
  rewrite Hold, Hrecent. cbn [py_last3].
  rewrite <- Hlen at 1. rewrite last_n_app.
  rewrite (last_n_all 3 recent) by lia. reflexivity.
Qed.

Lemma local_prompt_keeps_three_turns_witness :
  let turn (text : string) := VDict [("role", VStr "user"); ("content", VStr text)] in
  let w := example_world (Returns []) (Returns "") (Returns []) [] in
  AIService._build_prompt "now"
    (Some (dict_set "conversation_history"
             (VList ([turn "one"; turn "two"] ++ [turn "three"; turn "four"; turn "five"]))
             [("user_id", VInt 7)])) w []
  = AIService._build_prompt "now"
      (Some (dict_set "conversation_history"
               (VList [turn "three"; turn "four"; turn "five"])
               [("user_id", VInt 7)])) w [].
Proof.
  intros turn w. apply local_prompt_keeps_three_turns. reflexivity.
Defined.

Lemma py_str_run (v : value) (w : World) (h : list Event) :
  py_str v w h = ([], Ok (text_of w v)).
Proof. destruct v as [| [|] | | | |]; reflexivity. Qed.

Lemma history_messages_run (w : World) (l : list value) (acc : list chat_message)
    (h : list Event) :
  for_each l
    (fun msg messages =>
       match msg with
       | VDict d =>
           match dict_get "role" d, dict_get "content" d with
           | Some role, Some content =>
               content <- py_str content ;; ret (messages ++ [(role, content)])
           | _, _ => ret messages
           end
       | _ => ret messages
       end)
    acc w h
  = ([], Ok (acc ++ omap (history_message w) l)).
Proof.
  revert acc h. induction l as [| msg l IH]; intros acc h; simpl.
  - rewrite app_nil_r. reflexivity.
  - assert (Hstep : forall body : list chat_message -> M (list chat_message),
              (forall acc' h', body acc' w h'
                               = ([], Ok (acc' ++ omap (history_message w) l))) ->
              forall step : M (list chat_message),
              step w h = ([], Ok (acc ++ match history_message w msg with
                                         | Some m => [m]
                                         | None => []
                                         end)) ->
              bind step body w h
              = ([], Ok (acc ++ omap (history_message w) (msg :: l)))).
    { intros body Hbody step Estep. rewrite (bind_ok _ _ _ _ _ _ Estep).
      rewrite Hbody. simpl. destruct (history_message w msg); simpl;
        rewrite <- ?app_assoc; reflexivity. }
    apply Hstep; [intros acc' h'; apply IH |].
    destruct msg as [| | | | | d]; simpl; rewrite ?app_nil_r; try reflexivity.
    destruct (dict_get "role" d) as [role |]; simpl; rewrite ?app_nil_r; [| reflexivity].
    destruct (dict_get "content" d) as [content |]; simpl; rewrite ?app_nil_r;
      [| reflexivity].
    rewrite (bind_ok _ _ _ _ _ _ (py_str_run content w h)). reflexivity.
Qed.

(** X7: for a conversation history that is a list, the message sequence
    sent to the remote backend is the system message, then one message for
    every history entry that is a dictionary with a role and a content, in
    order and without a limit of three, then the new user message; other
    entries are skipped and raise nothing. *)
Theorem remote_messages_of_history (message : string) (context : option (dict value))
    (history : list value) (w : World) (h : list Event) :
  conversation_history context = Some (VList history) ->
  AIService.build_messages message context w h
  = ([], Ok (AIService.system_message :: omap (history_message w) history
             ++ [(VStr "user", message)])).
Proof.
  intros Hhistory. unfold AIService.build_messages. rewrite Hhistory.
  cbn [py_iter].
  match goal with
  | |- bind ?m ?k w h = _ =>
      assert (E : m w h = ([], Ok ([AIService.system_message]
                                   ++ omap (history_message w) history)))
  end.
  { rewrite (bind_ok _ _ w h [] history eq_refl).
    rewrite history_messages_run. reflexivity. }
  rewrite (bind_ok _ _ _ _ _ _ E). reflexivity.
Qed.

Lemma remote_messages_of_history_witness :
  let turn (role text : string) := VDict [("role", VStr role); ("content", VStr text)] in
  let history := [turn "user" "one"; VStr "junk"; VDict [("role", VStr "user")];
                  turn "assistant" "two"; turn "user" "three"; turn "assistant" "four"] in
  let w := example_world (Returns []) (Returns "") (Returns []) [] in
  AIService.build_messages "now" (Some [("conversation_history", VList history)]) w []
  = ([], Ok (AIService.system_message :: omap (history_message w) history
             ++ [(VStr "user", "now")])).
Proof.
  intros turn history w. apply remote_messages_of_history. reflexivity.
Defined.

Lemma local_prompt_raises_on_malformed_entry (w : World) (entries : list value)
    (prompt : string) (h : list Event) :
  existsb (fun entry => negb (is_dict entry)) entries = true ->
  exists e,
    for_each entries
      (fun msg prompt =>
         role <- py_get msg "role" (VStr "user") ;;
         content <- py_get msg "content" (VStr "") ;;
         role <- py_str role ;;
         content <- py_str content ;;
         ret (prompt +:+ role +:+ ": " +:+ content +:+ NL))
      prompt w h
    = ([], Raise e).
Proof.
  revert prompt h. induction entries as [| entry entries IH]; intros prompt h Hbad;
    [discriminate |].
  simpl in Hbad. simpl for_each.
  destruct entry as [| | | | | d];
    try (eexists; reflexivity).
  simpl in Hbad.
  match goal with
  | |- exists e, bind ?step ?body w h = _ =>
      assert (Estep : exists prompt', step w h = ([], Ok prompt'))
  end.
  { cbn [py_get].
    rewrite (bind_ok _ _ w h [] _ eq_refl). cbv beta.
    rewrite (bind_ok _ _ w (h ++ []) [] _ eq_refl). cbv beta.
    rewrite (bind_ok _ _ _ _ _ _ (py_str_run _ w _)). cbv beta.
    rewrite (bind_ok _ _ _ _ _ _ (py_str_run _ w _)). cbv beta.
    eexists. reflexivity. }
  destruct Estep as (prompt' & Estep).
  rewrite (bind_ok _ _ _ _ _ _ Estep).
  destruct (IH prompt' (h ++ []) Hbad) as (e & E). rewrite E. simpl. eauto.
Qed.

(** X8: when one of the last three entries of the conversation history is
    not a dictionary, the local path fails before it reaches the backend:
    [_generate_local_response] returns no value and sends no generation
    request, so the caller goes on to its next path. *)
Theorem malformed_history_skips_local_backend (settings : Settings) (self : AIService.t)
    (message model client : string) (context : option (dict value))
    (history : list value) (max_tokens : option Z) (w : World) (h : list Event) :
  AIService.ollama_client self = Some client ->
  conversation_history context = Some (VList history) ->
  existsb (fun entry => negb (is_dict entry)) (last_n 3 history) = true ->
  AIService._generate_local_response settings self message model context max_tokens w h
  = ([EvLog "ai_service" "local_model_generation_failed"], Ok None).
Proof.
  intros Hclient Hhistory Hbad.
  unfold AIService._generate_local_response. rewrite Hclient.
  assert (Eprompt : exists e,
            AIService._build_prompt message context w h = ([], Raise e)).
  { unfold AIService._build_prompt. rewrite Hhistory. cbn [py_last3].
    destruct (local_prompt_raises_on_malformed_entry w (last_n 3 history)
                ("Previous conversation:" +:+ NL) ((h ++ []) ++ []) Hbad) as (e & E).
    exists e. unfold bind at 1. unfold bind at 1. unfold bind at 1.
    cbn [ret py_iter]. cbv beta iota. unfold bind at 1. cbn [ret]. cbv beta iota.
    rewrite E. reflexivity. }
  destruct Eprompt as (e & Eprompt).
  unfold try_except. rewrite (bind_raise _ _ _ _ _ _ Eprompt).
  reflexivity.
Qed.

Lemma malformed_history_skips_local_backend_witness :
  let self := {| AIService.openai_client := None;
                 AIService.ollama_client := Some "http://localhost:11434";
                 AIService.available_local_models := ["llama3.1:8b"];
                 AIService.is_initialized := true |} in
  AIService._generate_local_response (example_settings None true) self "hello"
    "llama3.1:8b"
    (Some [("conversation_history",
            VList [VDict [("role", VStr "user"); ("content", VStr "hi")];
                   VStr "a plain string"])])
    None (example_world (Returns []) (Returns "Hi there") (Returns []) []) []
  = ([EvLog "ai_service" "local_model_generation_failed"], Ok None).
Proof.
  intros self.
  eapply malformed_history_skips_local_backend; reflexivity.
Defined.

(* ===================================================================== *)
(** ** TaskScheduler: failures, the listing and the job store *)
(* ===================================================================== *)

(** What a scheduling call does: it fails and changes nothing, or it
    writes the listing entry and gives the scheduler a job of the id. *)
Lemma schedule_run (self : TaskScheduler.t) (task_id : string) (c : schedule_call)
    (w : World) (h : list Event) :
  exists t self' ok,
    schedule self task_id c w h = (t, Ok (self', ok))
    /\ (ok = false -> self' = self)
    /\ (ok = true ->
        (exists created,
           TaskScheduler.active_tasks self'
           = <[task_id := entry_of c created]> (TaskScheduler.active_tasks self))
        /\ TaskScheduler.is_running self' = TaskScheduler.is_running self
        /\ TaskScheduler.running (TaskScheduler.scheduler self')
           = TaskScheduler.running (TaskScheduler.scheduler self)
        /\ is_Some (TaskScheduler.scheduler_jobs self' !! task_id)
        /\ forall other, other <> task_id ->
             TaskScheduler.scheduler_jobs self' !! other
             = TaskScheduler.scheduler_jobs self !! other).
Proof.
  destruct c; simpl;
    unfold TaskScheduler.schedule_cron_task, TaskScheduler.schedule_interval_task,
      TaskScheduler.schedule_one_time_task, TaskScheduler.make_trigger;
    unfold try_except, bind at 1, bind at 1, pure_of, ret, raise;
    destruct (trigger_error w _) as [e |]; simpl;
    try (unfold_monad; simpl; do 3 eexists;
         (split; [reflexivity |]); (split; [reflexivity | discriminate]));
    match goal with
    | |- context [TaskScheduler.add_job ?s ?k ?j] =>
        destruct (job_error w (TaskScheduler.job_func j) (TaskScheduler.job_args j)
                    (TaskScheduler.job_kwargs j)) as [e |] eqn:Hjob;
        [ rewrite (bind_raise _ _ _ _ _ _ (add_job_refused s k j w _ e Hjob));
          unfold_monad; simpl; do 3 eexists;
          (split; [reflexivity |]); (split; [reflexivity | discriminate])
        | destruct (add_job_run s k j w (h ++ []) Hjob)
            as (self' & E & Hactive & Hrunning & Hlibrary & Hsome & Hother);
          rewrite (bind_ok _ _ _ _ _ _ E); unfold_monad; simpl;
          do 3 eexists; (split; [reflexivity |]); (split; [discriminate |]);
          intros _; simpl; rewrite Hactive;
          (split; [eexists; reflexivity |]); repeat split; assumption ]
    end.
Qed.

Lemma schedule_returns (self : TaskScheduler.t) (task_id : string) (c : schedule_call)
    (w : World) (h : list Event) :
  exists t self' ok, schedule self task_id c w h = (t, Ok (self', ok)).
Proof.
  destruct (schedule_run self task_id c w h) as (t & self' & ok & E & _). eauto.
Qed.


(** What [cancel_task] does: without a job of the id it fails and changes
    nothing; with one, it removes one job of the id and the listing
    entry. *)
Lemma cancel_run (self : TaskScheduler.t) (task_id : string) (w : World)
    (h : list Event) :
  exists t self' ok,
    TaskScheduler.cancel_task self task_id w h = (t, Ok (self', ok))
    /\ (ok = true <-> is_Some (TaskScheduler.scheduler_jobs self !! task_id))
    /\ (ok = false -> self' = self)
    /\ (ok = true ->
        TaskScheduler.active_tasks self'
        = delete task_id (TaskScheduler.active_tasks self)
        /\ TaskScheduler.is_running self' = TaskScheduler.is_running self
        /\ TaskScheduler.running (TaskScheduler.scheduler self')
           = TaskScheduler.running (TaskScheduler.scheduler self)
        /\ (forall other, other <> task_id ->
              TaskScheduler.scheduler_jobs self' !! other
              = TaskScheduler.scheduler_jobs self !! other)
        /\ List.length (TaskScheduler.get_jobs (TaskScheduler.scheduler self))
           = S (List.length (TaskScheduler.get_jobs (TaskScheduler.scheduler self')))).
Proof.
  pose proof (remove_job_run self task_id w h) as Hrun.
  unfold TaskScheduler.cancel_task, try_except.
  destruct (TaskScheduler.scheduler_jobs self !! task_id) as [j |] eqn:Hjob.
  - destruct Hrun as (self1 & E & Hactive & Hrunning & Hlibrary & Hother & Hlen).
    rewrite (bind_ok _ _ _ _ _ _ E). cbv beta zeta. unfold_monad. simpl.
    rewrite Hactive.
    destruct (TaskScheduler.active_tasks self !! task_id) as [entry |] eqn:Hentry;
      (do 3 eexists; split; [reflexivity |]);
      (split; [split; eauto |]); (split; [discriminate |]); intros _; simpl;
      rewrite ?Hactive; repeat split; try assumption; try reflexivity.
    symmetry. apply delete_id. assumption.
  - rewrite (bind_raise _ _ _ _ _ _ Hrun). unfold_monad. simpl.
    do 3 eexists. split; [reflexivity |].
    split; [split; [discriminate | intros [? [=]]] |].
    split; [reflexivity | discriminate].
Qed.

(** X10: [cancel_task] never raises and returns true exactly when the
    scheduler holds a job with the id; then one job of this id and the
    listing entry are removed: the number of jobs falls by one, and the
    jobs and entries of the other ids are untouched.  For an id without a
    job it returns false and changes nothing, so a listing entry whose job
    is gone stays listed. *)
Theorem cancel_outcome (self : TaskScheduler.t) (task_id : string) (w : World)
    (h : list Event) :
  exists t self' ok,
    TaskScheduler.cancel_task self task_id w h = (t, Ok (self', ok))
    /\ (ok = true <-> is_Some (TaskScheduler.scheduler_jobs self !! task_id))
    /\ (ok = false -> self' = self)
    /\ (ok = true ->
        TaskScheduler.active_tasks self'
        = delete task_id (TaskScheduler.active_tasks self)
        /\ (forall other, other <> task_id ->
              TaskScheduler.scheduler_jobs self' !! other
              = TaskScheduler.scheduler_jobs self !! other)
        /\ List.length (TaskScheduler.get_jobs (TaskScheduler.scheduler self))
           = S (List.length (TaskScheduler.get_jobs (TaskScheduler.scheduler self')))).
Proof.
  destruct (cancel_run self task_id w h) as (t & self' & ok & E & Hiff & Hfalse & Htrue).
  exists t, self', ok. split; [exact E |]. split; [exact Hiff |]. split; [exact Hfalse |].
  intros Hok. destruct (Htrue Hok) as (Hactive & _ & _ & Hother & Hlen).
  split; [exact Hactive |]. split; [exact Hother | exact Hlen].
Qed.

Lemma consistent_schedule (self self' : TaskScheduler.t) (task_id : string)
    (c : schedule_call) (w : World) (h t : list Event) (ok : bool) :
  consistent self ->
  schedule self task_id c w h = (t, Ok (self', ok)) ->
  consistent self'.
Proof.
  intros Hself E.
  destruct (schedule_run self task_id c w h) as (t' & s & b & E' & Hfalse & Htrue).
  rewrite E in E'. injection E' as _ <- <-.
  destruct ok; [| rewrite (Hfalse eq_refl); exact Hself].
  destruct (Htrue eq_refl) as ((created & Hactive) & _ & _ & Hsome & Hother).
  intros id. rewrite Hactive. destruct (decide (id = task_id)) as [-> | Hne].
  - intros _. exact Hsome.
  - rewrite lookup_insert_ne by congruence. rewrite (Hother id Hne). apply Hself.
Qed.

Lemma consistent_cancel (self self' : TaskScheduler.t) (task_id : string) (w : World)
    (h t : list Event) (ok : bool) :
  consistent self ->
  TaskScheduler.cancel_task self task_id w h = (t, Ok (self', ok)) ->
  consistent self'.
Proof.
  intros Hself E.
  destruct (cancel_run self task_id w h) as (t' & s & b & E' & _ & Hfalse & Htrue).
  rewrite E in E'. injection E' as _ <- <-.
  destruct ok; [| rewrite (Hfalse eq_refl); exact Hself].
  destruct (Htrue eq_refl) as (Hactive & _ & _ & Hother & _).
  intros id. rewrite Hactive. destruct (decide (id = task_id)) as [-> | Hne].
  - rewrite lookup_delete_eq. intros [? [=]].
  - rewrite lookup_delete_ne by congruence. rewrite (Hother id Hne). apply Hself.
Qed.

Lemma consistent_schedule_interval (self : TaskScheduler.t)
    (task_id func description : string) (kwargs : dict value) (w : World)
    (h : list Event) :
  consistent self ->
  exists t self' ok,
    TaskScheduler.schedule_interval_task self task_id func description kwargs w h
      = (t, Ok (self', ok))
    /\ consistent self'.
Proof.
  intros Hself.
  destruct (schedule_returns self task_id (IntervalCall func description kwargs) w h)
    as (t & self' & ok & E).
  exists t, self', ok. split; [exact E |].
  eapply consistent_schedule; [exact Hself | exact E].
Qed.

Lemma consistent_default_tasks (settings : Settings) (self : TaskScheduler.t) (w : World)
    (h : list Event) :
  consistent self ->
  exists t self',
    TaskScheduler._schedule_default_tasks settings self w h = (t, Ok self')
    /\ consistent self'.
Proof.
  intros Hself. unfold TaskScheduler._schedule_default_tasks.
  destruct (consistent_schedule_interval self "system_health_check"
              "_system_health_check" "System health monitoring" [("minutes", VInt 5)]
              w h Hself) as (t1 & s1 & ok1 & E1 & Hs1).
  rewrite (bind_ok _ _ _ _ _ _ E1). cbv beta zeta. cbn [fst].
  destruct (auto_organize_downloads settings).
  - destruct (consistent_schedule_interval s1 "auto_organize_downloads"
                "_auto_organize_downloads" "Automatic downloads organization"
                [("hours", VInt 1)] w (h ++ t1) Hs1) as (t2 & s2 & ok2 & E2 & Hs2).
    rewrite (bind_ok _ _ _ _ _ _ E2). simpl. eauto.
  - simpl. eauto.
Qed.

Lemma store_pending_lookup (l : list (string * TaskScheduler.job))
    (store : gmap string TaskScheduler.job) (id : string) :
  is_Some (store !! id)
  \/ is_Some ((list_to_map l : gmap string TaskScheduler.job) !! id) ->
  is_Some (fold_left (fun store entry => <[fst entry := snd entry]> store) l store !! id).
Proof.
  revert store. induction l as [| [k j] l IH]; intros store; simpl.
  - intros [Hstore | Hlist]; [exact Hstore |].
    rewrite lookup_empty in Hlist. destruct Hlist as [? [=]].
  - intros Hid. apply IH. destruct (decide (id = k)) as [-> | Hne].
    + left. rewrite lookup_insert_eq. eauto.
    + rewrite lookup_insert_ne in Hid by congruence.
      rewrite lookup_insert_ne by congruence. exact Hid.
Qed.

(** What [start] does: a running scheduler is returned as it is; when the
    library refuses to start, the exception is raised and nothing is
    changed; otherwise the scheduler is left running, with the default
    tasks scheduled, and the [TypeError] of [system_event] is raised. *)
Lemma start_run (settings : Settings) (self : TaskScheduler.t) (w : World)
    (h : list Event) :
  (TaskScheduler.is_running self = true
   /\ TaskScheduler.start settings self w h = ([], Ok (self, Returns tt)))
  \/ (TaskScheduler.is_running self = false
      /\ exists e,
           TaskScheduler.start settings self w h = ([], Ok (self, Raises e))
           /\ (TaskScheduler.running (TaskScheduler.scheduler self) = true
               \/ scheduler_start_error w = Some e))
  \/ (TaskScheduler.is_running self = false
      /\ TaskScheduler.running (TaskScheduler.scheduler self) = false
      /\ scheduler_start_error w = None
      /\ exists t self',
           TaskScheduler._schedule_default_tasks settings
             (TaskScheduler.set_is_running true
                (TaskScheduler.set_scheduler
                   {| TaskScheduler.running := true; TaskScheduler.pending_jobs := [];
                      TaskScheduler.job_store :=
                        TaskScheduler.store_pending (TaskScheduler.scheduler self) |}
                   self))
             w h = (t, Ok self')
           /\ TaskScheduler.start settings self w h
              = (t, Ok (self', Raises (system_event_error w)))).
Proof.
  unfold TaskScheduler.start.
  destruct (TaskScheduler.is_running self) eqn:Hrunning; [left; split; reflexivity |].
  right. unfold attempt at 1, TaskScheduler.scheduler_start.
  destruct (TaskScheduler.running (TaskScheduler.scheduler self)) eqn:Hlibrary.
  - left. split; [reflexivity |]. eexists. split; [reflexivity | left; reflexivity].
  - destruct (scheduler_start_error w) as [e |] eqn:Hstart.
    + left. split; [reflexivity |]. exists e. split; [| right; reflexivity].
      unfold_monad. simpl. rewrite Hstart. reflexivity.
    + right. split; [reflexivity |]. split; [reflexivity |]. split; [reflexivity |].
      set (started := TaskScheduler.set_is_running true
                        (TaskScheduler.set_scheduler
                           {| TaskScheduler.running := true;
                              TaskScheduler.pending_jobs := [];
                              TaskScheduler.job_store :=
                                TaskScheduler.store_pending (TaskScheduler.scheduler self) |}
                           self)).
      assert (Htotal : total no_request
                         (TaskScheduler._schedule_default_tasks settings started))
        by (unfold TaskScheduler._schedule_default_tasks; step_total).
      destruct (Htotal w h) as (_ & self' & Hr).
      destruct (TaskScheduler._schedule_default_tasks settings started w h)
        as [t r] eqn:Edefault.
      simpl in Hr. subst r.
      exists t, self'. split; [reflexivity |].
      match goal with
      | |- bind ?m ?k w h = _ =>
          assert (Eattempt : m w h = ([], Ok (Returns (TaskScheduler.scheduler started))))
            by (unfold attempt; unfold_monad; simpl; rewrite Hstart; reflexivity);
          rewrite (bind_ok m k w h _ _ Eattempt)
      end.
      cbv beta iota. rewrite app_nil_r. fold started.
      rewrite (bind_ok _ _ _ _ _ _ Edefault).
      unfold attempt, system_event. unfold_monad. simpl. rewrite app_nil_r. reflexivity.
Qed.

Lemma consistent_start (settings : Settings) (self : TaskScheduler.t) (w : World)
    (h : list Event) :
  consistent self ->
  exists t self' o,
    TaskScheduler.start settings self w h = (t, Ok (self', o)) /\ consistent self'.
Proof.
  intros Hself.
  destruct (start_run settings self w h)
    as [[_ E] | [(_ & e & E & _) | (_ & Hlibrary & _ & t & self' & Edefault & E)]].
  - do 3 eexists. split; [exact E | exact Hself].
  - do 3 eexists. split; [exact E | exact Hself].
  - match type of Edefault with
    | TaskScheduler._schedule_default_tasks settings ?s w h = _ =>
        assert (Hstarted : consistent s)
    end.
    { intros id Hid. specialize (Hself id Hid).
      unfold TaskScheduler.scheduler_jobs, TaskScheduler.get_jobs in *. simpl.
      rewrite Hlibrary in Hself. rewrite jobs_of_store.
      apply store_pending_lookup. right. exact Hself. }
    destruct (consistent_default_tasks settings _ w h Hstarted) as (t' & s & E' & Hs).
    rewrite Edefault in E'. injection E' as _ <-.
    do 3 eexists. split; [exact E | exact Hs].
Qed.

Lemma consistent_run_op (settings : Settings) (self : TaskScheduler.t)
    (op : scheduler_op) (w : World) (h : list Event) :
  consistent self ->
  exists t self', run_op settings self op w h = (t, Ok self') /\ consistent self'.
Proof.
  intros Hself. destruct op as [task_id c | task_id |]; simpl.
  - destruct (schedule_returns self task_id c w h) as (t' & s & ok & E).
    rewrite (bind_ok _ _ _ _ _ _ E). simpl. do 2 eexists. split; [reflexivity |].
    eapply consistent_schedule; [exact Hself | exact E].
  - destruct (cancel_run self task_id w h) as (t' & s & ok & E & _).
    rewrite (bind_ok _ _ _ _ _ _ E). simpl. do 2 eexists. split; [reflexivity |].
    eapply consistent_cancel; [exact Hself | exact E].
  - destruct (consistent_start settings self w h Hself) as (t' & s & o & E & Hs).
    rewrite (bind_ok _ _ _ _ _ _ E). simpl. do 2 eexists. split; [reflexivity |].
    exact Hs.
Qed.

Lemma size_jobs_le (l : list (string * TaskScheduler.job)) :
  size (list_to_map l : gmap string TaskScheduler.job) <= List.length l.
Proof.
  induction l as [| [k j] l IH]; simpl; [rewrite map_size_empty; lia |].
  destruct ((list_to_map l : gmap string TaskScheduler.job) !! k) as [j' |] eqn:Hk.
  - rewrite map_size_insert_Some by eauto. lia.
  - rewrite map_size_insert_None by assumption. lia.
Qed.

(** X11: the listing never runs ahead of the scheduler.  After any
    sequence of scheduling, cancelling and [start] calls on a new
    scheduler, whether they return or raise, every task of the listing has
    a job in the scheduler, and [jobs_count] is at least the number of
    listed tasks.  ([shutdown] is not among the calls: it empties the job
    store and keeps the listing.) *)
Theorem listing_has_jobs (settings : Settings) (ops : list scheduler_op)
    (fresh : TaskScheduler.t) (w : World) (h0 h t0 : list Event) :
  TaskScheduler.new settings w h0 = (t0, Ok fresh) ->
  exists t self listing,
    run_ops settings fresh ops w h = (t, Ok self)
    /\ consistent self
    /\ snd (TaskScheduler.get_scheduled_tasks self w (h ++ t)) = Ok listing
    /\ size (TaskScheduler.listed_active_tasks listing) <= TaskScheduler.jobs_count listing.
Proof.
  intros Hnew.
  assert (Hfresh : consistent fresh).
  { unfold TaskScheduler.new in Hnew. unfold_monad. simpl in Hnew.
    revert Hnew. unfold bind, pure_of.
    destruct (timezone_error w (scheduler_timezone settings)); [discriminate |].
    intros [= _ <-]. intros id. simpl. rewrite lookup_empty. intros [? [=]]. }
  assert (Hrun : exists t self,
            run_ops settings fresh ops w h = (t, Ok self) /\ consistent self).
  { clear Hnew. revert fresh h Hfresh. unfold run_ops.
    induction ops as [| op ops IH]; intros s h Hs; simpl.
    - exists [], s. split; [reflexivity | exact Hs].
    - destruct (consistent_run_op settings s op w h Hs) as (t1 & s1 & E1 & Hs1).
      rewrite (bind_ok _ _ _ _ _ _ E1).
      destruct (IH s1 (h ++ t1) Hs1) as (t2 & s2 & E2 & Hs2).
      rewrite E2. simpl. eauto. }
  destruct Hrun as (t & self & Hrun & Hself).
  exists t, self. eexists. split; [exact Hrun |]. split; [exact Hself |].
  split; [reflexivity |]. simpl.
  transitivity (size (TaskScheduler.scheduler_jobs self)).
  - rewrite <- !size_dom. apply subseteq_size.
    intros id. rewrite !elem_of_dom. apply Hself.
  - apply size_jobs_le.
Qed.

Lemma listing_has_jobs_witness :
  let settings := example_settings None true in
  let w := example_world (Returns []) (Returns "") (Returns []) [] in
  let ops := [OpSchedule "report" (CronCall "report" "0 9 * * *" None None "daily");
              OpSchedule "report" (CronCall "report" "0 10 * * *" None None "later");
              OpStart;
              OpSchedule "broken" (CronCall "report" "" None None "no fields");
              OpCancel "system_health_check";
              OpCancel "unknown"] in
  exists fresh t0 t self listing,
    TaskScheduler.new settings w [] = (t0, Ok fresh)
    /\ run_ops settings fresh ops w [] = (t, Ok self)
    /\ consistent self
    /\ snd (TaskScheduler.get_scheduled_tasks self w ([] ++ t)) = Ok listing
    /\ size (TaskScheduler.listed_active_tasks listing) <= TaskScheduler.jobs_count listing.
Proof.
  intros settings w ops.
  assert (Hnew : exists fresh t0, TaskScheduler.new settings w [] = (t0, Ok fresh))
    by (eexists; eexists; reflexivity).
  destruct Hnew as (fresh & t0 & Hnew).
  destruct (listing_has_jobs settings ops fresh w [] [] t0 Hnew)
    as (t & self & listing & Hrun).
  exists fresh, t0, t, self, listing. split; [exact Hnew | exact Hrun].
Defined.

(** X12: scheduling or cancelling one id touches no other id: the listing
    entry and the job of every other id are what they were, whether the
    call succeeds or fails. *)
Theorem other_tasks_are_untouched (self : TaskScheduler.t) (task_id other : string)
    (c : schedule_call) (w : World) (h : list Event) :
  other <> task_id ->
  (exists t self' ok,
     schedule self task_id c w h = (t, Ok (self', ok))
     /\ TaskScheduler.active_tasks self' !! other = TaskScheduler.active_tasks self !! other
     /\ TaskScheduler.scheduler_jobs self' !! other
        = TaskScheduler.scheduler_jobs self !! other)
  /\ (exists t self' ok,
        TaskScheduler.cancel_task self task_id w h = (t, Ok (self', ok))
        /\ TaskScheduler.active_tasks self' !! other
           = TaskScheduler.active_tasks self !! other
        /\ TaskScheduler.scheduler_jobs self' !! other
           = TaskScheduler.scheduler_jobs self !! other).
Proof.
  intros Hne. split.
  - destruct (schedule_run self task_id c w h) as (t & self' & ok & E & Hfalse & Htrue).
    exists t, self', ok. split; [exact E |].
    destruct ok.
    + destruct (Htrue eq_refl) as ((created & ->) & _ & _ & _ & Hother).
      rewrite lookup_insert_ne by congruence. split; [reflexivity | apply Hother, Hne].
    + rewrite (Hfalse eq_refl). split; reflexivity.
  - destruct (cancel_run self task_id w h) as (t & self' & ok & E & _ & Hfalse & Htrue).
    exists t, self', ok. split; [exact E |].
    destruct ok.
    + destruct (Htrue eq_refl) as (-> & _ & _ & Hother & _).
      rewrite lookup_delete_ne by congruence. split; [reflexivity | apply Hother, Hne].
    + rewrite (Hfalse eq_refl). split; reflexivity.
Qed.

Lemma other_tasks_are_untouched_witness :
  let w := example_world (Returns []) (Returns "") (Returns []) [] in
  let self := running_scheduler in
  let c := IntervalCall "report" "hourly" [("hours", VInt 1)] in
  (exists t self' ok,
     schedule self "X" c w [] = (t, Ok (self', ok))
     /\ TaskScheduler.active_tasks self' !! "Y" = TaskScheduler.active_tasks self !! "Y"
     /\ TaskScheduler.scheduler_jobs self' !! "Y"
        = TaskScheduler.scheduler_jobs self !! "Y")
  /\ (exists t self' ok,
        TaskScheduler.cancel_task self "X" w [] = (t, Ok (self', ok))
        /\ TaskScheduler.active_tasks self' !! "Y"
           = TaskScheduler.active_tasks self !! "Y"
        /\ TaskScheduler.scheduler_jobs self' !! "Y"
           = TaskScheduler.scheduler_jobs self !! "Y").
Proof.
  intros w self c. apply other_tasks_are_untouched. discriminate.
Defined.

Lemma schedule_interval_accepted (self : TaskScheduler.t)
    (task_id func description : string) (kwargs : dict value) (w : World)
    (h : list Event) :
  (forall spec, trigger_error w spec = None) ->
  (forall f args kw, job_error w f args kw = None) ->
  exists t self',
    TaskScheduler.schedule_interval_task self task_id func description kwargs w h
      = (t, Ok (self', true))
    /\ TaskScheduler.is_running self' = TaskScheduler.is_running self
    /\ TaskScheduler.running (TaskScheduler.scheduler self')
       = TaskScheduler.running (TaskScheduler.scheduler self)
    /\ forall id,
         is_Some (TaskScheduler.active_tasks self' !! id)
         <-> is_Some (TaskScheduler.active_tasks self !! id) \/ id = task_id.
Proof.
  intros Htrigger Hjob.
  unfold TaskScheduler.schedule_interval_task, TaskScheduler.make_trigger,
    TaskScheduler.add_job.
  unfold_monad. simpl. rewrite Htrigger. simpl. rewrite Hjob. simpl.
  eexists; eexists; split; [reflexivity |]. simpl. split; [reflexivity |].
  split; [destruct (TaskScheduler.running (TaskScheduler.scheduler self)); reflexivity |].
  intros id. destruct (decide (id = task_id)) as [-> | Hne].
  - rewrite lookup_insert_eq. split; eauto.
  - rewrite lookup_insert_ne by congruence. split; [eauto | intros [? | ?]; [assumption | contradiction]].
Qed.

(** X13: [start] on a stopped scheduler that the library agrees to start,
    with triggers and jobs it accepts, raises: its last statement is
    [system_event], which raises a [TypeError].  By then the work is done,
    and the object is left running, also in the library, with the default
    tasks added to the listing: [system_health_check] always,
    [auto_organize_downloads] exactly when the setting of that name is on;
    nothing else is added or removed. *)
Theorem start_lists_default_tasks (settings : Settings) (self : TaskScheduler.t)
    (w : World) (h : list Event) :
  TaskScheduler.is_running self = false ->
  TaskScheduler.running (TaskScheduler.scheduler self) = false ->
  scheduler_start_error w = None ->
  (forall spec, trigger_error w spec = None) ->
  (forall f args kw, job_error w f args kw = None) ->
  exists t self',
    TaskScheduler.start settings self w h
      = (t, Ok (self', Raises (system_event_error w)))
    /\ TaskScheduler.is_running self' = true
    /\ TaskScheduler.running (TaskScheduler.scheduler self') = true
    /\ forall id,
         is_Some (TaskScheduler.active_tasks self' !! id)
         <-> is_Some (TaskScheduler.active_tasks self !! id)
             \/ id = "system_health_check"
             \/ (auto_organize_downloads settings = true
                 /\ id = "auto_organize_downloads").
Proof.
  intros Hstopped Hlibrary Hstart Htrigger Hjob.
  destruct (start_run settings self w h)
    as [[Hrunning _] | [(_ & e & _ & [Hbusy | Herror]) |
                        (_ & _ & _ & t & self' & Edefault & E)]];
    [congruence | congruence | congruence |].
  exists t, self'. split; [exact E |].
  revert Edefault. unfold TaskScheduler._schedule_default_tasks.
  match goal with
  | |- context [TaskScheduler.schedule_interval_task ?s _ _ _ _] => set (started := s)
  end.
  destruct (schedule_interval_accepted started
              "system_health_check" "_system_health_check" "System health monitoring"
              [("minutes", VInt 5)] w h Htrigger Hjob)
    as (t1 & s1 & E1 & Hrun1 & Hlib1 & Hlist1).
  rewrite (bind_ok _ _ _ _ _ _ E1). cbv beta zeta. cbn [fst].
  destruct (auto_organize_downloads settings) eqn:Hauto.
  - destruct (schedule_interval_accepted s1 "auto_organize_downloads"
                "_auto_organize_downloads" "Automatic downloads organization"
                [("hours", VInt 1)] w (h ++ t1) Htrigger Hjob)
      as (t2 & s2 & E2 & Hrun2 & Hlib2 & Hlist2).
    rewrite (bind_ok _ _ _ _ _ _ E2). simpl. intros [= _ <-].
    split; [rewrite Hrun2, Hrun1; reflexivity |].
    split; [rewrite Hlib2, Hlib1; reflexivity |].
    intros id. rewrite Hlist2, Hlist1. simpl. intuition congruence.
  - simpl. intros [= _ <-].
    split; [rewrite Hrun1; reflexivity |].
    split; [rewrite Hlib1; reflexivity |].
    intros id. rewrite Hlist1. simpl. intuition congruence.
Qed.

Lemma start_lists_default_tasks_witness :
  let settings := example_settings None true in
  let w := accepting_world in
  exists fresh t0 t self',
    TaskScheduler.new settings w [] = (t0, Ok fresh)
    /\ TaskScheduler.start settings fresh w []
       = (t, Ok (self', Raises (system_event_error w)))
    /\ TaskScheduler.is_running self' = true
    /\ TaskScheduler.running (TaskScheduler.scheduler self') = true
    /\ forall id,
         is_Some (TaskScheduler.active_tasks self' !! id)
         <-> is_Some (TaskScheduler.active_tasks fresh !! id)
             \/ id = "system_health_check"
             \/ (auto_organize_downloads settings = true
                 /\ id = "auto_organize_downloads").
Proof.
  intros settings w.
  assert (Hnew : exists fresh t0,
            TaskScheduler.new settings w [] = (t0, Ok fresh)
            /\ TaskScheduler.is_running fresh = false
            /\ TaskScheduler.running (TaskScheduler.scheduler fresh) = false)
    by (eexists; eexists; split; [reflexivity | split; reflexivity]).
  destruct Hnew as (fresh & t0 & Hnew & Hstopped & Hlibrary).
  destruct (start_lists_default_tasks settings fresh w [] Hstopped Hlibrary eq_refl)
    as (t & self' & Hstart).
  - intros spec. reflexivity.
  - intros f args kw. reflexivity.
  - exists fresh, t0, t, self'. split; [exact Hnew | exact Hstart].
Defined.

(* ===================================================================== *)
(** ** FileService: what the operations touch and what they return *)
(* ===================================================================== *)

Lemma behaves_ret {A : Type} (w : World) (E : string -> Prop) (d : bool)
    (P : Event -> Prop) (Q : A -> Prop) (a : A) :
  Q a -> behaves w E d P Q (ret a).
Proof. intros Ha h. split; [constructor | exact Ha]. Qed.

Lemma behaves_diverge {A : Type} (w : World) (E : string -> Prop) (P : Event -> Prop)
    (Q : A -> Prop) :
  behaves w E true P Q diverge.
Proof. intros h. split; [constructor | reflexivity]. Qed.

Lemma behaves_total {A : Type} (w : World) (E : string -> Prop) (d : bool)
    (P : Event -> Prop) (m : M A) :
  total P m -> behaves w E d P (fun _ => True) m.
Proof.
  intros H h. destruct (H w h) as (Ht & a & Ha). split; [assumption |].
  rewrite Ha. exact I.
Qed.

Lemma behaves_call {A : Type} (w : World) (d : bool) (P : Event -> Prop) (ev : Event)
    (oracle : World -> list Event -> outcome A) :
  P ev -> behaves w any_exception d P (fun _ => True) (call ev oracle).
Proof.
  intros Hev h. split; [repeat constructor; assumption |].
  simpl. destruct (oracle w h); simpl; exact I.
Qed.

Lemma behaves_fs_query (w : World) (E : string -> Prop) (d : bool)
    (P : Event -> Prop) (op : string) (p : path)
    (oracle : World -> list Event -> path -> bool) :
  P (EvFsRead op p) ->
  (forall h e, fs_error w h op p = Some e -> E e) ->
  behaves w E d P (fun _ => True) (fs_query op p oracle).
Proof.
  intros Hev Hfails h. split; [repeat constructor; assumption |].
  unfold fs_query. simpl. destruct (oracle w h p); [exact I |].
  destruct (fs_error w h op p) as [e |] eqn:He; simpl; [eapply Hfails, He | exact I].
Qed.

Lemma behaves_resolve (w : World) (E : string -> Prop) (d : bool) (P : Event -> Prop)
    (p : path) :
  P (EvResolve p) ->
  (forall h e, fs_error w h "resolve" p = Some e -> E e) ->
  behaves w E d P (fun _ => True) (resolve p).
Proof.
  intros Hev Hfails h. split; [repeat constructor; assumption |].
  unfold resolve. simpl.
  destruct (fs_error w h "resolve" p) as [e |] eqn:He; simpl;
    [eapply Hfails, He | exact I].
Qed.

Lemma behaves_bind {A B : Type} (w : World) (E : string -> Prop) (d : bool)
    (P : Event -> Prop) (Q : B -> Prop) (m : M A) (k : A -> M B) :
  behaves w E d P (fun _ => True) m -> (forall a, behaves w E d P Q (k a)) ->
  behaves w E d P Q (bind m k).
Proof.
  intros Hm Hk h. unfold bind.
  destruct (Hm h) as [Ht Hr]. destruct (m w h) as [t [a | e |]]; simpl in *.
  - destruct (Hk a (h ++ t)) as [Ht' Hr'].
    destruct (k a w (h ++ t)) as [t' r']. simpl in *.
    split; [apply Forall_app; split; assumption | assumption].
  - split; assumption.
  - split; assumption.
Qed.

Lemma behaves_try_except {A : Type} (w : World) (E : string -> Prop) (d : bool)
    (P : Event -> Prop) (Q : A -> Prop) (m : M A) (handler : string -> M A) :
  behaves w any_exception d P Q m -> (forall e, behaves w E d P Q (handler e)) ->
  behaves w E d P Q (try_except m handler).
Proof.
  intros Hm Hh h. unfold try_except.
  destruct (Hm h) as [Ht Hr]. destruct (m w h) as [t [a | e |]]; simpl in *.
  - split; assumption.
  - destruct (Hh e (h ++ t)) as [Ht' Hr'].
    destruct (handler e w (h ++ t)) as [t' r']. simpl in *.
    split; [apply Forall_app; split; assumption | assumption].
  - split; assumption.
Qed.

Lemma behaves_for_each {A S : Type} (w : World) (E : string -> Prop) (d : bool)
    (P : Event -> Prop) (l : list A) (body : A -> S -> M S) :
  (forall a s, behaves w E d P (fun _ => True) (body a s)) ->
  forall s, behaves w E d P (fun _ => True) (for_each l body s).
Proof.
  intros Hbody. induction l as [| a l IH]; intros s; simpl.
  - apply behaves_ret. exact I.
  - apply behaves_bind; [apply Hbody | intros s'; apply IH].
Qed.

Lemma behaves_run {A : Type} (E : string -> Prop) (d : bool) (P : Event -> Prop)
    (Q : A -> Prop) (m : M A) (w : World) (h : list Event) :
  behaves w E d P Q m ->
  Forall P (fst (m w h))
  /\ match snd (m w h) with
     | Ok a => Q a
     | Raise e => E e
     | Diverge => d = true
     end.
Proof. intros H. exact (H h). Qed.

(** Goals [behaves w E d P Q m], by the structure of [m]; [solve_post]
    proves [Q] of a returned value, [solve_raise] that [E] holds of the
    exception of a test of the file system. *)
Ltac step_behaves solve_post solve_raise :=
  repeat first
    [ match goal with |- forall _, _ => intro end
    | match goal with
      | |- behaves _ _ _ _ _ (match ?x with _ => _ end) => destruct x
      | |- behaves _ _ _ _ _ (if ?b then _ else _) => destruct b
      end
    | solve [auto with safety]
    | apply behaves_ret; solve [exact I | solve_post]
    | apply behaves_diverge
    | apply behaves_total; solve [step_total]
    | apply behaves_call; first [reflexivity | exact I]
    | apply behaves_fs_query;
        [first [reflexivity | exact I] | solve [intros; exact I | solve_raise]]
    | apply behaves_resolve;
        [first [reflexivity | exact I] | solve [intros; exact I | solve_raise]]
    | apply behaves_bind
    | apply behaves_try_except
    | apply behaves_for_each ].

Ltac solve_reports := eexists; reflexivity.

(** The exception of a test of the directory is a [read_failure]. *)
Ltac solve_read_failure :=
  let h := fresh "h" in
  let e := fresh "e" in
  let He := fresh "He" in
  intros h e He; eexists h, _; split; [| exact He]; simpl; tauto.

Lemma behaves_is_directory_allowed (w : World) (E : string -> Prop) (d : bool)
    (P : Event -> Prop) (settings : Settings) (self : FileService.t) (directory : path) :
  P (EvResolve directory) ->
  (forall h e, fs_error w h "resolve" directory = Some e -> E e) ->
  behaves w E d P (fun _ => True)
    (FileService._is_directory_allowed settings self directory).
Proof.
  intros Hev Hfails. unfold FileService._is_directory_allowed.
  destruct (negb (allow_file_operations settings)); [apply behaves_ret; exact I |].
  apply behaves_bind; [apply behaves_resolve; assumption |].
  intros resolved. apply behaves_ret. exact I.
Qed.

Lemma behaves_find_duplicates (w : World) (settings : Settings) (self : FileService.t)
    (directory_path : string) :
  behaves w (read_failure w (Pathlib.Path directory_path) ["resolve"; "exists"]) false
    (fun ev => FileService.is_mutation ev = false) reports
    (FileService.find_duplicates settings self directory_path).
Proof.
  unfold FileService.find_duplicates.
  apply behaves_bind;
    [apply behaves_is_directory_allowed; [reflexivity | solve_read_failure] |].
  step_behaves solve_reports solve_read_failure.
Qed.

Lemma behaves_search_files (w : World) (settings : Settings) (self : FileService.t)
    (directory_path pattern : string) (include_content : bool) :
  behaves w (read_failure w (Pathlib.Path directory_path) ["resolve"]) false
    (fun ev => FileService.is_mutation ev = false) reports
    (FileService.search_files settings self directory_path pattern include_content).
Proof.
  unfold FileService.search_files.
  apply behaves_bind;
    [apply behaves_is_directory_allowed; [reflexivity | solve_read_failure] |].
  step_behaves solve_reports solve_read_failure.
Qed.

(** X14: [find_duplicates] and [search_files] only read.  For every
    directory, pattern and file system they move, delete, create and copy
    nothing, and they return a result dictionary with a [success] entry,
    whatever the reads of the file system answer or raise inside their
    [try].  They raise only what the tests before the [try] raise:
    [resolve] of the directory, and for [find_duplicates] also [exists]. *)
Theorem scans_only_read (settings : Settings) (self : FileService.t)
    (directory_path pattern : string) (include_content : bool) (w : World)
    (h : list Event) :
  (Forall (fun ev => FileService.is_mutation ev = false)
     (fst (FileService.find_duplicates settings self directory_path w h))
   /\ match snd (FileService.find_duplicates settings self directory_path w h) with
      | Ok r => reports r
      | Raise e => read_failure w (Pathlib.Path directory_path) ["resolve"; "exists"] e
      | Diverge => False
      end)
  /\ (Forall (fun ev => FileService.is_mutation ev = false)
        (fst (FileService.search_files settings self directory_path pattern
                include_content w h))
      /\ match snd (FileService.search_files settings self directory_path pattern
                      include_content w h)
         with
         | Ok r => reports r
         | Raise e => read_failure w (Pathlib.Path directory_path) ["resolve"] e
         | Diverge => False
         end).
Proof.
  split.
  - destruct (behaves_run _ _ _ _ _ w h
                (behaves_find_duplicates w settings self directory_path)) as [Ht Hr].
    split; [exact Ht |].
    destruct (snd (FileService.find_duplicates settings self directory_path w h));
      [exact Hr | exact Hr | discriminate].
  - destruct (behaves_run _ _ _ _ _ w h
                (behaves_search_files w settings self directory_path pattern
                   include_content)) as [Ht Hr].
    split; [exact Ht |].
    destruct (snd (FileService.search_files settings self directory_path pattern
                     include_content w h));
      [exact Hr | exact Hr | discriminate].
Qed.

Lemma behaves_free_target (w : World) (P : Event -> Prop) (fuel : nat) :
  (forall p, P (EvFsRead "exists" p)) ->
  forall target_path counter,
    behaves w any_exception true P (fun _ => True)
      (FileService.free_target fuel target_path counter).
Proof.
  intros Hread. induction fuel as [| fuel IH]; intros target_path counter; simpl.
  - apply behaves_bind;
      [apply behaves_fs_query; [apply Hread | intros; exact I] |].
    intros [|]; [apply behaves_diverge | apply behaves_ret; exact I].
  - apply behaves_bind;
      [apply behaves_fs_query; [apply Hread | intros; exact I] |].
    intros [|]; [apply IH | apply behaves_ret; exact I].
Qed.

Lemma behaves_organize_file (w : World) (settings : Settings) (fuel : nat) (self : FileService.t)
    (dir_path : path) (create_subdirs : bool) (file_path : path)
    (organized_files : dict (list string)) :
  behaves w any_exception true (fun _ => True) (fun _ => True)
    (FileService.organize_file settings fuel self dir_path create_subdirs file_path
       organized_files).
Proof.
  unfold FileService.organize_file, FileService._are_files_identical,
    FileService._calculate_file_hash.
  pose proof (behaves_free_target w (fun _ => True) fuel (fun _ => I)) as Hfree.
  step_behaves idtac idtac.
Qed.

Lemma behaves_organize_file_unchecked (w : World) (settings : Settings) (fuel : nat)
    (self : FileService.t) (dir_path : path) (create_subdirs : bool) (file_path : path)
    (organized_files : dict (list string)) :
  duplicate_check_enabled settings = false ->
  behaves w any_exception false (fun ev => is_unlink ev = false) (fun _ => True)
    (FileService.organize_file settings fuel self dir_path create_subdirs file_path
       organized_files).
Proof.
  intros Hoff. unfold FileService.organize_file. rewrite Hoff.
  step_behaves idtac idtac.
Qed.

(** X16: with [duplicate_check_enabled] off, [organize_directory] deletes
    no file and runs no search for a free name, for every file system: it
    returns a result dictionary with a [success] entry, or raises what a
    test before its [try] raised. *)
Theorem organize_directory_without_duplicate_check (settings : Settings) (fuel : nat)
    (self : FileService.t) (directory_path : string) (create_subdirs : bool)
    (w : World) (h : list Event) :
  duplicate_check_enabled settings = false ->
  Forall (fun ev => is_unlink ev = false)
    (fst (FileService.organize_directory settings fuel self directory_path
            create_subdirs w h))
  /\ match snd (FileService.organize_directory settings fuel self directory_path
                  create_subdirs w h)
     with
     | Ok r => reports r
     | Raise e =>
         read_failure w (Pathlib.Path directory_path) ["resolve"; "exists"; "is_dir"] e
     | Diverge => False
     end.
Proof.
  intros Hoff.
  assert (Hrun : behaves w
            (read_failure w (Pathlib.Path directory_path) ["resolve"; "exists"; "is_dir"])
            false (fun ev => is_unlink ev = false) reports
            (FileService.organize_directory settings fuel self directory_path
               create_subdirs)).
  { unfold FileService.organize_directory.
    apply behaves_bind;
      [apply behaves_is_directory_allowed; [reflexivity | solve_read_failure] |].
    pose proof (fun dir_path create_subdirs file_path organized_files =>
                  behaves_organize_file_unchecked w settings fuel self dir_path
                    create_subdirs file_path organized_files Hoff) as Hfile.
    unfold FileService._create_backup.
    step_behaves solve_reports solve_read_failure. }
  destruct (Hrun h) as [Ht Hr]. split; [exact Ht |].
  destruct (snd (FileService.organize_directory settings fuel self directory_path
                   create_subdirs w h));
    [exact Hr | exact Hr | discriminate].
Qed.

Lemma organize_directory_without_duplicate_check_witness :
  let settings := {| openai_api_key := None; openai_model := "gpt-3.5-turbo";
                     openai_max_tokens := 1000;
                     ollama_host := "http://localhost:11434";
                     default_local_model := "llama3.1:8b";
                     use_local_first := true; fallback_to_api := true;
                     allow_file_operations := true;
                     allowed_directories := ["/home/user/Documents"];
                     scheduler_timezone := "UTC"; auto_organize_downloads := false;
                     duplicate_check_enabled := false;
                     backup_before_organize := true |} in
  let w := example_world (Returns []) (Returns "") (Returns [])
             [["/"; "home"; "user"; "Documents"]] in
  Forall (fun ev => is_unlink ev = false)
    (fst (FileService.organize_directory settings 0 (FileService.new settings)
            "/home/user/Documents" true w []))
  /\ match snd (FileService.organize_directory settings 0 (FileService.new settings)
                  "/home/user/Documents" true w [])
     with
     | Ok r => reports r
     | Raise e =>
         read_failure w (Pathlib.Path "/home/user/Documents")
           ["resolve"; "exists"; "is_dir"] e
     | Diverge => False
     end.
Proof.
  intros settings w.
  apply organize_directory_without_duplicate_check. reflexivity.
Defined.

Lemma free_names_no_move (w : World) (h t : list Event) :
  Forall (fun ev => is_move ev = false) t -> moves_to_free_names w h t.
Proof.
  intros Hno pre post src dst ->.
  apply Forall_app in Hno as [_ Hno]. inversion Hno as [| ? ? Hmove _]. discriminate.
Qed.

Lemma free_names_app (w : World) (h t1 t2 : list Event) :
  moves_to_free_names w h t1 -> moves_to_free_names w (h ++ t1) t2 ->
  moves_to_free_names w h (t1 ++ t2).
Proof.
  intros H1 H2 pre post src dst E.
  apply app_eq_app in E as [l [[E1 E2] | [E1 E2]]].
  - destruct l as [| ev l].
    + simpl in E2. destruct (H2 [] post src dst (eq_sym E2)) as (pre' & Hpre & _).
      destruct pre'; discriminate.
    + injection E2 as <- ->.
      apply (H1 pre l src dst). assumption.
  - destruct (H2 l post src dst E2) as (pre' & -> & Hfree).
    exists (t1 ++ pre'). split.
    + rewrite E1. apply List.app_assoc.
    + rewrite List.app_assoc. assumption.
Qed.

Lemma move_is_last (t : list Event) (src dst s d : path) (pre post : list Event) :
  Forall (fun ev => is_move ev = false) t ->
  t ++ [EvMove src dst] = pre ++ EvMove s d :: post ->
  pre = t /\ s = src /\ d = dst.
Proof.
  revert pre. induction t as [| ev t IH]; intros pre Hno E.
  - destruct pre as [| ev pre]; simpl in E.
    + injection E as <- <- _. auto.
    + injection E as _ E. destruct pre; discriminate.
  - inversion Hno as [| ? ? Hev Hrest]; subst.
    destruct pre as [| ev' pre]; simpl in E.
    + injection E as -> _. discriminate.
    + injection E as <- E. destruct (IH pre Hrest E) as (-> & -> & ->). auto.
Qed.

Lemma free_names_checked_move (w : World) (h pre : list Event) (src dst : path) :
  Forall (fun ev => is_move ev = false) pre ->
  fs_exists w (h ++ pre) dst = false ->
  moves_to_free_names w h ((pre ++ [EvFsRead "exists" dst]) ++ [EvMove src dst]).
Proof.
  intros Hno Hfree pre0 post s d E.
  assert (Hno' : Forall (fun ev => is_move ev = false) (pre ++ [EvFsRead "exists" dst])).
  { apply Forall_app. split; [assumption | repeat constructor]. }
  destruct (move_is_last _ _ _ _ _ _ _ Hno' E) as (-> & -> & ->).
  exists pre. split; [reflexivity | assumption].
Qed.

Lemma careful_safe {A : Type} (m : M A) :
  safe (fun ev => is_move ev = false) m -> careful m.
Proof. intros H w h. apply free_names_no_move, H. Qed.

Lemma careful_bind {A B : Type} (m : M A) (k : A -> M B) :
  careful m -> (forall a, careful (k a)) -> careful (bind m k).
Proof.
  intros Hm Hk w h. unfold bind. pose proof (Hm w h) as Ht.
  destruct (m w h) as [t [a | e |]]; simpl in *; try assumption.
  pose proof (Hk a w (h ++ t)) as Ht'.
  destruct (k a w (h ++ t)) as [t' r']. simpl in *.
  apply free_names_app; assumption.
Qed.

Lemma careful_try_except {A : Type} (m : M A) (handler : string -> M A) :
  careful m -> (forall e, careful (handler e)) -> careful (try_except m handler).
Proof.
  intros Hm Hh w h. unfold try_except. pose proof (Hm w h) as Ht.
  destruct (m w h) as [t [a | e |]]; simpl in *; try assumption.
  pose proof (Hh e w (h ++ t)) as Ht'.
  destruct (handler e w (h ++ t)) as [t' r']. simpl in *.
  apply free_names_app; assumption.
Qed.

Lemma careful_for_each {A S : Type} (l : list A) (body : A -> S -> M S) :
  (forall a s, careful (body a s)) -> forall s, careful (for_each l body s).
Proof.
  intros Hbody. induction l as [| a l IH]; intros s; simpl.
  - intros w h. apply free_names_no_move. constructor.
  - apply careful_bind; [apply Hbody | intros s'; apply IH].
Qed.

(** Goals [careful m], by the structure of [m]. *)
Ltac step_careful :=
  repeat first
    [ match goal with |- forall _, _ => intro end
    | match goal with
      | |- careful (match ?x with _ => _ end) => destruct x
      | |- careful (if ?b then _ else _) => destruct b
      end
    | solve [auto with safety]
    | apply careful_safe; solve [step_total]
    | apply careful_bind
    | apply careful_try_except
    | apply careful_for_each ].

(** The search for a free name moves nothing and ends, when it ends, with
    the check that found the returned name free. *)
Lemma free_target_run (fuel : nat) :
  forall (target_path : path) (counter : nat) (w : World) (h : list Event),
    Forall (fun ev => is_move ev = false)
      (fst (FileService.free_target fuel target_path counter w h))
    /\ forall p,
         snd (FileService.free_target fuel target_path counter w h) = Ok p ->
         exists pre,
           fst (FileService.free_target fuel target_path counter w h)
             = pre ++ [EvFsRead "exists" p]
           /\ Forall (fun ev => is_move ev = false) pre
           /\ fs_exists w (h ++ pre) p = false.
Proof.
  induction fuel as [| fuel IH]; intros target_path counter w h; simpl;
    rewrite fs_query_run;
    (destruct (fs_exists w h target_path) eqn:Etaken;
     [| destruct (fs_error w h "exists" target_path) as [e |];
        [split; [repeat constructor | discriminate] |]]);
    cbn [fst snd].
  - split; [repeat constructor |]. discriminate.
  - split; [repeat constructor |]. intros p [= <-].
    exists []. split; [reflexivity |]. split; [constructor |].
    rewrite app_nil_r. assumption.
  - destruct (IH (Pathlib.joinpath (Pathlib.parent target_path)
                    (Pathlib.stem target_path +:+ "_" +:+ str_of_nat counter
                     +:+ Pathlib.suffix target_path))
                (S counter) w (h ++ [EvFsRead "exists" target_path])) as [Hno Hlast].
    split; [constructor; [reflexivity | exact Hno] |].
    intros p Hp. destruct (Hlast p Hp) as (pre & Et & Hpre & Hfree).
    exists (EvFsRead "exists" target_path :: pre). rewrite Et.
    split; [reflexivity |]. split; [constructor; [reflexivity | assumption] |].
    rewrite <- List.app_assoc in Hfree. exact Hfree.
  - split; [repeat constructor |]. intros p [= <-].
    exists []. split; [reflexivity |]. split; [constructor |].
    rewrite app_nil_r. assumption.
Qed.

Lemma careful_rename_and_move {A : Type} (fuel : nat) (file_path target_path : path)
    (a : path -> A) :
  careful (bind (FileService.free_target fuel target_path 1)
             (fun target_path =>
                bind (call (EvMove file_path target_path)
                        (fun w h => fs_move w h file_path target_path))
                  (fun _ => ret (a target_path)))).
Proof.
  intros w h. unfold bind at 1.
  destruct (free_target_run fuel target_path 1 w h) as [Hno Hlast].
  destruct (FileService.free_target fuel target_path 1 w h) as [t [p | e |]];
    cbn [fst snd] in *; try (apply free_names_no_move; assumption).
  destruct (Hlast p eq_refl) as (pre & -> & Hpre & Hfree).
  unfold_monad. simpl.
  destruct (fs_move w _ file_path p); simpl; apply free_names_checked_move; assumption.
Qed.

Lemma careful_check_and_move {A : Type} (file_path target_path : path) (a : A)
    (rest : M A) :
  careful rest ->
  careful (bind (fs_query "exists" target_path fs_exists)
             (fun taken =>
                if negb taken then
                  bind (call (EvMove file_path target_path)
                          (fun w h => fs_move w h file_path target_path))
                    (fun _ => ret a)
                else rest)).
Proof.
  intros Hrest w h. rewrite fs_query_run.
  destruct (fs_exists w h target_path) eqn:Etaken;
    [| destruct (fs_error w h "exists" target_path) as [e |];
       [apply free_names_no_move; repeat constructor |]];
    cbn [fst negb].
  - apply (free_names_app w h [EvFsRead "exists" target_path]);
      [apply free_names_no_move; repeat constructor | apply Hrest].
  - unfold_monad. simpl.
    destruct (fs_move w _ file_path target_path); simpl;
      apply (free_names_checked_move w h [] file_path target_path);
      first [constructor | rewrite app_nil_r; assumption].
Qed.

Lemma careful_organize_file (settings : Settings) (fuel : nat) (self : FileService.t)
    (dir_path : path) (create_subdirs : bool) (file_path : path)
    (organized_files : dict (list string)) :
  careful (FileService.organize_file settings fuel self dir_path create_subdirs file_path
             organized_files).
Proof.
  unfold FileService.organize_file.
  apply careful_bind; [apply careful_safe; step_total |].
  intros target_path. apply careful_check_and_move.
  destruct (duplicate_check_enabled settings); [| apply careful_safe; step_total].
  apply careful_bind;
    [apply careful_safe; unfold FileService._are_files_identical,
       FileService._calculate_file_hash; step_total |].
  intros [|]; [apply careful_safe; step_total |].
  apply careful_rename_and_move.
Qed.

(** X17: [organize_directory] moves a file only to a name it has just
    found free.  In every run, for every file system, each move comes
    directly after the check whether its target exists, and that check
    answered no; so no move replaces a file the run has seen. *)
Theorem moves_go_to_free_names (settings : Settings) (fuel : nat)
    (self : FileService.t) (directory_path : string) (create_subdirs : bool)
    (w : World) (h : list Event) :
  moves_to_free_names w h
    (fst (FileService.organize_directory settings fuel self directory_path
            create_subdirs w h)).
Proof.
  revert w h. change (careful (FileService.organize_directory settings fuel self
                                 directory_path create_subdirs)).
  unfold FileService.organize_directory.
  apply careful_bind;
    [apply careful_safe; unfold FileService._is_directory_allowed; step_total |].
  pose proof (careful_organize_file settings fuel self) as Hfile.
  unfold FileService._create_backup.
  step_careful.
Qed.

Lemma observes_app (G : World -> list Event -> Event -> Prop) (w : World)
    (h t1 t2 : list Event) :
  observes G w h t1 -> observes G w (h ++ t1) t2 -> observes G w h (t1 ++ t2).
Proof.
  intros H1 H2 pre ev post E.
  apply app_eq_app in E as [l [[E1 E2] | [E1 E2]]].
  - destruct l as [| ev' l].
    + simpl in E2. rewrite app_nil_r in E1. subst pre.
      specialize (H2 [] ev post (eq_sym E2)). rewrite app_nil_r in H2. exact H2.
    + injection E2 as <- ->. apply (H1 pre ev l). assumption.
  - specialize (H2 l ev post E2). rewrite E1, List.app_assoc. exact H2.
Qed.

Lemma observes_each (G : World -> list Event -> Event -> Prop) (w : World)
    (h t : list Event) :
  Forall (fun ev => forall past, G w past ev) t -> observes G w h t.
Proof.
  intros Hall pre ev post ->.
  apply Forall_app in Hall as [_ Hall]. inversion Hall as [| ? ? Hev _]. apply Hev.
Qed.

Lemma observes_single (G : World -> list Event -> Event -> Prop) (w : World)
    (h : list Event) (ev : Event) :
  G w h ev -> observes G w h [ev].
Proof.
  intros Hev pre ev' post E. destruct pre as [| ev0 pre]; simpl in E.
  - injection E as <- _. rewrite app_nil_r. exact Hev.
  - injection E as _ E. destruct pre; discriminate.
Qed.

Lemma heeds_bind {A B : Type} (G : World -> list Event -> Event -> Prop) (m : M A)
    (k : A -> M B) :
  heeds G m -> (forall a, heeds G (k a)) -> heeds G (bind m k).
Proof.
  intros Hm Hk w h. unfold bind. pose proof (Hm w h) as Ht.
  destruct (m w h) as [t [a | e |]]; simpl in *; try assumption.
  pose proof (Hk a w (h ++ t)) as Ht'.
  destruct (k a w (h ++ t)) as [t' r']. simpl in *.
  apply observes_app; assumption.
Qed.

Lemma heeds_try_except {A : Type} (G : World -> list Event -> Event -> Prop) (m : M A)
    (handler : string -> M A) :
  heeds G m -> (forall e, heeds G (handler e)) -> heeds G (try_except m handler).
Proof.
  intros Hm Hh w h. unfold try_except. pose proof (Hm w h) as Ht.
  destruct (m w h) as [t [a | e |]]; simpl in *; try assumption.
  pose proof (Hh e w (h ++ t)) as Ht'.
  destruct (handler e w (h ++ t)) as [t' r']. simpl in *.
  apply observes_app; assumption.
Qed.

Lemma heeds_for_each {A S : Type} (G : World -> list Event -> Event -> Prop)
    (l : list A) (body : A -> S -> M S) :
  (forall a s, heeds G (body a s)) -> forall s, heeds G (for_each l body s).
Proof.
  intros Hbody. induction l as [| a l IH]; intros s; simpl.
  - intros w h. apply observes_each. constructor.
  - apply heeds_bind; [apply Hbody | intros s'; apply IH].
Qed.

Lemma deletion_checked_other (ev : Event) :
  is_unlink ev = false -> forall w past, deletion_checked w past ev.
Proof. destruct ev; intros Hev w past; solve [exact I | discriminate]. Qed.

Lemma heeds_no_unlink {A : Type} (m : M A) :
  (forall w, behaves w any_exception true (fun ev => is_unlink ev = false) (fun _ => True) m) ->
  heeds deletion_checked m.
Proof.
  intros Hm w h. apply observes_each.
  eapply List.Forall_impl; [| apply (Hm w)].
  intros ev Hev past. apply deletion_checked_other. exact Hev.
Qed.

(** Goals [heeds deletion_checked m], by the structure of [m]. *)
Ltac step_heeds :=
  repeat first
    [ match goal with |- forall _, _ => intro end
    | match goal with
      | |- heeds _ (match ?x with _ => _ end) => destruct x
      | |- heeds _ (if ?b then _ else _) => destruct b
      end
    | solve [auto with safety]
    | apply heeds_no_unlink; solve [step_behaves idtac idtac]
    | apply heeds_bind
    | apply heeds_try_except
    | apply heeds_for_each ].

(** [_are_files_identical] deletes nothing, and answers true only after
    reading equal sizes and equal, non-empty digests of the two files. *)
Lemma are_files_identical_run (settings : Settings) (file1 file2 : path) (w : World)
    (h : list Event) :
  Forall (fun ev => is_unlink ev = false)
    (fst (FileService._are_files_identical file1 file2 w h))
  /\ (snd (FileService._are_files_identical file1 file2 w h) = Ok true ->
      fst (FileService._are_files_identical file1 file2 w h)
        = [EvFsRead "stat" file1; EvFsRead "stat" file2;
           EvFsRead "sha256" file1; EvFsRead "sha256" file2]
      /\ compared_before w
           (h ++ [EvFsRead "stat" file1; EvFsRead "stat" file2;
                  EvFsRead "sha256" file1; EvFsRead "sha256" file2]) file1).
Proof.
  unfold FileService._are_files_identical, FileService._calculate_file_hash, fs_try.
  unfold_monad. simpl.
  destruct (fs_size w h file1) as [size1 | e] eqn:E1; simpl;
    [| split; [repeat constructor | discriminate]].
  destruct (fs_size w (h ++ [EvFsRead "stat" file1]) file2) as [size2 | e] eqn:E2; simpl;
    [| split; [repeat constructor | discriminate]].
  destruct (Z.eqb size1 size2) eqn:Esize; simpl;
    [| split; [repeat constructor | discriminate]].
  apply Z.eqb_eq in Esize. subst size2.
  rewrite <- !List.app_assoc. simpl.
  destruct (fs_sha256 w (h ++ [EvFsRead "stat" file1; EvFsRead "stat" file2]) file1)
    as [digest1 | e] eqn:E3; simpl; rewrite <- ?List.app_assoc; simpl.
  - destruct (fs_sha256 w (h ++ [EvFsRead "stat" file1; EvFsRead "stat" file2;
                                  EvFsRead "sha256" file1]) file2)
      as [digest2 | e] eqn:E4; simpl;
      [| split; [repeat constructor | discriminate]].
    destruct (str_truthy digest1) eqn:T1; simpl;
      [| split; [repeat constructor | discriminate]].
    destruct (str_truthy digest2) eqn:T2; simpl;
      [| split; [repeat constructor | discriminate]].
    split; [repeat constructor |].
    intros [= Hsame]. apply String.eqb_eq in Hsame. subst digest2.
    split; [reflexivity |].
    exists h, file2, size1, digest1.
    repeat split; try assumption. apply str_truthy_nonempty. assumption.
  - destruct (fs_sha256 w (h ++ [EvFsRead "stat" file1; EvFsRead "stat" file2;
                                  EvFsRead "sha256" file1]) file2)
      as [digest2 | e'] eqn:E4; simpl;
      (split; [repeat constructor | discriminate]).
Qed.

Lemma heeds_compare_and_unlink {A : Type} (settings : Settings) (file_path target_path : path)
    (a : A) (rest : M A) :
  heeds deletion_checked rest ->
  heeds deletion_checked
    (bind (FileService._are_files_identical file_path target_path)
       (fun identical =>
          if identical then
            bind (call (EvUnlink file_path) (fun w h => fs_unlink w h file_path))
              (fun _ => ret a)
          else rest)).
Proof.
  intros Hrest w h. unfold bind at 1.
  destruct (are_files_identical_run settings file_path target_path w h) as [Hno Htrue].
  destruct (FileService._are_files_identical file_path target_path w h)
    as [t [[|] | e |]]; cbn [fst snd] in *;
    try (apply observes_each;
         eapply List.Forall_impl; [| exact Hno];
         intros ev Hev past; apply deletion_checked_other; exact Hev).
  - destruct (Htrue eq_refl) as [-> Hcompared].
    unfold_monad. simpl.
    destruct (fs_unlink w _ file_path); simpl;
      apply (observes_app deletion_checked w h
               [EvFsRead "stat" file_path; EvFsRead "stat" target_path;
                EvFsRead "sha256" file_path; EvFsRead "sha256" target_path]
               [EvUnlink file_path]);
      [ apply observes_each; repeat constructor
      | apply observes_single; exact Hcompared
      | apply observes_each; repeat constructor
      | apply observes_single; exact Hcompared ].
  - pose proof (Hrest w (h ++ t)) as Ht'.
    destruct (rest w (h ++ t)) as [t' r']. cbn [fst] in *.
    apply observes_app; [| exact Ht'].
    apply observes_each. eapply List.Forall_impl; [| exact Hno].
    intros ev Hev past. apply deletion_checked_other. exact Hev.
Qed.

Lemma heeds_organize_file (settings : Settings) (fuel : nat) (self : FileService.t)
    (dir_path : path) (create_subdirs : bool) (file_path : path)
    (organized_files : dict (list string)) :
  heeds deletion_checked
    (FileService.organize_file settings fuel self dir_path create_subdirs file_path
       organized_files).
Proof.
  unfold FileService.organize_file.
  pose proof (fun w => behaves_free_target w (fun ev => is_unlink ev = false) fuel
                         (fun _ => eq_refl)) as Hfree.
  apply heeds_bind; [apply heeds_no_unlink; step_behaves idtac idtac |].
  intros target_path.
  apply heeds_bind; [apply heeds_no_unlink; step_behaves idtac idtac |].
  intros taken.
  destruct (negb taken); [apply heeds_no_unlink; step_behaves idtac idtac |].
  destruct (duplicate_check_enabled settings);
    [| apply heeds_no_unlink; step_behaves idtac idtac].
  apply (heeds_compare_and_unlink settings).
  apply heeds_no_unlink. step_behaves idtac idtac.
Qed.

(** X18: [organize_directory] deletes a file only as a copy.  In every run,
    for every file system, each deletion comes directly after the
    comparison of the deleted file with another one, in which both had
    the same size and the same, non-empty SHA-256 digest. *)
Theorem deletes_only_identical_copies (settings : Settings) (fuel : nat)
    (self : FileService.t) (directory_path : string) (create_subdirs : bool)
    (w : World) (h pre post : list Event) (p : path) :
  fst (FileService.organize_directory settings fuel self directory_path create_subdirs
         w h) = pre ++ EvUnlink p :: post ->
  compared_before w (h ++ pre) p.
Proof.
  intros E.
  assert (H : heeds deletion_checked
                (FileService.organize_directory settings fuel self directory_path
                   create_subdirs)).
  { unfold FileService.organize_directory.
    apply heeds_bind;
      [apply heeds_no_unlink; intros w0;
       apply behaves_is_directory_allowed; [reflexivity | intros; exact I] |].
    pose proof (heeds_organize_file settings fuel self) as Hfile.
    unfold FileService._create_backup.
    step_heeds. }
  exact (H w h pre (EvUnlink p) post E).
Qed.

Lemma deletes_only_identical_copies_witness :
  let settings := example_settings None true in
  let file := ["/"; "home"; "user"; "Documents"; "a.txt"] in
  let copy := ["/"; "home"; "user"; "Documents"; "documents"; "a.txt"] in
  let pre :=
    [EvResolve ["/"; "home"; "user"; "Documents"];
     EvFsRead "exists" ["/"; "home"; "user"; "Documents"];
     EvFsRead "is_dir" ["/"; "home"; "user"; "Documents"];
     EvLog "file_service" "directory_organization_started"; EvClock;
     EvCopytree ["/"; "home"; "user"; "Documents"]
       ["/"; "home"; "user"; "Documents_backup_2025-01-01T00:00:4"];
     EvLog "file_service" "backup_created";
     EvFsRead "iterdir" ["/"; "home"; "user"; "Documents"];
     EvFsRead "is_file" file;
     EvMkdir ["/"; "home"; "user"; "Documents"; "documents"];
     EvFsRead "exists" copy;
     EvFsRead "stat" file; EvFsRead "stat" copy;
     EvFsRead "sha256" file; EvFsRead "sha256" copy] in
  let post :=
    [EvFsRead "is_file" ["/"; "home"; "user"; "Documents"; "documents"];
     EvClock; EvLog "file_service" "directory_organization_completed"] in
  fst (FileService.organize_directory settings 5 (FileService.new settings)
         "/home/user/Documents" true duplicate_world [])
    = pre ++ EvUnlink file :: post
  /\ compared_before duplicate_world ([] ++ pre) file.
Proof.
  intros settings file copy pre post.
  assert (E : fst (FileService.organize_directory settings 5 (FileService.new settings)
                     "/home/user/Documents" true duplicate_world [])
              = pre ++ EvUnlink file :: post) by (vm_compute; reflexivity).
  split; [exact E |].
  exact (deletes_only_identical_copies settings 5 (FileService.new settings)
           "/home/user/Documents" true duplicate_world [] pre post file E).
Defined.

(* ===================================================================== *)
(** ** CrystalAssistant: tasks and reloading *)
(* ===================================================================== *)

Lemma load_capabilities_run (self : CrystalAssistant.t) (w : World) (h : list Event) :
  exists t self',
    CrystalAssistant._load_capabilities self w h = (t, Ok self')
    /\ CrystalAssistant.name self' = CrystalAssistant.name self
    /\ CrystalAssistant.instructions self' = CrystalAssistant.instructions self
    /\ (contains "personality" (lower (CrystalAssistant.instructions self)) = false ->
        contains "traits" (lower (CrystalAssistant.instructions self)) = false ->
        CrystalAssistant.personality_traits self'
          = CrystalAssistant.personality_traits self).
Proof.
  unfold CrystalAssistant._load_capabilities. unfold_monad. simpl.
  destruct (contains "personality" (lower (CrystalAssistant.instructions self)));
    destruct (contains "traits" (lower (CrystalAssistant.instructions self))); simpl;
    (eexists; eexists; split; [reflexivity |]); repeat split; try discriminate.
Qed.

Lemma reload_configuration_run (self : CrystalAssistant.t) (w : World) (h : list Event) :
  exists t text self',
    CrystalAssistant.reload_configuration self w h = (t, Ok self')
    /\ CrystalAssistant._load_instructions self w h
       = (fst (CrystalAssistant._load_instructions self w h),
          Ok (CrystalAssistant.set_instructions text self))
    /\ CrystalAssistant.name self' = CrystalAssistant.name self
    /\ CrystalAssistant.instructions self' = text
    /\ (contains "personality" (lower text) = false ->
        contains "traits" (lower text) = false ->
        CrystalAssistant.personality_traits self'
          = CrystalAssistant.personality_traits self).
Proof.
  unfold CrystalAssistant.reload_configuration.
  destruct (load_instructions_shape self w h) as (t1 & text & E1 & _).
  rewrite (bind_ok _ _ _ _ _ _ E1). cbv beta.
  destruct (load_capabilities_run (CrystalAssistant.set_instructions text self) w (h ++ t1))
    as (t2 & self2 & E2 & Hname & Htext & Htraits).
  rewrite (bind_ok _ _ _ _ _ _ E2). cbv beta.
  rewrite bind_log. simpl.
  eexists; exists text; eexists; split; [reflexivity |].
  split; [rewrite E1; reflexivity |].
  split; [exact Hname |]. split; [exact Htext |]. exact Htraits.
Qed.

(** X21: [execute_task] never raises.  Its result names the task type and
    reports success exactly for [status_check], [capability_list] and
    [reload_instructions]; for every other task type the result carries
    the message that the task type is not implemented for this assistant,
    and only [reload_instructions] can change the assistant. *)
Theorem execute_task_outcome (self : CrystalAssistant.t) (task_type : string)
    (parameters : dict value) (w : World) (h : list Event) :
  exists t self' r,
    CrystalAssistant.execute_task self task_type parameters w h = (t, Ok (self', r))
    /\ dict_get "task_type" r = Some (VStr task_type)
    /\ dict_get "success" r
       = Some (VBool (mem task_type
                        ["status_check"; "capability_list"; "reload_instructions"]))
    /\ (mem task_type ["status_check"; "capability_list"; "reload_instructions"] = false ->
        dict_get "error" r
        = Some (VStr ("Task type '" +:+ task_type +:+ "' not implemented for "
                      +:+ CrystalAssistant.name self)))
    /\ (task_type <> "reload_instructions" -> self' = self).
Proof.
  unfold CrystalAssistant.execute_task. rewrite bind_log. cbv beta. unfold mem. simpl.
  destruct (String.eqb task_type "status_check") eqn:E1.
  { unfold CrystalAssistant.get_status. unfold_monad. simpl.
    eexists; eexists; eexists; split; [reflexivity |].
    repeat split; try reflexivity. discriminate. }
  destruct (String.eqb task_type "capability_list") eqn:E2.
  { unfold_monad. simpl.
    eexists; eexists; eexists; split; [reflexivity |].
    repeat split; try reflexivity. discriminate. }
  destruct (String.eqb task_type "reload_instructions") eqn:E3.
  { destruct (reload_configuration_run self w
                (h ++ [EvLog (lower (CrystalAssistant.name self) +:+ "_assistant")
                         "task_execution_started"]))
      as (t1 & text & self1 & Erun & _).
    cbv iota.
    match goal with
    | |- context [bind (CrystalAssistant.reload_configuration self) ?k1] =>
        pose proof (bind_ok _ k1 _ _ _ _ Erun) as Einner
    end.
    cbn in Einner. unfold try_except. rewrite (bind_ok _ _ _ _ _ _ Einner).
    unfold_monad. simpl.
    eexists; eexists; eexists; split; [reflexivity |].
    repeat split; try reflexivity; try discriminate.
    apply String.eqb_eq in E3. intros Hne. contradiction. }
  unfold_monad. simpl.
  eexists; eexists; eexists; split; [reflexivity |].
  repeat split; reflexivity.
Qed.

(** X22: reloading keeps stale personality traits.  When the instructions
    file is read and its text contains neither [personality] nor
    [traits], in any case, [reload_configuration] takes the new text as
    instructions and leaves the personality traits as they were, those
    parsed from earlier instructions included. *)
Theorem reload_keeps_stale_traits (self : CrystalAssistant.t) (file text : string)
    (w : World) (h : list Event) :
  instructions_file (CrystalAssistant.config self) = Some file ->
  str_truthy file = true ->
  fs_exists w h (Pathlib.Path file) = true ->
  fs_read_text w (h ++ [EvFsRead "exists" (Pathlib.Path file)]) (Pathlib.Path file)
    = Returns text ->
  contains "personality" (lower text) = false ->
  contains "traits" (lower text) = false ->
  exists t self',
    CrystalAssistant.reload_configuration self w h = (t, Ok self')
    /\ CrystalAssistant.instructions self' = text
    /\ CrystalAssistant.personality_traits self'
       = CrystalAssistant.personality_traits self.
Proof.
  intros Hfile Htruthy Hexists Hread Hp Ht.
  destruct (reload_configuration_run self w h)
    as (t & text' & self' & Erun & Eload & _ & Htext & Htraits).
  assert (Hsame : text' = text).
  { revert Eload. unfold CrystalAssistant._load_instructions.
    rewrite Hfile, Htruthy. unfold fs_query, fs_try. unfold_monad. simpl.
    rewrite Hexists. simpl. rewrite Hread. simpl.
    intros [= E]. symmetry. exact E. }
  rewrite Hsame in Htext, Htraits. exists t, self'. split; [exact Erun |].
  split; [exact Htext |]. apply Htraits; assumption.
Qed.

Lemma reload_keeps_stale_traits_witness :
  let self := {| CrystalAssistant.name := "Ruby";
                 CrystalAssistant.config :=
                   {| instructions_file := Some "/home/user/Documents/a.txt";
                      preferred_model := None;
                      capabilities_config := None |};
                 CrystalAssistant.is_active := true;
                 CrystalAssistant.instructions := "## Personality" +:+ NL +:+ "- tone: warm";
                 CrystalAssistant.capabilities := [];
                 CrystalAssistant.personality_traits := [("tone", VStr "warm")] |} in
  exists t self',
    CrystalAssistant.reload_configuration self duplicate_world [] = (t, Ok self')
    /\ CrystalAssistant.instructions self' = "hello"
    /\ CrystalAssistant.personality_traits self'
       = CrystalAssistant.personality_traits self.
Proof.
  intros self.
  apply (reload_keeps_stale_traits self "/home/user/Documents/a.txt" "hello"
           duplicate_world []); reflexivity.
Defined.

(* ===================================================================== *)
(** ** CrystalOrchestrator: the registry *)
(* ===================================================================== *)

Lemma dict_keys_set {V : Type} (k : string) (v v' : V) (d : dict V) :
  dict_get k d = Some v' -> dict_keys (dict_set k v d) = dict_keys d.
Proof.
  induction d as [| [k2 v2] d IH]; simpl; [discriminate |].
  destruct (String.eqb_spec k k2) as [-> | Hne]; simpl; [reflexivity |].
  intros Hget. rewrite (IH Hget). reflexivity.
Qed.

Lemma set_instructions_same (a : CrystalAssistant.t) :
  CrystalAssistant.set_instructions (CrystalAssistant.instructions a) a = a.
Proof. destruct a. reflexivity. Qed.

Lemma orchestrator_process_message_run (settings : Settings)
    (self : CrystalOrchestrator.t) (assistant_name message : string)
    (context : option (dict value)) (assistant : CrystalAssistant.t) (w : World)
    (h : list Event) :
  CrystalOrchestrator.is_initialized self = true ->
  dict_get (lower assistant_name) (CrystalOrchestrator.assistants self) = Some assistant ->
  exists t text service envelope,
    CrystalOrchestrator.process_message settings self assistant_name message context w h
      = (t, Ok (CrystalOrchestrator.set_ai_service service
                  (CrystalOrchestrator.set_assistants
                     (dict_set (lower assistant_name)
                        (CrystalAssistant.set_instructions text assistant)
                        (CrystalOrchestrator.assistants self)) self),
                envelope))
    /\ dict_get "assistant" envelope = Some (VStr (lower assistant_name)).
Proof.
  intros Hinit Hfound.
  unfold CrystalOrchestrator.process_message, CrystalOrchestrator.ensure_initialized.
  rewrite Hinit. simpl negb. cbv iota.
  rewrite (bind_ok _ _ w h [] self eq_refl). cbv beta zeta. rewrite Hfound.
  rewrite bind_log. cbv beta. unfold try_except.
  set (h1 := (h ++ []) ++ [EvLog "orchestrator" "process_message"]).
  destruct (assistant_process_message_spec settings assistant
              (CrystalOrchestrator.ai_service self) message
              (CrystalOrchestrator.context_or_empty context) w h1)
    as (t & r & E & Hr).
  destruct r as [[[assistant' service'] response] | e |]; [| | contradiction].
  - rewrite (bind_ok _ _ _ _ _ _ E). unfold_monad. simpl.
    destruct Hr as ((loaded & -> & _) & _).
    eexists; exists loaded, service'; eexists. split; [reflexivity | reflexivity].
  - rewrite (bind_raise _ _ _ _ _ _ E). unfold_monad. simpl.
    eexists; exists (CrystalAssistant.instructions assistant),
      (CrystalOrchestrator.ai_service self); eexists.
    assert (Hsame : dict_set (lower assistant_name) assistant
                      (CrystalOrchestrator.assistants self)
                    = CrystalOrchestrator.assistants self).
    { clear -Hfound. revert Hfound.
      induction (CrystalOrchestrator.assistants self) as [| [k2 v2] d IH]; simpl;
        [discriminate |].
      destruct (String.eqb_spec (lower assistant_name) k2) as [-> | Hne].
      - intros [= ->]. reflexivity.
      - intros Hget. rewrite (IH Hget). reflexivity. }
    rewrite set_instructions_same, Hsame.
    split; [destruct self; reflexivity | reflexivity].
Qed.

(** X24: on an initialized orchestrator [process_message] never raises and
    keeps the registry: the same keys in the same order, every persona
    other than the addressed one untouched, and of the addressed persona
    at most the instruction text replaced.  The scheduler, the file
    service and the initialized mark stay as they were. *)
Theorem process_message_keeps_registry (settings : Settings)
    (self : CrystalOrchestrator.t) (assistant_name message : string)
    (context : option (dict value)) (w : World) (h : list Event) :
  CrystalOrchestrator.is_initialized self = true ->
  exists t self' envelope,
    CrystalOrchestrator.process_message settings self assistant_name message context w h
      = (t, Ok (self', envelope))
    /\ dict_keys (CrystalOrchestrator.assistants self')
       = dict_keys (CrystalOrchestrator.assistants self)
    /\ (forall other,
          other <> lower assistant_name ->
          dict_get other (CrystalOrchestrator.assistants self')
          = dict_get other (CrystalOrchestrator.assistants self))
    /\ (forall assistant,
          dict_get (lower assistant_name) (CrystalOrchestrator.assistants self)
            = Some assistant ->
          exists text,
            dict_get (lower assistant_name) (CrystalOrchestrator.assistants self')
            = Some (CrystalAssistant.set_instructions text assistant))
    /\ CrystalOrchestrator.task_scheduler self' = CrystalOrchestrator.task_scheduler self
    /\ CrystalOrchestrator.file_service self' = CrystalOrchestrator.file_service self
    /\ CrystalOrchestrator.is_initialized self' = true.
Proof.
  intros Hinit.
  destruct (dict_get (lower assistant_name) (CrystalOrchestrator.assistants self))
    as [assistant |] eqn:Hfound.
  - destruct (orchestrator_process_message_run settings self assistant_name message
                context assistant w h Hinit Hfound)
      as (t & text & service & envelope & E & _).
    eexists; eexists; eexists; split; [exact E |]. simpl.
    split; [apply (dict_keys_set _ _ assistant); assumption |].
    split; [intros other Hne; apply dict_get_set_neq; assumption |].
    split; [| repeat split; assumption].
    intros a [= <-]. exists text. apply dict_get_set_eq.
  - unfold CrystalOrchestrator.process_message, CrystalOrchestrator.ensure_initialized.
    rewrite Hinit. simpl negb. cbv iota.
    rewrite (bind_ok _ _ w h [] self eq_refl). cbv beta zeta. rewrite Hfound. simpl.
    eexists; eexists; eexists; split; [reflexivity |].
    repeat split; try assumption; try reflexivity. intros a [=].
Qed.

Lemma process_message_keeps_registry_witness :
  let settings := example_settings None true in
  let w := example_world (Returns ["llama3.1:8b"]) (Returns "Hello!")
             (Raises "connection refused") [] in
  let self := {| CrystalOrchestrator.assistants :=
                   [("ruby", CrystalOrchestrator.RubyAssistant)];
                 CrystalOrchestrator.ai_service := Some AIService.new;
                 CrystalOrchestrator.task_scheduler := None;
                 CrystalOrchestrator.file_service := None;
                 CrystalOrchestrator.is_initialized := true |} in
  exists t self' envelope,
    CrystalOrchestrator.process_message settings self "Ruby" "hello" None w []
      = (t, Ok (self', envelope))
    /\ dict_keys (CrystalOrchestrator.assistants self')
       = dict_keys (CrystalOrchestrator.assistants self)
    /\ (forall other,
          other <> lower "Ruby" ->
          dict_get other (CrystalOrchestrator.assistants self')
          = dict_get other (CrystalOrchestrator.assistants self))
    /\ (forall assistant,
          dict_get (lower "Ruby") (CrystalOrchestrator.assistants self) = Some assistant ->
          exists text,
            dict_get (lower "Ruby") (CrystalOrchestrator.assistants self')
            = Some (CrystalAssistant.set_instructions text assistant))
    /\ CrystalOrchestrator.task_scheduler self' = CrystalOrchestrator.task_scheduler self
    /\ CrystalOrchestrator.file_service self' = CrystalOrchestrator.file_service self
    /\ CrystalOrchestrator.is_initialized self' = true.
Proof.
  intros settings w self.
  apply (process_message_keeps_registry settings self "Ruby" "hello" None w []).
  reflexivity.
Defined.

(** X25: the two lookups of a persona disagree on case.  For a name that
    is registered only in its lower-case form, [process_message] reaches
    the persona, answering under the lower-case name, while
    [get_assistant_status], which looks the name up as given, reports that
    the assistant is not found. *)
Theorem status_lookup_is_case_sensitive (settings : Settings)
    (self : CrystalOrchestrator.t) (assistant_name message : string)
    (context : option (dict value)) (assistant : CrystalAssistant.t) (w : World)
    (h : list Event) :
  CrystalOrchestrator.is_initialized self = true ->
  dict_get (lower assistant_name) (CrystalOrchestrator.assistants self) = Some assistant ->
  dict_get assistant_name (CrystalOrchestrator.assistants self) = None ->
  (exists t self' envelope,
     CrystalOrchestrator.process_message settings self assistant_name message context w h
       = (t, Ok (self', envelope))
     /\ dict_get "assistant" envelope = Some (VStr (lower assistant_name)))
  /\ CrystalOrchestrator.get_assistant_status self (Some assistant_name) w h
     = ([], Ok [("error", VStr ("Assistant '" +:+ assistant_name +:+ "' not found"))]).
Proof.
  intros Hinit Hlower Hverbatim. split.
  - destruct (orchestrator_process_message_run settings self assistant_name message
                context assistant w h Hinit Hlower)
      as (t & text & service & envelope & E & Hname).
    eauto.
  - unfold CrystalOrchestrator.get_assistant_status.
    destruct (str_truthy assistant_name) eqn:Htruthy.
    + rewrite Hverbatim. reflexivity.
    + apply str_truthy_false in Htruthy. subst assistant_name.
      simpl in Hlower. congruence.
Qed.

Lemma status_lookup_is_case_sensitive_witness :
  let settings := example_settings None true in
  let w := example_world (Returns ["llama3.1:8b"]) (Returns "Hello!")
             (Raises "connection refused") [] in
  let self := {| CrystalOrchestrator.assistants :=
                   [("ruby", CrystalOrchestrator.RubyAssistant)];
                 CrystalOrchestrator.ai_service := Some AIService.new;
                 CrystalOrchestrator.task_scheduler := None;
                 CrystalOrchestrator.file_service := None;
                 CrystalOrchestrator.is_initialized := true |} in
  (exists t self' envelope,
     CrystalOrchestrator.process_message settings self "Ruby" "hello" None w []
       = (t, Ok (self', envelope))
     /\ dict_get "assistant" envelope = Some (VStr (lower "Ruby")))
  /\ CrystalOrchestrator.get_assistant_status self (Some "Ruby") w []
     = ([], Ok [("error", VStr ("Assistant '" +:+ "Ruby" +:+ "' not found"))]).
Proof.
  intros settings w self.
  apply (status_lookup_is_case_sensitive settings self "Ruby" "hello" None
           CrystalOrchestrator.RubyAssistant w []); reflexivity.
Defined.

(* ===================================================================== *)
(** ** The HTTP routes *)
(* ===================================================================== *)

(** X27: [POST /chat] answers a request for an unregistered persona with
    status 500.  The envelope an initialized orchestrator returns for it
    has no [timestamp], which the response model requires, so the model
    refuses it and the route reports the validation error; this holds for
    every behaviour of the validation of the other fields. *)
Theorem chat_with_unknown_persona_gives_500 (settings : Settings)
    (validate_field : string -> value -> option value)
    (validation_error : list string -> string)
    (orchestrator : CrystalOrchestrator.t) (request : Routes.MessageRequest)
    (w : World) (h : list Event) :
  CrystalOrchestrator.is_initialized orchestrator = true ->
  dict_get (lower (Routes.assistant request))
    (CrystalOrchestrator.assistants orchestrator) = None ->
  exists failed,
    In "timestamp" failed
    /\ Routes.chat_with_assistant settings validate_field validation_error orchestrator
         request w h
       = ([], Ok (orchestrator, Routes.HttpError 500 (validation_error failed))).
Proof.
  intros Hready Hunknown.
  pose proof (process_message_unknown_run settings orchestrator
                (Routes.assistant request) (Routes.message request)
                (Routes.context request) w h Hready Hunknown) as Erun.
  unfold Routes.chat_with_assistant.
  match goal with
  | |- context [bind (try_except ?m ?handler) ?k] =>
      assert (Etry : try_except m handler w h
                     = ([] ++ [],
                        Ok (inl (orchestrator,
                                 [("message",
                                   VStr (CrystalOrchestrator.not_found_message
                                           orchestrator
                                           (lower (Routes.assistant request))));
                                  ("assistant", VStr "system");
                                  ("error", VBool true)]))))
        by (apply try_except_ok; rewrite (bind_ok _ _ _ _ _ _ Erun); reflexivity);
      rewrite (bind_ok _ k _ _ _ _ Etry)
  end.
  cbv beta iota. unfold Routes.MessageResponse.
  match goal with
  | |- context [List.filter ?f Routes.MessageResponse_fields] =>
      destruct (List.filter f Routes.MessageResponse_fields) as [| field failed] eqn:Efilter;
      [ assert (Hin : In ("timestamp", @None value)
                        (List.filter f Routes.MessageResponse_fields))
          by (apply filter_In; split; [simpl; auto | reflexivity]);
        rewrite Efilter in Hin; destruct Hin
      | assert (Hin : In ("timestamp", @None value) (field :: failed))
          by (rewrite <- Efilter; apply filter_In; split; [simpl; auto | reflexivity]) ]
  end.
  exists (map fst (field :: failed)). split.
  - change "timestamp" with (fst ("timestamp", @None value)). apply in_map. exact Hin.
  - unfold_monad. simpl. reflexivity.
Qed.

Lemma chat_with_unknown_persona_gives_500_witness :
  let settings := example_settings None true in
  let w := example_world (Returns ["llama3.1:8b"]) (Returns "Hello!")
             (Raises "connection refused") [] in
  let validate_field := fun (_ : string) (v : value) => Some v in
  let validation_error := fun fields => "Field required: " +:+ join ", " fields in
  let orchestrator := ready_orchestrator (ready_service None None []) in
  let request := {| Routes.message := "hello"; Routes.assistant := "Emerald";
                    Routes.context := None |} in
  exists failed,
    In "timestamp" failed
    /\ Routes.chat_with_assistant settings validate_field validation_error
         orchestrator request w []
       = ([], Ok (orchestrator, Routes.HttpError 500 (validation_error failed))).
Proof.
  intros settings w validate_field validation_error orchestrator request.
  apply chat_with_unknown_persona_gives_500; reflexivity.
Defined.

(** X28: the status route answers an unknown name with status 500, not
    404.  For a name that is not a key of the registry, the
    [HTTPException] with status 404 is raised inside the [try] block of
    the route and caught by its own handler, so the response has status
    500 and carries the text of the 404 exception as detail. *)
Theorem status_of_unknown_persona_gives_500 (http_exception_str : Z -> value -> string)
    (orchestrator : CrystalOrchestrator.t) (assistant_name : string) (w : World)
    (h : list Event) :
  str_truthy assistant_name = true ->
  dict_get assistant_name (CrystalOrchestrator.assistants orchestrator) = None ->
  Routes.get_assistant_status http_exception_str orchestrator assistant_name w h
  = ([], Ok (Routes.HttpError 500
               (http_exception_str 404%Z
                  (VStr ("Assistant '" +:+ assistant_name +:+ "' not found"))))).
Proof.
  intros Htruthy Hunknown.
  unfold Routes.get_assistant_status, CrystalOrchestrator.get_assistant_status.
  rewrite Htruthy, Hunknown. reflexivity.
Qed.

Lemma status_of_unknown_persona_gives_500_witness :
  let http_exception_str :=
    fun (status : Z) (detail : value) =>
      match detail with
      | VStr text => str_of_Z status +:+ ": " +:+ text
      | _ => str_of_Z status
      end in
  let orchestrator := {| CrystalOrchestrator.assistants :=
                           [("ruby", CrystalOrchestrator.RubyAssistant)];
                         CrystalOrchestrator.ai_service := Some AIService.new;
                         CrystalOrchestrator.task_scheduler := None;
                         CrystalOrchestrator.file_service := None;
                         CrystalOrchestrator.is_initialized := true |} in
  Routes.get_assistant_status http_exception_str orchestrator "emerald"
    (example_world (Returns []) (Returns "") (Returns []) []) []
  = ([], Ok (Routes.HttpError 500
               (http_exception_str 404%Z
                  (VStr ("Assistant '" +:+ "emerald" +:+ "' not found"))))).
Proof.
  intros http_exception_str orchestrator.
  apply (status_of_unknown_persona_gives_500 http_exception_str orchestrator "emerald");
    reflexivity.
Defined.

(** X29: [POST /tasks/execute] answers a request for an unregistered
    persona with status 200: the route returns the envelope of the
    initialized orchestrator as it is, so the failure is visible only in
    the [error] entry of the body. *)
Theorem task_for_unknown_persona_gives_200 (settings : Settings)
    (orchestrator : CrystalOrchestrator.t) (request : Routes.TaskRequest)
    (w : World) (h : list Event) :
  CrystalOrchestrator.is_initialized orchestrator = true ->
  dict_get (lower (Routes.task_assistant request))
    (CrystalOrchestrator.assistants orchestrator) = None ->
  Routes.execute_task settings orchestrator request w h
  = ([],
     Ok (orchestrator,
         Routes.Http200
           (VDict [("message",
                    VStr (CrystalOrchestrator.not_found_message orchestrator
                            (lower (Routes.task_assistant request))));
                   ("assistant", VStr "system");
                   ("error", VBool true)]))).
Proof.
  intros Hready Hunknown. unfold Routes.execute_task.
  apply try_except_ok.
  destruct (total_run (py_str (VDict (Routes.parameters request))) w h
              (total_py_str (fun _ => False) _)) as [text Etext].
  rewrite (bind_ok _ _ _ _ _ _ Etext). cbv beta zeta.
  rewrite app_nil_r.
  rewrite (bind_ok _ _ _ _ _ _
             (process_message_unknown_run settings orchestrator
                (Routes.task_assistant request) _ _ w h Hready Hunknown)).
  simpl. reflexivity.
Qed.

Lemma task_for_unknown_persona_gives_200_witness :
  let settings := example_settings None true in
  let w := example_world (Returns ["llama3.1:8b"]) (Returns "Hello!")
             (Raises "connection refused") [] in
  let orchestrator := ready_orchestrator (ready_service None None []) in
  let request := {| Routes.task_type := "status_check"; Routes.parameters := [];
                    Routes.task_assistant := "Emerald" |} in
  Routes.execute_task settings orchestrator request w []
  = ([],
     Ok (orchestrator,
         Routes.Http200
           (VDict [("message",
                    VStr (CrystalOrchestrator.not_found_message orchestrator
                            (lower (Routes.task_assistant request))));
                   ("assistant", VStr "system");
                   ("error", VBool true)]))).
Proof.
  intros settings w orchestrator request.
  apply task_for_unknown_persona_gives_200; reflexivity.
Defined.

(* ===================================================================== *)
(** ** FileService: when the searches for a free name end *)
(* ===================================================================== *)

Lemma behaves_free_target_ends (w : World) (P : Event -> Prop) (fuel : nat) :
  searches_end w fuel ->
  (forall p, P (EvFsRead "exists" p)) ->
  forall target_path counter,
    behaves w any_exception false P (fun _ => True)
      (FileService.free_target fuel target_path counter).
Proof.
  intros Hends Hread target_path counter h.
  destruct (behaves_free_target w P fuel Hread target_path counter h) as [Ht Hr].
  split; [exact Ht |].
  pose proof (Hends target_path counter h) as Hend.
  destruct (snd (FileService.free_target fuel target_path counter w h));
    [exact I | exact I | contradiction].
Qed.

Lemma organize_directory_ends (settings : Settings) (fuel : nat)
    (self : FileService.t) (directory_path : string) (create_subdirs : bool)
    (w : World) (h : list Event) :
  searches_end w fuel ->
  match snd (FileService.organize_directory settings fuel self directory_path
               create_subdirs w h)
  with
  | Ok r => reports r
  | Raise e =>
      read_failure w (Pathlib.Path directory_path) ["resolve"; "exists"; "is_dir"] e
  | Diverge => False
  end.
Proof.
  intros Hends.
  assert (Hrun : behaves w
            (read_failure w (Pathlib.Path directory_path) ["resolve"; "exists"; "is_dir"])
            false (fun _ => True) reports
            (FileService.organize_directory settings fuel self directory_path
               create_subdirs)).
  { unfold FileService.organize_directory.
    apply behaves_bind;
      [apply behaves_is_directory_allowed; [exact I | solve_read_failure] |].
    pose proof (behaves_free_target_ends w (fun _ => True) fuel Hends (fun _ => I))
      as Hfree.
    unfold FileService.organize_file, FileService._are_files_identical,
      FileService._calculate_file_hash, FileService._create_backup.
    step_behaves solve_reports solve_read_failure. }
  destruct (Hrun h) as [_ Hr].
  destruct (snd (FileService.organize_directory settings fuel self directory_path
                   create_subdirs w h));
    [exact Hr | exact Hr | discriminate].
Qed.

(** X15: what [organize_directory] gives its caller.  It returns a result
    dictionary with a [success] entry: no failure of the file system
    inside its [try], of a single file or of the whole run, reaches the
    caller as an exception.  It raises only what the tests before the
    [try] raise: [resolve], [exists] and [is_dir] of the directory.  It
    fails to end only when a search for a free name runs out of the given
    number of renamings. *)
Theorem organize_directory_never_raises (settings : Settings) (fuel : nat)
    (self : FileService.t) (directory_path : string) (create_subdirs : bool)
    (w : World) (h : list Event) :
  match snd (FileService.organize_directory settings fuel self directory_path
               create_subdirs w h)
  with
  | Ok result => reports result
  | Raise e =>
      read_failure w (Pathlib.Path directory_path) ["resolve"; "exists"; "is_dir"] e
  | Diverge => ~ searches_end w fuel
  end.
Proof.
  destruct (snd (FileService.organize_directory settings fuel self directory_path
                   create_subdirs w h)) as [result | e |] eqn:Erun.
  - assert (Hrun : behaves w any_exception true (fun _ => True) reports
              (FileService.organize_directory settings fuel self directory_path
                 create_subdirs)).
    { unfold FileService.organize_directory.
      apply behaves_bind;
        [apply behaves_is_directory_allowed; [exact I | intros; exact I] |].
      pose proof (behaves_organize_file w settings fuel self) as Hfile.
      step_behaves solve_reports idtac. }
    destruct (Hrun h) as [_ Hr]. rewrite Erun in Hr. exact Hr.
  - assert (Hrun : behaves w
              (read_failure w (Pathlib.Path directory_path)
                 ["resolve"; "exists"; "is_dir"])
              true (fun _ => True) (fun _ => True)
              (FileService.organize_directory settings fuel self directory_path
                 create_subdirs)).
    { unfold FileService.organize_directory.
      apply behaves_bind;
        [apply behaves_is_directory_allowed; [exact I | solve_read_failure] |].
      pose proof (behaves_organize_file w settings fuel self) as Hfile.
      step_behaves idtac solve_read_failure. }
    destruct (Hrun h) as [_ Hr]. rewrite Erun in Hr. exact Hr.
  - intros Hends.
    pose proof (organize_directory_ends settings fuel self directory_path create_subdirs
                  w h Hends) as Hr.
    rewrite Erun in Hr. exact Hr.
Qed.

(** X35: for a directory whose resolved path is contained in none of the
    allowed roots, [organize_directory] returns a result whose [success] is
    false, with the error text that names the directory, and changes
    nothing in the file system: its only event is the resolution of the
    path. *)
Theorem outside_allowed_roots_is_refused (settings : Settings)
    (self : FileService.t) (directory_path : string) (create_subdirs : bool)
    (fuel : nat) (w : World) (h : list Event) :
  allow_file_operations settings = true ->
  fs_error w h "resolve" (Pathlib.Path directory_path) = None ->
  (forall allowed, In allowed (FileService.allowed_directories self) ->
     Pathlib.is_relative_to (fs_resolve w h (Pathlib.Path directory_path)) allowed
       = false) ->
  FileService.organize_directory settings fuel self directory_path create_subdirs w h
  = ([EvResolve (Pathlib.Path directory_path)],
     Ok [("success", VBool false);
         ("error", VStr ("Directory " +:+ directory_path
                         +:+ " is not in the allowed directories list"))]).
Proof.
  intros Hallowed Hresolves Houtside. unfold FileService.organize_directory.
  rewrite (bind_ok _ _ _ _ _ _
             (directory_refused settings self (Pathlib.Path directory_path) w h Hallowed
                Hresolves Houtside)).
  reflexivity.
Qed.

Lemma outside_allowed_roots_is_refused_witness :
  let settings := example_settings None true in
  let w := example_world (Returns []) (Returns "") (Returns []) [["/"; "etc"]] in
  FileService.organize_directory settings 10 (FileService.new settings) "/etc" true w []
  = ([EvResolve (Pathlib.Path "/etc")],
     Ok [("success", VBool false);
         ("error", VStr ("Directory " +:+ "/etc"
                         +:+ " is not in the allowed directories list"))]).
Proof.
  intros settings w.
  apply outside_allowed_roots_is_refused; [reflexivity | reflexivity |].
  intros allowed Hin. simpl in Hin.
  destruct Hin as [<- | [<- | []]]; reflexivity.
Defined.

(* ===================================================================== *)
(** ** Services with and without a finished initialization *)
(* ===================================================================== *)

(** X31: an initialized service without an OpenAI client and without a
    usable local backend (no Ollama client, or no local model listed)
    answers every request with exactly the degraded-service message, and
    contacts no backend: the only event is the log entry of the start. *)
Theorem initialized_service_without_backend_degrades (settings : Settings)
    (self : AIService.t) (message : string) (model : option string)
    (context : option (dict value)) (max_tokens : option Z) (w : World)
    (h : list Event) :
  AIService.is_initialized self = true ->
  AIService.openai_client self = None ->
  AIService.ollama_client self = None \/ AIService.available_local_models self = [] ->
  AIService.generate_response settings self message model context max_tokens w h
    = ([EvLog "ai_service" "generate_response_started"],
       Ok (self, AIService.degraded_message)).
Proof.
  intros Hself Hopenai Hlocal.
  exact (generate_response_degraded_run settings self message model context max_tokens
           w h Hself Hopenai Hlocal).
Qed.

Lemma initialized_service_without_backend_degrades_witness :
  AIService.generate_response (example_settings None true)
    (ready_service None (Some "http://localhost:11434") []) "hello" None None None
    (example_world (Returns []) (Returns "hi") (Returns [Some "hi"]) []) []
  = ([EvLog "ai_service" "generate_response_started"],
     Ok (ready_service None (Some "http://localhost:11434") [],
         AIService.degraded_message)).
Proof.
  apply initialized_service_without_backend_degrades.
  - reflexivity.
  - reflexivity.
  - right. reflexivity.
Defined.

(** X32: on an initialized orchestrator, a persona name whose lower-cased
    form is no key of the registry gets the error envelope: [error] is
    set, the assistant is [system], and the message lists every registered
    persona name.  The orchestrator is unchanged and there is no event, so
    nothing reaches a persona or the coordinator. *)
Theorem unknown_persona_gets_error_envelope (settings : Settings)
    (self : CrystalOrchestrator.t) (assistant_name message : string)
    (context : option (dict value)) (w : World) (h : list Event) :
  CrystalOrchestrator.is_initialized self = true ->
  dict_get (lower assistant_name) (CrystalOrchestrator.assistants self) = None ->
  exists text,
    CrystalOrchestrator.process_message settings self assistant_name message context w h
      = ([], Ok (self, [("message", VStr text);
                        ("assistant", VStr "system");
                        ("error", VBool true)]))
    /\ forall registered,
         In registered (dict_keys (CrystalOrchestrator.assistants self)) ->
         contains registered text = true.
Proof.
  intros Hself Hunknown.
  exists (CrystalOrchestrator.not_found_message self (lower assistant_name)).
  split.
  - apply process_message_unknown_run; assumption.
  - intros registered Hin. apply not_found_message_lists. exact Hin.
Qed.

Lemma unknown_persona_gets_error_envelope_witness :
  let settings := example_settings None true in
  let w := example_world (Returns ["llama3.1:8b"]) (Returns "Hello!")
             (Raises "connection refused") [] in
  let self := ready_orchestrator (ready_service None None []) in
  exists text,
    CrystalOrchestrator.process_message settings self "Emerald" "hello" None w []
      = ([], Ok (self, [("message", VStr text);
                        ("assistant", VStr "system");
                        ("error", VBool true)]))
    /\ forall registered,
         In registered (dict_keys (CrystalOrchestrator.assistants self)) ->
         contains registered text = true.
Proof.
  intros settings w self.
  apply unknown_persona_gets_error_envelope; reflexivity.
Defined.



(** X34: the two [POST] routes cannot serve an orchestrator that is not
    initialized.  [process_message] calls [initialize], whose first
    statement, [system_event], raises a [TypeError]; each route catches it
    and answers with status 500 and the text of the exception, for every
    request, and the orchestrator stays as it was. *)
Theorem routes_on_uninitialized_orchestrator (settings : Settings)
    (validate_field : string -> value -> option value)
    (validation_error : list string -> string)
    (orchestrator : CrystalOrchestrator.t) (chat : Routes.MessageRequest)
    (task : Routes.TaskRequest) (w : World) (h : list Event) :
  CrystalOrchestrator.is_initialized orchestrator = false ->
  Routes.chat_with_assistant settings validate_field validation_error orchestrator chat
    w h
  = ([], Ok (orchestrator, Routes.HttpError 500 (system_event_error w)))
  /\ Routes.execute_task settings orchestrator task w h
     = ([], Ok (orchestrator, Routes.HttpError 500 (system_event_error w))).
Proof.
  intros Hself. split.
  - unfold Routes.chat_with_assistant.
    match goal with
    | |- context [bind (try_except ?m ?handler) ?k] =>
        assert (Etry : try_except m handler w h
                       = ([] ++ [], Ok (inr (system_event_error w))))
          by (apply (try_except_raise m handler w h [] (system_event_error w));
              apply bind_raise; apply process_message_raises; exact Hself);
        rewrite (bind_ok _ k _ _ _ _ Etry)
    end.
    reflexivity.
  - unfold Routes.execute_task.
    destruct (total_run (py_str (VDict (Routes.parameters task))) w h
                (total_py_str (fun _ => False) _)) as [text Etext].
    match goal with
    | |- try_except ?m ?handler w h = _ =>
        rewrite (try_except_raise m handler w h [] (system_event_error w));
        [reflexivity |]
    end.
    rewrite (bind_ok _ _ _ _ _ _ Etext). cbv beta zeta.
    rewrite (bind_raise _ _ _ _ _ _
               (process_message_raises settings orchestrator _ _ _ w (h ++ []) Hself)).
    reflexivity.
Qed.

Lemma routes_on_uninitialized_orchestrator_witness :
  let settings := example_settings None true in
  let w := example_world (Returns ["llama3.1:8b"]) (Returns "Hello!")
             (Returns [Some "Hello!"]) [] in
  let validate_field := fun (_ : string) (v : value) => Some v in
  let validation_error := fun fields => "Field required: " +:+ join ", " fields in
  let chat := {| Routes.message := "hello"; Routes.assistant := "ruby";
                 Routes.context := None |} in
  let task := {| Routes.task_type := "status_check"; Routes.parameters := [];
                 Routes.task_assistant := "ruby" |} in
  Routes.chat_with_assistant settings validate_field validation_error
    CrystalOrchestrator.new chat w []
  = ([], Ok (CrystalOrchestrator.new, Routes.HttpError 500 (system_event_error w)))
  /\ Routes.execute_task settings CrystalOrchestrator.new task w []
     = ([], Ok (CrystalOrchestrator.new, Routes.HttpError 500 (system_event_error w))).
Proof.
  intros settings w validate_field validation_error chat task.
  apply routes_on_uninitialized_orchestrator. reflexivity.
Defined.
